(** * Book Store API

    A shallow embedding of the book store backend: the Mongoose schema of a
    book (book.schema.ts), the service over the document store
    (book.service.ts), the HTTP handlers (book.controller.ts), the route
    table (book.routes.ts) and the application (app.ts), followed by the
    properties proved about them.

    Conventions of the embedding.
    - A JavaScript string is the [string] of the bytes of its UTF-8
      encoding, which is also how the store holds it: U+00A0 is the two
      bytes 194 160.  [Text.length] counts UTF-16 code units as [.length]
      does, [Text.trim] removes the white space of ECMAScript, whatever the
      number of its bytes, and a case-insensitive comparison with an ASCII
      literal folds the ASCII letters.  A string with an unpaired surrogate
      has no UTF-8 encoding and is outside the model.
    - JavaScript numbers are rationals ([Q]): every finite double is one, and
      the schema only compares them.
    - A request body is a record of optional, already typed fields
      ([Partial<IBook>] in the source); the body of a create carries the
      declared fields of a book.
    - The document store is a list of documents in insertion order together
      with a fault flag; every operation passes the store explicitly and
      returns either a value or the error the driver would throw.
    - What the source takes from its libraries and from the clock is a
      parameter: the year read when the schema is loaded, the ObjectId cast
      of the driver, the regular-expression engine of the store, the time of
      a write and the identifier given to a new document. *)

From Stdlib Require Import ZArith QArith List String Ascii Bool Lia.
From Stdlib Require Import Permutation Sorted.
Import ListNotations.
Close Scope Q_scope.
Open Scope string_scope.
Open Scope list_scope.
Open Scope nat_scope.

(** ** JavaScript string primitives used by the schema and the store *)

Module Text.

(** The value of a byte. *)
Definition code (c : ascii) : nat := nat_of_ascii c.

(** The UTF-16 code units of the character that the byte opens: one for
    an ASCII byte and for the first byte of a sequence of two or three
    bytes, two for the first byte of a sequence of four, none for a byte
    that continues a sequence. *)
Definition units (c : ascii) : nat :=
  let n := code c in
  if n <? 128 then 1
  else if n <? 192 then 0
  else if n <? 240 then 1
  else 2.

(** [s.length] *)
Fixpoint length (s : string) : nat :=
  match s with
  | EmptyString => 0
  | String c r => units c + length r
  end.

(** The white space and the line terminators of ECMAScript, which
    [String.prototype.trim] removes, by the bytes of their encoding.
    One byte: TAB, LF, VT, FF, CR and SPACE. *)
Definition space1 (a : ascii) : bool :=
  let n := code a in
  ((9 <=? n) && (n <=? 13)) || (n =? 32).

(** Two bytes: U+00A0, the no-break space. *)
Definition space2 (a b : ascii) : bool :=
  (code a =? 194) && (code b =? 160).

(** Three bytes: U+1680; U+2000 to U+200A, U+2028, U+2029 and U+202F;
    U+205F; U+3000; U+FEFF. *)
Definition space3 (a b c : ascii) : bool :=
  let x := code a in
  let y := code b in
  let z := code c in
  ((x =? 225) && (y =? 154) && (z =? 128)) ||
  ((x =? 226) && (y =? 128) &&
   (((128 <=? z) && (z <=? 138)) || (z =? 168) || (z =? 169) || (z =? 175))) ||
  ((x =? 226) && (y =? 129) && (z =? 159)) ||
  ((x =? 227) && (y =? 128) && (z =? 128)) ||
  ((x =? 239) && (y =? 187) && (z =? 191)).

(** The rest of [s] after the white-space character at its head, if there
    is one. *)
Definition head_space (s : string) : option string :=
  match s with
  | String a r1 =>
      if space1 a then Some r1
      else
        match r1 with
        | String b r2 =>
            if space2 a b then Some r2
            else
              match r2 with
              | String c r3 => if space3 a b c then Some r3 else None
              | EmptyString => None
              end
        | EmptyString => None
        end
  | EmptyString => None
  end.

(** A byte that may open a white-space character. *)
Definition opens_space (a : ascii) : bool :=
  let n := code a in
  space1 a || (n =? 194) || (n =? 225) || (n =? 226) || (n =? 227)
  || (n =? 239).

(** [\d] of a JavaScript regular expression without the unicode flag. *)
Definition is_digit (c : ascii) : bool :=
  let n := code c in
  (48 <=? n) && (n <=? 57).

Definition is_hyphen (c : ascii) : bool := Ascii.eqb c "-".

Definition is_empty (s : string) : bool :=
  match s with
  | EmptyString => true
  | String _ _ => false
  end.

Fixpoint all (p : ascii -> bool) (s : string) : bool :=
  match s with
  | EmptyString => true
  | String c r => p c && all p r
  end.

(** [s.trimStart()]: the white-space characters at the head of [s] are
    removed one after the other. *)
Fixpoint trimStart (s : string) : string :=
  match s with
  | String a r1 =>
      if space1 a then trimStart r1
      else
        match r1 with
        | String b r2 =>
            if space2 a b then trimStart r2
            else
              match r2 with
              | String c r3 => if space3 a b c then trimStart r3 else s
              | EmptyString => s
              end
        | EmptyString => s
        end
  | EmptyString => EmptyString
  end.

(** [s.trimEnd()]: the longest end of [s] that is made of white-space
    characters only is removed. *)
Fixpoint trimEnd (s : string) : string :=
  match s with
  | EmptyString => EmptyString
  | String c r =>
      if is_empty (trimStart s) then EmptyString else String c (trimEnd r)
  end.

(** [s.trim()], the setter of a path declared with [trim: true]. *)
Definition trim (s : string) : string := trimEnd (trimStart s).

(** [s.replace(/-/g, '')] *)
Fixpoint remove_hyphens (s : string) : string :=
  match s with
  | EmptyString => EmptyString
  | String c r =>
      if is_hyphen c then remove_hyphens r else String c (remove_hyphens r)
  end.

(** Case folding of the ASCII letters: what a case-insensitive match
    compares when one side is an ASCII literal, since no other character
    folds to an ASCII letter. *)
Definition lower (c : ascii) : ascii :=
  let n := code c in
  if (65 <=? n) && (n <=? 90) then ascii_of_nat (n + 32) else c.

Fixpoint toLowerCase (s : string) : string :=
  match s with
  | EmptyString => EmptyString
  | String c r => String (lower c) (toLowerCase r)
  end.

Fixpoint startsWith (p s : string) : bool :=
  match p, s with
  | EmptyString, _ => true
  | String _ _, EmptyString => false
  | String a p', String b s' => Ascii.eqb a b && startsWith p' s'
  end.

(** [s.includes(p)] *)
Fixpoint includes (p s : string) : bool :=
  startsWith p s ||
  match s with
  | EmptyString => false
  | String _ r => includes p r
  end.

Fixpoint join (sep : string) (l : list string) : string :=
  match l with
  | [] => ""
  | [x] => x
  | x :: r => (x ++ sep ++ join sep r)%string
  end.

(** *** [decodeURIComponent]

    A percent sign must be followed by two hexadecimal digits, which give
    one byte.  The escaped bytes must spell well-formed UTF-8: an escaped
    byte below 128 stands for itself, an escaped first byte must be
    followed by escapes of the bytes that continue it, and the sequence
    must not be overlong, encode a surrogate or exceed U+10FFFF.  Every
    other character is kept.  [None] is the [URIError]. *)

Definition hex_digit (c : ascii) : option nat :=
  let n := code c in
  if (48 <=? n) && (n <=? 57) then Some (n - 48)
  else if (65 <=? n) && (n <=? 70) then Some (n - 55)
  else if (97 <=? n) && (n <=? 102) then Some (n - 87)
  else None.

(** A character kept as it is, or the byte of an escape. *)
Inductive Unit : Type :=
| Plain (c : ascii)
| Escape (byte : ascii).

Fixpoint unescape (s : string) : option (list Unit) :=
  match s with
  | EmptyString => Some []
  | String c r =>
      if Ascii.eqb c "%" then
        match r with
        | String h (String l r') =>
            match hex_digit h, hex_digit l with
            | Some x, Some y =>
                option_map (cons (Escape (ascii_of_nat (16 * x + y))))
                  (unescape r')
            | _, _ => None
            end
        | _ => None
        end
      else option_map (cons (Plain c)) (unescape r)
  end.

Definition continuation (c : ascii) : bool :=
  (128 <=? code c) && (code c <=? 191).

(** The second byte after the first byte [n] of a sequence of three:
    E0 is followed by A0..BF (nothing overlong), ED by 80..9F (no
    surrogate). *)
Definition second_of_three (n : nat) (c : ascii) : bool :=
  if n =? 224 then (160 <=? code c) && (code c <=? 191)
  else if n =? 237 then (128 <=? code c) && (code c <=? 159)
  else continuation c.

(** The second byte after the first byte [n] of a sequence of four:
    F0 is followed by 90..BF, F4 by 80..8F (nothing above U+10FFFF). *)
Definition second_of_four (n : nat) (c : ascii) : bool :=
  if n =? 240 then (144 <=? code c) && (code c <=? 191)
  else if n =? 244 then (128 <=? code c) && (code c <=? 143)
  else continuation c.

Fixpoint octets (l : list Unit) : option string :=
  match l with
  | [] => Some EmptyString
  | Plain c :: r => option_map (String c) (octets r)
  | Escape b :: r =>
      let n := code b in
      if n <? 128 then option_map (String b) (octets r)
      else if (194 <=? n) && (n <=? 223) then
        match r with
        | Escape b2 :: r2 =>
            if continuation b2 then
              option_map (fun s => String b (String b2 s)) (octets r2)
            else None
        | _ => None
        end
      else if (224 <=? n) && (n <=? 239) then
        match r with
        | Escape b2 :: Escape b3 :: r3 =>
            if second_of_three n b2 && continuation b3 then
              option_map (fun s => String b (String b2 (String b3 s)))
                (octets r3)
            else None
        | _ => None
        end
      else if (240 <=? n) && (n <=? 244) then
        match r with
        | Escape b2 :: Escape b3 :: Escape b4 :: r4 =>
            if second_of_four n b2 && continuation b3 && continuation b4 then
              option_map
                (fun s => String b (String b2 (String b3 (String b4 s))))
                (octets r4)
            else None
        | _ => None
        end
      else None
  end.

Definition decodeURIComponent (s : string) : option string :=
  match unescape s with
  | Some l => octets l
  | None => None
  end.

End Text.

(** ** The entity: book.schema.ts *)

(** An ObjectId is a 12-byte value. *)
Definition ObjectId := N.

(** [interface IBook extends Document]; dates are milliseconds. *)
Record IBook := mkBook {
  _id : ObjectId;
  title : string;
  author : string;
  isbn : string;
  publishedYear : Q;
  genre : string;
  price : Q;
  inStock : bool;
  createdAt : Z;
  updatedAt : Z
}.

(** The candidate record of a create: the declared fields of a book, each
    key present or not. *)
Record BookData := mkData {
  d_title : option string;
  d_author : option string;
  d_isbn : option string;
  d_publishedYear : option Q;
  d_genre : option string;
  d_price : option Q;
  d_inStock : option bool
}.

(** The body of an update, [Partial<IBook>]: besides the declared fields it
    may carry the keys the handler deletes. *)
Record PartialBook := mkPartial {
  p_id : option string;
  p_createdAt : option Z;
  p_updatedAt : option Z;
  p_fields : BookData
}.

(** A schema path: its setter ([trim: true]), the [required] rule and the
    other validators in the order of their declaration, each with the
    message it reports. *)
Record SchemaType (A : Type) := mkPath {
  path : string;
  setter : A -> A;
  checkRequired : A -> bool;
  required : option string;
  validators : list ((A -> bool) * (A -> string))
}.
Arguments path {A}.
Arguments setter {A}.
Arguments checkRequired {A}.
Arguments required {A}.
Arguments validators {A}.

Module BookSchema.

Definition genres : list string :=
  ["Fiction"; "Non-Fiction"; "Science"; "Technology"; "Biography";
   "History"; "Fantasy"; "Mystery"; "Romance"; "Thriller"; "Other"].

Definition mem (s : string) (l : list string) : bool :=
  existsb (String.eqb s) l.

(** [/^(?:\d{10}|\d{13})$/.test(v.replace(/-/g, ''))]; a digit is one
    byte and one code unit. *)
Definition isbn_validator (v : string) : bool :=
  let d := Text.remove_hyphens v in
  Text.all Text.is_digit d &&
  ((String.length d =? 10) || (String.length d =? 13)).

Definition nonempty (v : string) : bool := negb (Text.is_empty v).
Definition present {A : Type} (_ : A) : bool := true.
Definition says {A : Type} (m : string) : A -> string := fun _ => m.

Definition title_path : SchemaType string :=
  {| path := "title";
     setter := Text.trim;
     checkRequired := nonempty;
     required := Some "Book title is required";
     validators :=
       [ (fun v => 1 <=? Text.length v,
          says "Title must be at least 1 character long");
         (fun v => Text.length v <=? 200,
          says "Title cannot exceed 200 characters") ] |}.

Definition author_path : SchemaType string :=
  {| path := "author";
     setter := Text.trim;
     checkRequired := nonempty;
     required := Some "Author name is required";
     validators :=
       [ (fun v => 2 <=? Text.length v,
          says "Author name must be at least 2 characters long") ] |}.

Definition isbn_path : SchemaType string :=
  {| path := "isbn";
     setter := Text.trim;
     checkRequired := nonempty;
     required := Some "ISBN is required";
     validators :=
       [ (isbn_validator,
          says "Please provide a valid ISBN-10 or ISBN-13") ] |}.

(** [max: new Date().getFullYear()] is read once, when the schema is
    built: [year] is that reading. *)
Definition publishedYear_path (year : Z) : SchemaType Q :=
  {| path := "publishedYear";
     setter := fun v => v;
     checkRequired := present;
     required := Some "Published year is required";
     validators :=
       [ (fun v => Qle_bool (inject_Z 1000) v,
          says "Published year must be after 1000");
         (fun v => Qle_bool v (inject_Z year),
          says "Published year cannot be in the future") ] |}.

Definition genre_path : SchemaType string :=
  {| path := "genre";
     setter := Text.trim;
     checkRequired := nonempty;
     required := Some "Genre is required";
     validators :=
       [ (fun v => mem v genres,
          fun v => (v ++ " is not a valid genre")%string) ] |}.

Definition price_path : SchemaType Q :=
  {| path := "price";
     setter := fun v => v;
     checkRequired := present;
     required := Some "Price is required";
     validators :=
       [ (fun v => Qle_bool (inject_Z 0) v,
          says "Price cannot be negative") ] |}.

(** [inStock: { type: Boolean, default: true }] *)
Definition inStock_default : bool := true.

End BookSchema.

(** ** The document store behind [BookModel] *)

(** What an awaited driver call gives: a value, or the error it throws. *)
Inductive Result (E A : Type) : Type :=
| Ok (a : A)
| Throw (e : E).
Arguments Ok {E A}.
Arguments Throw {E A}.

(** The errors of the driver.  A validation error carries the name of the
    model when a document was validated, and none when the update
    validators ran; only a server error carries a [code]. *)
Inductive DbError : Type :=
| ValidationError (model : option string) (errors : list (string * string))
| CastError (value : string)
| MongoServerError (code : Z) (errmsg : string)
| MongooseError (reason : string).

(** The collection, in insertion order, and the state of the connection:
    [fault = Some m] when the server cannot be reached and every round trip
    is rejected with message [m]. *)
Record Store := mkStore {
  docs : list IBook;
  fault : option string
}.

(** The conditions the service passes to [find]. *)
Inductive Filter : Type :=
| Everything
| TitleOrAuthorRegex (query : string)
| GenreIs (g : string)
| InStockIs (v : bool).

Module BookModel.

Definition error_code (e : DbError) : option Z :=
  match e with
  | MongoServerError c _ => Some c
  | _ => None
  end.

Definition describe (e : string * string) : string :=
  (fst e ++ ": " ++ snd e)%string.

(** The double quote. *)
Definition quote : string := String "034" EmptyString.

Definition quoted (s : string) : string := (quote ++ s ++ quote)%string.

(** [error.message] *)
Definition error_message (e : DbError) : string :=
  match e with
  | ValidationError model errors =>
      (match model with
       | Some name => name ++ " validation failed: "
       | None => "Validation failed: "
       end ++ Text.join ", " (map describe errors))%string
  | CastError v =>
      ("Cast to ObjectId failed for value " ++ quoted v ++
       " (type string) at path " ++ quoted "_id" ++
       " for model " ++ quoted "Book")%string
  | MongoServerError _ m => m
  | MongooseError m => m
  end.

Definition duplicate_key (index : string) : DbError :=
  MongoServerError 11000
    ("E11000 duplicate key error collection: books index: " ++ index)%string.

Definition immutable_id : DbError :=
  MongoServerError 66
    "Performing an update on the path _id would modify the immutable field _id".

Definition invalid_regex : DbError :=
  MongoServerError 51091 "Regular expression is invalid".

(** *** Validation of one path *)

Fixpoint first_failure {A : Type}
    (vs : list ((A -> bool) * (A -> string))) (v : A) : option string :=
  match vs with
  | [] => None
  | (holds, msg) :: rest =>
      if holds v then first_failure rest v else Some (msg v)
  end.

(** The [required] rule runs first; the other validators are skipped on
    an absent value. *)
Definition doValidate {A : Type} (p : SchemaType A) (v : option A)
    : option string :=
  match v with
  | None => required p
  | Some x =>
      match required p with
      | Some m =>
          if checkRequired p x then first_failure (validators p) x
          else Some m
      | None => first_failure (validators p) x
      end
  end.

Definition report {A : Type} (p : SchemaType A) (v : option A)
    : list (string * string) :=
  match doValidate p v with
  | Some m => [(path p, m)]
  | None => []
  end.

(** Update validators look only at the keys of the update. *)
Definition report_if_set {A : Type} (p : SchemaType A) (v : option A)
    : list (string * string) :=
  match v with
  | None => []
  | Some _ => report p v
  end.

(** The report on a path that the candidate leaves out. *)
Definition report_if_absent {A : Type} (p : SchemaType A) (v : option A)
    : list (string * string) :=
  match v with
  | None => report p v
  | Some _ => []
  end.

Definition applySetters (d : BookData) : BookData :=
  {| d_title := option_map (setter BookSchema.title_path) (d_title d);
     d_author := option_map (setter BookSchema.author_path) (d_author d);
     d_isbn := option_map (setter BookSchema.isbn_path) (d_isbn d);
     d_publishedYear := d_publishedYear d;
     d_genre := option_map (setter BookSchema.genre_path) (d_genre d);
     d_price := d_price d;
     d_inStock := d_inStock d |}.

Definition orElse {A : Type} (v : option A) (dflt : A) : A :=
  match v with
  | Some x => x
  | None => dflt
  end.

(** *** Queries *)

Fixpoint findOne (p : IBook -> bool) (l : list IBook) : option IBook :=
  match l with
  | [] => None
  | b :: r => if p b then Some b else findOne p r
  end.

Fixpoint deleteOne (p : IBook -> bool) (l : list IBook) : list IBook :=
  match l with
  | [] => []
  | b :: r => if p b then r else b :: deleteOne p r
  end.

Fixpoint replaceOne (p : IBook -> bool) (b' : IBook) (l : list IBook)
    : list IBook :=
  match l with
  | [] => []
  | b :: r => if p b then b' :: r else b :: replaceOne p b' r
  end.

Definition has_id (oid : ObjectId) (b : IBook) : bool := N.eqb (_id b) oid.
Definition has_isbn (i : string) (b : IBook) : bool := String.eqb (isbn b) i.

(** [.sort({ createdAt: -1 })]: newest first, documents of equal date in
    the order of the collection. *)
Fixpoint insert_newest (b : IBook) (l : list IBook) : list IBook :=
  match l with
  | [] => [b]
  | x :: r =>
      if Z.leb (createdAt x) (createdAt b) then b :: l
      else x :: insert_newest b r
  end.

Fixpoint sort_newest (l : list IBook) : list IBook :=
  match l with
  | [] => []
  | b :: r => insert_newest b (sort_newest r)
  end.

Section Driver.

(** [new Date().getFullYear()] at the time the schema is built. *)
Variable year : Z.
(** The cast of a string to an ObjectId; [None] when the driver
    refuses the string. *)
Variable castObjectId : string -> option ObjectId.
(** The store's [{ $regex: q, $options: 'i' }]: [None] when the
    engine rejects the pattern, otherwise the test applied to the value
    of a path. *)
Variable regex_i : string -> option (string -> bool).

(** [runValidators: true]: the paths named by the update, in the order
    of the schema. *)
Definition validate_update (d : BookData) : list (string * string) :=
  report_if_set BookSchema.title_path (d_title d) ++
  report_if_set BookSchema.author_path (d_author d) ++
  report_if_set BookSchema.isbn_path (d_isbn d) ++
  report_if_set (BookSchema.publishedYear_path year) (d_publishedYear d) ++
  report_if_set BookSchema.genre_path (d_genre d) ++
  report_if_set BookSchema.price_path (d_price d).

(** Validation of a new document: first the required paths that the
    candidate leaves out, then the paths it sets, both in the order of
    the schema. *)
Definition validate (d : BookData) : list (string * string) :=
  report_if_absent BookSchema.title_path (d_title d) ++
  report_if_absent BookSchema.author_path (d_author d) ++
  report_if_absent BookSchema.isbn_path (d_isbn d) ++
  report_if_absent (BookSchema.publishedYear_path year) (d_publishedYear d) ++
  report_if_absent BookSchema.genre_path (d_genre d) ++
  report_if_absent BookSchema.price_path (d_price d) ++
  validate_update d.

(** [new BookModel(bookData).save()]: setters and defaults, validation,
    time stamps, then the insert, which the unique indexes on [_id] and
    [isbn] may refuse.  [fresh] is the identifier generated for the
    document and [now] the time of the call. *)
Definition save (st : Store) (now : Z) (fresh : ObjectId)
    (bookData : BookData) : Store * Result DbError IBook :=
  let d := applySetters bookData in
  match validate d with
  | (_ :: _) as errors =>
      (st, Throw (ValidationError (Some "Book") errors))
  | [] =>
      match fault st with
      | Some m => (st, Throw (MongooseError m))
      | None =>
          match d_title d, d_author d, d_isbn d,
                d_publishedYear d, d_genre d, d_price d with
          | Some t, Some a, Some i, Some y, Some g, Some p =>
              let b :=
                mkBook fresh t a i y g p
                  (orElse (d_inStock d) BookSchema.inStock_default)
                  now now in
              if existsb (has_id fresh) (docs st) then
                (st, Throw (duplicate_key "_id_"))
              else if existsb (has_isbn i) (docs st) then
                (st, Throw (duplicate_key "isbn_1"))
              else
                (mkStore (docs st ++ [b]) (fault st), Ok b)
          | _, _, _, _, _, _ =>
              (st, Throw (ValidationError (Some "Book") []))
          end
      end
  end.

Definition condition (f : Filter) : Result DbError (IBook -> bool) :=
  match f with
  | Everything => Ok (fun _ => true)
  | TitleOrAuthorRegex q =>
      match regex_i q with
      | Some test => Ok (fun b => test (title b) || test (author b))
      | None => Throw invalid_regex
      end
  | GenreIs g =>
      let g' := setter BookSchema.genre_path g in
      Ok (fun b => String.eqb (genre b) g')
  | InStockIs v => Ok (fun b => Bool.eqb (inStock b) v)
  end.

(** [BookModel.find(filter).sort({ createdAt: -1 }).exec()] *)
Definition find_sorted (st : Store) (f : Filter)
    : Result DbError (list IBook) :=
  match fault st with
  | Some m => Throw (MongooseError m)
  | None =>
      match condition f with
      | Ok p => Ok (sort_newest (filter p (docs st)))
      | Throw e => Throw e
      end
  end.

(** [BookModel.findById(id).exec()] *)
Definition findById (st : Store) (id : string)
    : Result DbError (option IBook) :=
  match castObjectId id with
  | None => Throw (CastError id)
  | Some oid =>
      match fault st with
      | Some m => Throw (MongooseError m)
      | None => Ok (findOne (has_id oid) (docs st))
      end
  end.

(** [$set]: every key of the update replaces the field of the
    document; the time stamp option then writes [updatedAt]. *)
Definition set_fields (upd : PartialBook) (now : Z) (b : IBook) : IBook :=
  let d := p_fields upd in
  {| _id := _id b;
     title := orElse (d_title d) (title b);
     author := orElse (d_author d) (author b);
     isbn := orElse (d_isbn d) (isbn b);
     publishedYear := orElse (d_publishedYear d) (publishedYear b);
     genre := orElse (d_genre d) (genre b);
     price := orElse (d_price d) (price b);
     inStock := orElse (d_inStock d) (inStock b);
     createdAt := orElse (p_createdAt upd) (createdAt b);
     updatedAt := now |}.

(** A [$set] of [_id] is accepted by the server only when it leaves the
    identifier as it is. *)
Definition check_id_key (upd : PartialBook) (oid : ObjectId)
    : option DbError :=
  match p_id upd with
  | None => None
  | Some v =>
      match castObjectId v with
      | None => Some (CastError v)
      | Some o => if N.eqb o oid then None else Some immutable_id
      end
  end.

(** [BookModel.findByIdAndUpdate(id, { $set: bookData },
    { new: true, runValidators: true }).exec()] *)
Definition findByIdAndUpdate (st : Store) (now : Z) (id : string)
    (bookData : PartialBook) : Store * Result DbError (option IBook) :=
  match castObjectId id with
  | None => (st, Throw (CastError id))
  | Some oid =>
      let upd :=
        mkPartial (p_id bookData) (p_createdAt bookData)
          (p_updatedAt bookData) (applySetters (p_fields bookData)) in
      match validate_update (p_fields upd) with
      | (_ :: _) as errors => (st, Throw (ValidationError None errors))
      | [] =>
          match fault st with
          | Some m => (st, Throw (MongooseError m))
          | None =>
              match findOne (has_id oid) (docs st) with
              | None => (st, Ok None)
              | Some b =>
                  match check_id_key upd oid with
                  | Some e => (st, Throw e)
                  | None =>
                      let b' := set_fields upd now b in
                      if existsb
                           (fun x => negb (has_id oid x) &&
                                     has_isbn (isbn b') x)
                           (docs st)
                      then (st, Throw (duplicate_key "isbn_1"))
                      else
                        (mkStore (replaceOne (has_id oid) b' (docs st))
                           (fault st),
                         Ok (Some b'))
                  end
              end
          end
      end
  end.

(** [BookModel.findByIdAndDelete(id).exec()] *)
Definition findByIdAndDelete (st : Store) (id : string)
    : Store * Result DbError (option IBook) :=
  match castObjectId id with
  | None => (st, Throw (CastError id))
  | Some oid =>
      match fault st with
      | Some m => (st, Throw (MongooseError m))
      | None =>
          match findOne (has_id oid) (docs st) with
          | None => (st, Ok None)
          | Some b =>
              (mkStore (deleteOne (has_id oid) (docs st)) (fault st),
               Ok (Some b))
          end
      end
  end.

End Driver.

End BookModel.

(** ** The service: book.service.ts

    Every method awaits one call of the model and rethrows what it catches
    as [new Error(message)], of which only the message remains. *)

Module BookService.

Section Driver.

Variable year : Z.
Variable castObjectId : string -> option ObjectId.
Variable regex_i : string -> option (string -> bool).

(** The [catch] of [createBook] and [updateBook]. *)
Definition rethrow_write (what : string) (error : DbError) : string :=
  match BookModel.error_code error with
  | Some 11000%Z => "A book with this ISBN already exists"
  | _ => (what ++ BookModel.error_message error)%string
  end.

Definition rethrow (what : string) (error : DbError) : string :=
  (what ++ BookModel.error_message error)%string.

Definition createBook (st : Store) (now : Z) (fresh : ObjectId)
    (bookData : BookData) : Store * Result string IBook :=
  match BookModel.save year st now fresh bookData with
  | (st', Ok savedBook) => (st', Ok savedBook)
  | (st', Throw error) =>
      (st', Throw (rethrow_write "Failed to create book: " error))
  end.

Definition getAllBooks (st : Store) : Result string (list IBook) :=
  match BookModel.find_sorted regex_i st Everything with
  | Ok books => Ok books
  | Throw error => Throw (rethrow "Failed to fetch books: " error)
  end.

Definition getBookById (st : Store) (id : string)
    : Result string (option IBook) :=
  match BookModel.findById castObjectId st id with
  | Ok book => Ok book
  | Throw error => Throw (rethrow "Failed to fetch book: " error)
  end.

Definition updateBook (st : Store) (now : Z) (id : string)
    (bookData : PartialBook) : Store * Result string (option IBook) :=
  match BookModel.findByIdAndUpdate year castObjectId st now id bookData
  with
  | (st', Ok updatedBook) => (st', Ok updatedBook)
  | (st', Throw error) =>
      (st', Throw (rethrow_write "Failed to update book: " error))
  end.

Definition deleteBook (st : Store) (id : string)
    : Store * Result string (option IBook) :=
  match BookModel.findByIdAndDelete castObjectId st id with
  | (st', Ok deletedBook) => (st', Ok deletedBook)
  | (st', Throw error) =>
      (st', Throw (rethrow "Failed to delete book: " error))
  end.

Definition searchBooks (st : Store) (query : string)
    : Result string (list IBook) :=
  match BookModel.find_sorted regex_i st (TitleOrAuthorRegex query) with
  | Ok books => Ok books
  | Throw error => Throw (rethrow "Failed to search books: " error)
  end.

Definition getBooksByGenre (st : Store) (genre : string)
    : Result string (list IBook) :=
  match BookModel.find_sorted regex_i st (GenreIs genre) with
  | Ok books => Ok books
  | Throw error =>
      Throw (rethrow "Failed to fetch books by genre: " error)
  end.

Definition getInStockBooks (st : Store) : Result string (list IBook) :=
  match BookModel.find_sorted regex_i st (InStockIs true) with
  | Ok books => Ok books
  | Throw error =>
      Throw (rethrow "Failed to fetch in-stock books: " error)
  end.

End Driver.

End BookService.

(** ** The handlers: book.controller.ts *)

Inductive Payload : Type :=
| NoData
| One (book : IBook)
| Many (books : list IBook).

(** The status given to [res.status] and the object given to [res.json]. *)
Record Response := mkResponse {
  status : nat;
  success : bool;
  message : string;
  count : option nat;
  data : Payload;
  error : option string
}.

Module BookController.

(** [!v] for a string that may be missing. *)
Definition falsy (v : option string) : bool :=
  match v with
  | None => true
  | Some s => Text.is_empty s
  end.

(** [m || fallback] *)
Definition or_else (m fallback : string) : string :=
  if Text.is_empty m then fallback else m.

Definition refuse (code : nat) (msg : string) : Response :=
  mkResponse code false msg None NoData None.

Definition fail (code : nat) (msg err : string) : Response :=
  mkResponse code false msg None NoData (Some err).

Definition reply_one (code : nat) (msg : string) (b : IBook) : Response :=
  mkResponse code true msg None (One b) None.

Definition reply_many (msg : string) (books : list IBook) : Response :=
  mkResponse 200 true msg (Some (List.length books)) (Many books) None.

(** The three [delete] statements of [updateBook]. *)
Definition delete_id (b : PartialBook) : PartialBook :=
  mkPartial None (p_createdAt b) (p_updatedAt b) (p_fields b).
Definition delete_createdAt (b : PartialBook) : PartialBook :=
  mkPartial (p_id b) None (p_updatedAt b) (p_fields b).
Definition delete_updatedAt (b : PartialBook) : PartialBook :=
  mkPartial (p_id b) (p_createdAt b) None (p_fields b).

Section Driver.

Variable year : Z.
Variable castObjectId : string -> option ObjectId.
Variable regex_i : string -> option (string -> bool).

(** POST /api/books *)
Definition createBook (st : Store) (now : Z) (fresh : ObjectId)
    (bookData : BookData) : Store * Response :=
  if falsy (d_title bookData) || falsy (d_author bookData)
     || falsy (d_isbn bookData)
  then
    (st, refuse 400
           "Missing required fields: title, author, and isbn are required")
  else
    match BookService.createBook year st now fresh bookData with
    | (st', Ok newBook) =>
        (st', reply_one 201 "Book created successfully" newBook)
    | (st', Throw error) =>
        (st', fail 400 (or_else error "Failed to create book") error)
    end.

(** GET /api/books *)
Definition getAllBooks (st : Store) : Response :=
  match BookService.getAllBooks regex_i st with
  | Ok books => reply_many "Books retrieved successfully" books
  | Throw error => fail 500 "Failed to retrieve books" error
  end.

(** GET /api/books/:id *)
Definition getBookById (st : Store) (id : option string) : Response :=
  match id with
  | None => refuse 400 "Book ID is required"
  | Some id =>
      if Text.is_empty id then refuse 400 "Book ID is required"
      else
        match BookService.getBookById castObjectId st id with
        | Ok None => refuse 404 "Book not found"
        | Ok (Some book) =>
            reply_one 200 "Book retrieved successfully" book
        | Throw error => fail 500 "Failed to retrieve book" error
        end
  end.

(** PUT /api/books/:id *)
Definition updateBook (st : Store) (now : Z) (id : option string)
    (body : PartialBook) : Store * Response :=
  match id with
  | None => (st, refuse 400 "Book ID is required")
  | Some id =>
      if Text.is_empty id then (st, refuse 400 "Book ID is required")
      else
        let updateData :=
          delete_updatedAt (delete_createdAt (delete_id body)) in
        match BookService.updateBook year castObjectId st now id updateData
        with
        | (st', Ok None) => (st', refuse 404 "Book not found")
        | (st', Ok (Some updatedBook)) =>
            (st', reply_one 200 "Book updated successfully" updatedBook)
        | (st', Throw error) =>
            (st', fail 400 "Failed to update book" error)
        end
  end.

(** DELETE /api/books/:id *)
Definition deleteBook (st : Store) (id : option string)
    : Store * Response :=
  match id with
  | None => (st, refuse 400 "Book ID is required")
  | Some id =>
      if Text.is_empty id then (st, refuse 400 "Book ID is required")
      else
        match BookService.deleteBook castObjectId st id with
        | (st', Ok None) => (st', refuse 404 "Book not found")
        | (st', Ok (Some deletedBook)) =>
            (st', reply_one 200 "Book deleted successfully" deletedBook)
        | (st', Throw error) =>
            (st', fail 500 "Failed to delete book" error)
        end
  end.

(** GET /api/books/search?q=query; [q] is [None] when the parameter is
    missing or is not a string. *)
Definition searchBooks (st : Store) (q : option string) : Response :=
  match q with
  | None => refuse 400 "Search query is required"
  | Some q =>
      if Text.is_empty q then refuse 400 "Search query is required"
      else
        match BookService.searchBooks regex_i st q with
        | Ok books => reply_many "Search completed successfully" books
        | Throw error => fail 500 "Failed to search books" error
        end
  end.

(** GET /api/books/genre/:genre *)
Definition getBooksByGenre (st : Store) (genre : option string)
    : Response :=
  match genre with
  | None => refuse 400 "Genre is required"
  | Some genre =>
      if Text.is_empty genre then refuse 400 "Genre is required"
      else
        match BookService.getBooksByGenre regex_i st genre with
        | Ok books => reply_many "Books retrieved successfully" books
        | Throw error =>
            fail 500 "Failed to retrieve books by genre" error
        end
  end.

(** GET /api/books/stock/available *)
Definition getInStockBooks (st : Store) : Response :=
  match BookService.getInStockBooks regex_i st with
  | Ok books => reply_many "In-stock books retrieved successfully" books
  | Throw error => fail 500 "Failed to retrieve in-stock books" error
  end.

End Driver.

End BookController.

(** ** The route table: book.routes.ts *)

Inductive Method : Type := GET | POST | PUT | DELETE.

Inductive Handler : Type :=
| createBook
| getAllBooks
| searchBooks
| getInStockBooks
| getBooksByGenre
| getBookById
| updateBook
| deleteBook.

(** A segment of a route path: a literal, or a named parameter [:name]. *)
Inductive Token : Type :=
| Lit (s : string)
| Param (name : string).

(** What the router does with a request: it runs the handler of a route
    with the decoded parameters, or no route takes the request and the
    router calls [next()], or the parameter of a matching path could not
    be decoded and the router calls [next(err)]. *)
Inductive Routed : Type :=
| Handled (h : Handler) (params : list (string * string))
| Unmatched
| Failed.

Module BookRoutes.

Definition method_eqb (a b : Method) : bool :=
  match a, b with
  | GET, GET | POST, POST | PUT, PUT | DELETE, DELETE => true
  | _, _ => false
  end.

(** [s.split('/')] *)
Fixpoint split (s : string) : list string :=
  match s with
  | EmptyString => [""]
  | String c r =>
      if Ascii.eqb c "/" then "" :: split r
      else
        match split r with
        | x :: t => String c x :: t
        | [] => [String c ""]
        end
  end.

(** One trailing slash is optional (routing is not strict). *)
Fixpoint drop_last_empty (l : list string) : list string :=
  match l with
  | [] => []
  | [x] => if Text.is_empty x then [] else [x]
  | x :: r => x :: drop_last_empty r
  end.

(** The segments of a path below the mount point; a path is empty or
    starts with a slash. *)
Definition segments (p : string) : option (list string) :=
  match split p with
  | "" :: rest => Some (drop_last_empty rest)
  | _ => None
  end.

Definition token (seg : string) : Token :=
  match seg with
  | String ":" name => Param name
  | _ => Lit seg
  end.

Definition compile (pattern : string) : list Token :=
  match segments pattern with
  | Some segs => map token segs
  | None => []
  end.

(** What the regular expression of a route captures on a path.  Literals
    are compared without regard to case (routing is not case sensitive); a
    parameter captures one non-empty segment, as it stands in the path. *)
Fixpoint captures (toks : list Token) (segs : list string)
    : option (list (string * string)) :=
  match toks, segs with
  | [], [] => Some []
  | Lit s :: t, x :: r =>
      if String.eqb (Text.toLowerCase s) (Text.toLowerCase x)
      then captures t r else None
  | Param n :: t, x :: r =>
      if Text.is_empty x then None
      else option_map (cons (n, x)) (captures t r)
  | _, _ => None
  end.

(** [layer.regexp.exec(path)] *)
Definition regexp_exec (pattern path : string)
    : option (list (string * string)) :=
  match segments path with
  | Some segs => captures (compile pattern) segs
  | None => None
  end.

(** [decode_param] on every capture: [None] when one of them makes
    [decodeURIComponent] throw. *)
Fixpoint decode_params (raw : list (string * string))
    : option (list (string * string)) :=
  match raw with
  | [] => Some []
  | (name, v) :: rest =>
      match Text.decodeURIComponent v, decode_params rest with
      | Some v', Some rest' => Some ((name, v') :: rest')
      | _, _ => None
      end
  end.

(** The routes in the order in which [initializeRoutes] registers
    them. *)
Definition initializeRoutes : list (Method * string * Handler) :=
  [ (POST, "/", createBook);
    (GET, "/", getAllBooks);
    (GET, "/search", searchBooks);
    (GET, "/stock/available", getInStockBooks);
    (GET, "/genre/:genre", getBooksByGenre);
    (GET, "/:id", getBookById);
    (PUT, "/:id", updateBook);
    (DELETE, "/:id", deleteBook) ].

(** The router goes through the routes in the order of registration.  The
    path is matched first, whatever the method, and the captures of a
    matching path are decoded: a failure is kept and ends the request with
    an error once the routes are exhausted, and no route is taken while an
    error is kept.  The first route whose path and method match handles the
    request; its second component is [req.params].  [failed] tells whether
    an error is kept. *)
Fixpoint route (routes : list (Method * string * Handler))
    (m : Method) (path : string) (failed : bool) : Routed :=
  match routes with
  | [] => if failed then Failed else Unmatched
  | (m', pattern, h) :: rest =>
      match regexp_exec pattern path with
      | None => route rest m path failed
      | Some raw =>
          match decode_params raw with
          | None => route rest m path true
          | Some params =>
              if failed then route rest m path failed
              else if method_eqb m m' then Handled h params
              else route rest m path failed
          end
      end
  end.

(** The handler that a request reaches, and its parameters. *)
Definition dispatch (routes : list (Method * string * Handler))
    (m : Method) (path : string)
    : option (Handler * list (string * string)) :=
  match route routes m path false with
  | Handled h params => Some (h, params)
  | _ => None
  end.

(** The same routes with the generic [/:id] registered first. *)
Definition id_route_first : list (Method * string * Handler) :=
  (GET, "/:id", getBookById) :: initializeRoutes.

End BookRoutes.

(** ** Instances of the parameters, used to run the model *)

Module Instances.

Definition hex_digit (c : ascii) : option N :=
  let n := nat_of_ascii c in
  if (48 <=? n) && (n <=? 57) then Some (N.of_nat (n - 48))
  else if (97 <=? n) && (n <=? 102) then Some (N.of_nat (n - 87))
  else if (65 <=? n) && (n <=? 70) then Some (N.of_nat (n - 55))
  else None.

Fixpoint hex_value (acc : N) (s : string) : option N :=
  match s with
  | EmptyString => Some acc
  | String c r =>
      match hex_digit c with
      | Some d => hex_value (acc * 16 + d)%N r
      | None => None
      end
  end.

(** An ObjectId cast that accepts exactly the strings of 24 hexadecimal
    digits. *)
Definition hex24 (s : string) : option ObjectId :=
  if String.length s =? 24 then hex_value 0%N s else None.

(** A regular-expression engine for the patterns made of ordinary
    characters and the dot; it rejects every other pattern. *)
Inductive Atom : Type :=
| Literal (c : ascii)
| AnyChar.

Definition is_meta (c : ascii) : bool :=
  existsb (Ascii.eqb c)
    ["\"; "^"; "$"; "."; "|"; "?"; "*"; "+"; "("; ")"; "["; "]"; "{"; "}"]%char.

Definition newline : ascii := ascii_of_nat 10.

Fixpoint parse (p : string) : option (list Atom) :=
  match p with
  | EmptyString => Some []
  | String c r =>
      if Ascii.eqb c "." then option_map (cons AnyChar) (parse r)
      else if is_meta c then None
      else option_map (cons (Literal c)) (parse r)
  end.

Definition atom_matches (a : Atom) (c : ascii) : bool :=
  match a with
  | Literal x => Ascii.eqb (Text.lower x) (Text.lower c)
  | AnyChar => negb (Ascii.eqb c newline)
  end.

Fixpoint match_here (r : list Atom) (s : string) : bool :=
  match r, s with
  | [], _ => true
  | _ :: _, EmptyString => false
  | a :: r', String c s' => atom_matches a c && match_here r' s'
  end.

Fixpoint search (r : list Atom) (s : string) : bool :=
  match_here r s ||
  match s with
  | EmptyString => false
  | String _ s' => search r s'
  end.

Definition literal_dot_engine (p : string) : option (string -> bool) :=
  option_map search (parse p).

(** A small collection. *)
Definition hobbit : IBook :=
  mkBook 1%N "The Hobbit" "J.R.R. Tolkien" "9780547928227"
    (inject_Z 1937) "Fantasy" (Qmake 1499 100) true 4000%Z 4000%Z.

Definition clean_code : IBook :=
  mkBook 2%N "Clean Code" "Robert C Martin" "9780132350884"
    (inject_Z 2008) "Technology" (Qmake 4299 100) true 2000%Z 2000%Z.

Definition brief_history : IBook :=
  mkBook 3%N "A Brief History of Time" "Stephen Hawking" "9780553380163"
    (inject_Z 1988) "Science" (Qmake 1699 100) false 3000%Z 3500%Z.

Definition library : Store :=
  mkStore [clean_code; brief_history; hobbit] None.

Definition offline : Store :=
  mkStore [clean_code; brief_history; hobbit]
    (Some "Operation buffering timed out after 10000ms").

Definition mockingbird : BookData :=
  mkData (Some "To Kill a Mockingbird") (Some "Harper Lee")
    (Some "9780061120084") (Some (inject_Z 1960)) (Some "Fiction")
    (Some (Qmake 1899 100)) None.

(** A candidate with the isbn of [hobbit]. *)
Definition second_hobbit : BookData :=
  mkData (Some "Test Book 2") (Some "Another Author")
    (Some "9780547928227") (Some (inject_Z 2021)) (Some "Fiction")
    (Some (Qmake 1599 100)) None.

(** An update of price and inStock whose body also carries the keys
    the handler deletes. *)
Definition price_change : PartialBook :=
  mkPartial (Some "not-an-id") (Some 1%Z) (Some 2%Z)
    (mkData None None None None None (Some (Qmake 2499 100)) (Some false)).

(** The same candidate with white space around its text. *)
Definition padded_mockingbird : BookData :=
  mkData (Some "  To Kill a Mockingbird ") (Some " Harper Lee  ")
    (Some " 978-0-06-112008-4 ") (Some (inject_Z 1960)) (Some " Fiction ")
    (Some (Qmake 1899 100)) None.

(** A candidate without a genre. *)
Definition no_genre : BookData :=
  mkData (Some "Test Book") (Some "Test Author") (Some "9780000000000")
    (Some (inject_Z 2020)) None (Some (Qmake 1099 100)) None.

(** An update that takes the isbn of [clean_code]. *)
Definition take_isbn : PartialBook :=
  mkPartial None None None
    (mkData None None (Some " 9780132350884 ") None None None None).

(** U+00A0, the no-break space, in UTF-8. *)
Definition no_break_space : string := String "194" (String "160" EmptyString).

(** A candidate whose title is a no-break space, and whose genre is
    followed by one. *)
Definition blank_title : BookData :=
  mkData (Some no_break_space) (Some "Harper Lee")
    (Some "9780061120084") (Some (inject_Z 1960))
    (Some ("Fiction" ++ no_break_space)%string)
    (Some (Qmake 1899 100)) None.


(** A candidate with the isbn of [hobbit] and a negative price. *)
Definition underpriced_hobbit : BookData :=
  mkData (Some "Test Book 2") (Some "Another Author")
    (Some "9780547928227") (Some (inject_Z 2021)) (Some "Fiction")
    (Some (Qmake (-1) 1)) None.

(** An update whose genre is followed by a no-break space. *)
Definition padded_genre : PartialBook :=
  mkPartial None None None
    (mkData None None None None (Some ("Science" ++ no_break_space)%string)
       None None).

Definition id_of_hobbit : string := "000000000000000000000001".
Definition id_of_nothing : string := "0000000000000000000000ff".

End Instances.

(** ** The contract, in the words of the specification *)

(** The constraints of the data model on the fields of a book, the
    candidate of a create and the body of an update. *)
Module Constraints.

Definition title_in_range (t : string) : Prop :=
  1 <= Text.length t /\ Text.length t <= 200.

Definition author_in_range (a : string) : Prop :=
  2 <= Text.length a.

(** Digits only once the hyphens are removed, and 10 or 13 of them. *)
Definition isbn_well_formed (i : string) : Prop :=
  Text.all Text.is_digit (Text.remove_hyphens i) = true /\
  (String.length (Text.remove_hyphens i) = 10 \/
   String.length (Text.remove_hyphens i) = 13).

Definition year_in_range (year : Z) (y : Q) : Prop :=
  (inject_Z 1000 <= y)%Q /\ (y <= inject_Z year)%Q.

Definition genre_known (g : string) : Prop :=
  In g BookSchema.genres.

Definition price_not_negative (p : Q) : Prop :=
  (0 <= p)%Q.

(** A stored book satisfies the constraints. *)
Definition holds (year : Z) (b : IBook) : Prop :=
  title_in_range (title b) /\ author_in_range (author b) /\
  isbn_well_formed (isbn b) /\ year_in_range year (publishedYear b) /\
  genre_known (genre b) /\ price_not_negative (price b).

(** A field of a candidate is present and in range; text is read after
    its surrounding white space is removed. *)
Definition title_ok (v : option string) : Prop :=
  exists t, v = Some t /\ title_in_range (Text.trim t).

Definition author_ok (v : option string) : Prop :=
  exists a, v = Some a /\ author_in_range (Text.trim a).

Definition isbn_ok (v : option string) : Prop :=
  exists i, v = Some i /\ isbn_well_formed (Text.trim i).

Definition publishedYear_ok (year : Z) (v : option Q) : Prop :=
  exists y, v = Some y /\ year_in_range year y.

Definition genre_ok (v : option string) : Prop :=
  exists g, v = Some g /\ genre_known (Text.trim g).

Definition price_ok (v : option Q) : Prop :=
  exists p, v = Some p /\ price_not_negative p.

Definition satisfied (year : Z) (d : BookData) : Prop :=
  title_ok (d_title d) /\ author_ok (d_author d) /\ isbn_ok (d_isbn d) /\
  publishedYear_ok year (d_publishedYear d) /\ genre_ok (d_genre d) /\
  price_ok (d_price d).


(** The stored book [b] is the candidate [d]: its text trimmed, its
    numbers as given, [inStock] true when the candidate has none. *)
Definition written (d : BookData) (b : IBook) : Prop :=
  option_map Text.trim (d_title d) = Some (title b) /\
  option_map Text.trim (d_author d) = Some (author b) /\
  option_map Text.trim (d_isbn d) = Some (isbn b) /\
  d_publishedYear d = Some (publishedYear b) /\
  option_map Text.trim (d_genre d) = Some (genre b) /\
  d_price d = Some (price b) /\
  inStock b = BookModel.orElse (d_inStock d) true.




(** A stored book as a candidate with every key present. *)
Definition data_of (b : IBook) : BookData :=
  mkData (Some (title b)) (Some (author b)) (Some (isbn b))
    (Some (publishedYear b)) (Some (genre b)) (Some (price b))
    (Some (inStock b)).

(** The book [b'] is [b] after an update with the fields of [d]: the
    supplied fields replaced, [updatedAt] refreshed, the rest as it
    was. *)
Definition updated (d : BookData) (now : Z) (b b' : IBook) : Prop :=
  _id b' = _id b /\
  createdAt b' = createdAt b /\
  updatedAt b' = now /\
  title b' = BookModel.orElse (option_map Text.trim (d_title d)) (title b) /\
  author b' =
    BookModel.orElse (option_map Text.trim (d_author d)) (author b) /\
  isbn b' = BookModel.orElse (option_map Text.trim (d_isbn d)) (isbn b) /\
  publishedYear b' =
    BookModel.orElse (d_publishedYear d) (publishedYear b) /\
  genre b' = BookModel.orElse (option_map Text.trim (d_genre d)) (genre b) /\
  price b' = BookModel.orElse (d_price d) (price b) /\
  inStock b' = BookModel.orElse (d_inStock d) (inStock b).

(** Every field that the body of an update supplies is in range. *)
Definition supplied_ok (year : Z) (d : BookData) : Prop :=
  (forall t, d_title d = Some t -> title_in_range (Text.trim t)) /\
  (forall a, d_author d = Some a -> author_in_range (Text.trim a)) /\
  (forall i, d_isbn d = Some i -> isbn_well_formed (Text.trim i)) /\
  (forall y, d_publishedYear d = Some y -> year_in_range year y) /\
  (forall g, d_genre d = Some g -> genre_known (Text.trim g)) /\
  (forall p, d_price d = Some p -> price_not_negative p).

End Constraints.

(** The store is well formed: identifiers are unique and every document
    satisfies the constraints. *)
Definition store_ok (year : Z) (st : Store) : Prop :=
  NoDup (map _id (docs st)) /\ Forall (Constraints.holds year) (docs st).

(** [s] contains [text] as a substring when case is ignored. *)
Definition contains_ci (text s : string) : Prop :=
  exists pre post,
    Text.toLowerCase s = (pre ++ Text.toLowerCase text ++ post)%string.

(** Newest created first. *)
Definition newest_first (l : list IBook) : Prop :=
  StronglySorted (fun a b => (createdAt b <= createdAt a)%Z) l.

(** The engine treats the one-character pattern [.] as any character but
    a line feed. *)
Definition dot_is_wildcard (regex_i : string -> option (string -> bool))
    : Prop :=
  exists test,
    regex_i "." = Some test /\
    forall c r, c <> Instances.newline -> test (String c r) = true.

(** ** The outcomes of the two writes *)

(** Every outcome of the create handler. *)
Inductive CreateOutcome (year : Z) (st : Store) (now : Z) (fresh : ObjectId)
    (d : BookData) : Store * Response -> Prop :=
| create_missing :
    BookController.falsy (d_title d) || BookController.falsy (d_author d)
    || BookController.falsy (d_isbn d) = true ->
    CreateOutcome year st now fresh d
      (st, BookController.refuse 400
             "Missing required fields: title, author, and isbn are required")
| create_invalid e es msg :
    BookModel.validate year (BookModel.applySetters d) = e :: es ->
    msg = ("Failed to create book: " ++
           BookModel.error_message
             (ValidationError (Some "Book") (e :: es)))%string ->
    CreateOutcome year st now fresh d (st, BookController.fail 400 msg msg)
| create_unreachable m msg :
    Constraints.satisfied year d -> fault st = Some m ->
    msg = ("Failed to create book: " ++ m)%string ->
    CreateOutcome year st now fresh d (st, BookController.fail 400 msg msg)
| create_duplicate b msg :
    Constraints.satisfied year d -> fault st = None ->
    Constraints.written d b ->
    existsb (BookModel.has_id fresh) (docs st)
    || existsb (BookModel.has_isbn (isbn b)) (docs st) = true ->
    msg = "A book with this ISBN already exists" ->
    CreateOutcome year st now fresh d (st, BookController.fail 400 msg msg)
| create_stored b :
    Constraints.satisfied year d -> fault st = None ->
    Constraints.written d b ->
    _id b = fresh -> createdAt b = now -> updatedAt b = now ->
    existsb (BookModel.has_id fresh) (docs st) = false ->
    existsb (BookModel.has_isbn (isbn b)) (docs st) = false ->
    CreateOutcome year st now fresh d
      (mkStore (docs st ++ [b]) (fault st),
       BookController.reply_one 201 "Book created successfully" b).

(** Every outcome of the update handler for a well-formed identifier. *)
Inductive UpdateOutcome (year : Z) (st : Store) (now : Z) (oid : ObjectId)
    (d : BookData) : Store * Response -> Prop :=
| update_invalid e es :
    BookModel.validate_update year (BookModel.applySetters d) = e :: es ->
    UpdateOutcome year st now oid d
      (st, BookController.fail 400 "Failed to update book"
             ("Failed to update book: " ++
              BookModel.error_message
                (ValidationError None (e :: es)))%string)
| update_unreachable m :
    BookModel.validate_update year (BookModel.applySetters d) = [] ->
    fault st = Some m ->
    UpdateOutcome year st now oid d
      (st, BookController.fail 400 "Failed to update book"
             ("Failed to update book: " ++ m)%string)
| update_absent :
    BookModel.validate_update year (BookModel.applySetters d) = [] ->
    fault st = None ->
    BookModel.findOne (BookModel.has_id oid) (docs st) = None ->
    UpdateOutcome year st now oid d
      (st, BookController.refuse 404 "Book not found")
| update_duplicate b b' :
    BookModel.validate_update year (BookModel.applySetters d) = [] ->
    fault st = None ->
    BookModel.findOne (BookModel.has_id oid) (docs st) = Some b ->
    Constraints.updated d now b b' ->
    existsb (fun x => negb (BookModel.has_id oid x) &&
                      BookModel.has_isbn (isbn b') x) (docs st) = true ->
    UpdateOutcome year st now oid d
      (st, BookController.fail 400 "Failed to update book"
             "A book with this ISBN already exists")
| update_stored b b' :
    BookModel.validate_update year (BookModel.applySetters d) = [] ->
    fault st = None ->
    BookModel.findOne (BookModel.has_id oid) (docs st) = Some b ->
    Constraints.updated d now b b' ->
    existsb (fun x => negb (BookModel.has_id oid x) &&
                      BookModel.has_isbn (isbn b') x) (docs st) = false ->
    UpdateOutcome year st now oid d
      (mkStore (BookModel.replaceOne (BookModel.has_id oid) b' (docs st))
         (fault st),
       BookController.reply_one 200 "Book updated successfully" b').

(** ** The application: app.ts

    The middleware and the routes of [App] in the order in which the
    constructor installs them: the body parsers, the CORS middleware, the
    request log, the health and welcome endpoints, the book router mounted
    on [/api/books], the handler of undefined routes and the error handler.
    A request carries the body its handler reads; the parsers and the log
    are not modelled. *)

Inductive Request : Type :=
| Get (path : string) (q : option string)
| Post (path : string) (body : BookData)
| Put (path : string) (body : PartialBook)
| Delete (path : string)
| Options (path : string).

(** What the application answers: the preflight reply of the CORS
    middleware, the health and welcome objects, the envelope of a book
    handler, the 404 of the handler of undefined routes, or the 500 of the
    error handler. *)
Inductive Reply : Type :=
| Preflight
| Health (timestamp : Z)
| Welcome
| Envelope (r : Response)
| RouteNotFound (path : string)
| InternalError.

Module App.

Definition reply_status (r : Reply) : nat :=
  match r with
  | Preflight => 200
  | Health _ => 200
  | Welcome => 200
  | Envelope e => status e
  | RouteNotFound _ => 404
  | InternalError => 500
  end.

Definition path_of (req : Request) : string :=
  match req with
  | Get p _ => p
  | Post p _ => p
  | Put p _ => p
  | Delete p => p
  | Options p => p
  end.

(** The rest of [s] after the prefix [p], letters compared without regard
    to case. *)
Fixpoint strip_prefix (p s : string) : option string :=
  match p, s with
  | EmptyString, _ => Some s
  | String _ _, EmptyString => None
  | String a p', String b s' =>
      if Ascii.eqb (Text.lower a) (Text.lower b) then strip_prefix p' s'
      else None
  end.

(** [app.use(mount, router)]: the mount matches a path that continues with
    a slash or ends; the router sees the rest of the path, the slash that
    closes the mount removed, and [/] when nothing is left. *)
Definition mounted (mount path : string) : option string :=
  match strip_prefix mount path with
  | None => None
  | Some EmptyString => Some "/"
  | Some (String c r) =>
      if Ascii.eqb c "/" then
        match r with
        | EmptyString => Some "/"
        | String c' _ => if Ascii.eqb c' "/" then Some r else Some (String c r)
        end
      else None
  end.

(** [req.params[name]] *)
Fixpoint param (name : string) (params : list (string * string))
    : option string :=
  match params with
  | [] => None
  | (k, v) :: rest => if String.eqb k name then Some v else param name rest
  end.

Definition matches (pattern path : string) : bool :=
  match BookRoutes.regexp_exec pattern path with
  | Some _ => true
  | None => false
  end.

Definition not_found (st : Store) (req : Request) : Store * Reply :=
  (st, RouteNotFound (path_of req)).

Section Driver.

Variable year : Z.
Variable castObjectId : string -> option ObjectId.
Variable regex_i : string -> option (string -> bool).

(** The book router below its mount point.  A request that no route takes
    goes on to the handler of undefined routes; an error of the router goes
    past it to the error handler. *)
Definition books (st : Store) (now : Z) (fresh : ObjectId) (req : Request)
    (url : string) : Store * Reply :=
  match req with
  | Get _ q =>
      match BookRoutes.route BookRoutes.initializeRoutes GET url false with
      | Handled getAllBooks _ =>
          (st, Envelope (BookController.getAllBooks regex_i st))
      | Handled searchBooks _ =>
          (st, Envelope (BookController.searchBooks regex_i st q))
      | Handled getInStockBooks _ =>
          (st, Envelope (BookController.getInStockBooks regex_i st))
      | Handled getBooksByGenre params =>
          (st, Envelope (BookController.getBooksByGenre regex_i st
                           (param "genre" params)))
      | Handled getBookById params =>
          (st, Envelope (BookController.getBookById castObjectId st
                           (param "id" params)))
      | Failed => (st, InternalError)
      | _ => not_found st req
      end
  | Post _ body =>
      match BookRoutes.route BookRoutes.initializeRoutes POST url false with
      | Handled createBook _ =>
          let (st', r) := BookController.createBook year st now fresh body in
          (st', Envelope r)
      | Failed => (st, InternalError)
      | _ => not_found st req
      end
  | Put _ body =>
      match BookRoutes.route BookRoutes.initializeRoutes PUT url false with
      | Handled updateBook params =>
          let (st', r) :=
            BookController.updateBook year castObjectId st now
              (param "id" params) body in
          (st', Envelope r)
      | Failed => (st, InternalError)
      | _ => not_found st req
      end
  | Delete _ =>
      match BookRoutes.route BookRoutes.initializeRoutes DELETE url false with
      | Handled deleteBook params =>
          let (st', r) :=
            BookController.deleteBook castObjectId st (param "id" params) in
          (st', Envelope r)
      | Failed => (st, InternalError)
      | _ => not_found st req
      end
  | Options _ => not_found st req
  end.

(** One request through the application. *)
Definition handle (st : Store) (now : Z) (fresh : ObjectId) (req : Request)
    : Store * Reply :=
  match req with
  | Options _ => (st, Preflight)
  | _ =>
      let path := path_of req in
      let is_get := match req with Get _ _ => true | _ => false end in
      if is_get && matches "/health" path then
        (st, Health now)
      else if is_get && matches "/api" path then
        (st, Welcome)
      else
        match mounted "/api/books" path with
        | Some url => books st now fresh req url
        | None => not_found st req
        end
  end.

End Driver.

End App.

(** ** Further notions used by the properties *)

(** The number of characters of [s] that satisfy [p]. *)
Fixpoint count_chars (p : ascii -> bool) (s : string) : nat :=
  match s with
  | EmptyString => 0
  | String c r => (if p c then 1 else 0) + count_chars p r
  end.

(** No two documents share an isbn. *)
Definition isbn_unique (st : Store) : Prop :=
  NoDup (map isbn (docs st)).

(** The text of a stored book has no white space at either end. *)
Definition text_trimmed (b : IBook) : Prop :=
  Text.trim (title b) = title b /\ Text.trim (author b) = author b /\
  Text.trim (isbn b) = isbn b /\ Text.trim (genre b) = genre b.

(** The status and the flags of an envelope agree: success with 200 or
    201, no error text on success, no data on failure. *)
Definition envelope_ok (r : Response) : Prop :=
  (success r = true <-> status r = 200 \/ status r = 201) /\
  (success r = true -> error r = None /\ data r <> NoData) /\
  (success r = false -> data r = NoData /\ count r = None).

(** ** Text by its code points *)

(** The UTF-8 encoding of a code point, by the table of RFC 3629. *)
Definition byte (n : N) : ascii := ascii_of_N n.

Definition encode (cp : N) : string :=
  if (cp <? 128)%N then String (byte cp) EmptyString
  else if (cp <? 2048)%N then
    String (byte (192 + cp / 64))
      (String (byte (128 + cp mod 64)) EmptyString)
  else if (cp <? 65536)%N then
    String (byte (224 + cp / 4096))
      (String (byte (128 + (cp / 64) mod 64))
         (String (byte (128 + cp mod 64)) EmptyString))
  else
    String (byte (240 + cp / 262144))
      (String (byte (128 + (cp / 4096) mod 64))
         (String (byte (128 + (cp / 64) mod 64))
            (String (byte (128 + cp mod 64)) EmptyString))).

(** The string of a list of code points. *)
Fixpoint utf8 (cps : list N) : string :=
  match cps with
  | [] => EmptyString
  | cp :: r => (encode cp ++ utf8 r)%string
  end.


(** A Unicode scalar value: a code point that is not a surrogate. *)
Definition scalar (cp : N) : Prop :=
  (cp < 55296)%N \/ (57343 < cp /\ cp < 1114112)%N.

(** The code points that ECMAScript counts as white space or as line
    terminators: U+0009 to U+000D, U+0020, U+00A0, U+1680, U+2000 to
    U+200A, U+2028, U+2029, U+202F, U+205F, U+3000 and U+FEFF. *)
Definition white_space_points : list N :=
  [9; 10; 11; 12; 13; 32; 160; 5760;
   8192; 8193; 8194; 8195; 8196; 8197; 8198; 8199; 8200; 8201; 8202;
   8232; 8233; 8239; 8287; 12288; 65279]%N.

(** Every byte of [s] written as an escape. *)
Definition hex (n : nat) : ascii :=
  nth n ["0"; "1"; "2"; "3"; "4"; "5"; "6"; "7"; "8"; "9";
         "A"; "B"; "C"; "D"; "E"; "F"]%char "0"%char.

Fixpoint escape_all (s : string) : string :=
  match s with
  | EmptyString => EmptyString
  | String c r =>
      String "%"
        (String (hex (Text.code c / 16))
           (String (hex (Text.code c mod 16)) (escape_all r)))
  end.

(** The units that [escape_all s] is read as. *)
Fixpoint escapes (s : string) : list Text.Unit :=
  match s with
  | EmptyString => []
  | String c r => Text.Escape c :: escapes r
  end.

(** * Properties *)

(** ** Strings *)

Lemma is_empty_true (s : string) : Text.is_empty s = true <-> s = "".
Proof. destruct s; simpl; split; congruence. Qed.

(** A fact on one byte is checked on the 256 bytes. *)
Ltac each_byte c :=
  destruct c as [[|] [|] [|] [|] [|] [|] [|] [|]]; vm_compute.

Lemma digit_plain (c : ascii) :
  Text.is_digit c = true -> Text.opens_space c = false.
Proof. each_byte c; intros H; first [reflexivity | discriminate H]. Qed.

Lemma hyphen_plain (c : ascii) :
  Text.is_hyphen c = true -> Text.opens_space c = false.
Proof.
  unfold Text.is_hyphen. intros H. apply Ascii.eqb_eq in H. now subst c.
Qed.

Lemma remove_hyphens_digits (s : string) :
  Text.all Text.is_digit (Text.remove_hyphens s) = true ->
  Text.all (fun c => negb (Text.opens_space c)) s = true.
Proof.
  induction s as [|c r IH]; simpl; [easy|].
  destruct (Text.is_hyphen c) eqn:Hh; simpl.
  - intros H. now rewrite (hyphen_plain _ Hh), (IH H).
  - intros H. apply andb_true_iff in H. destruct H as [Hc Hr].
    now rewrite (digit_plain _ Hc), (IH Hr).
Qed.

(** One step of [trimStart]. *)
Lemma trimStart_step (s : string) :
  Text.trimStart s =
  match Text.head_space s with
  | Some r => Text.trimStart r
  | None => s
  end.
Proof.
  destruct s as [|a [|b [|c r]]]; cbn [Text.trimStart Text.head_space];
    try reflexivity.
  - now destruct (Text.space1 a).
  - destruct (Text.space1 a); [reflexivity|].
    now destruct (Text.space2 a b).
  - destruct (Text.space1 a); [reflexivity|].
    destruct (Text.space2 a b); [reflexivity|].
    now destruct (Text.space3 a b c).
Qed.

Lemma head_space_length (s r : string) :
  Text.head_space s = Some r -> String.length r < String.length s.
Proof.
  destruct s as [|a [|b [|c t]]]; cbn [Text.head_space]; try discriminate.
  - destruct (Text.space1 a); intros H; inversion H; subst; simpl; lia.
  - destruct (Text.space1 a); [intros H; inversion H; subst; simpl; lia|].
    destruct (Text.space2 a b); intros H; inversion H; subst; simpl; lia.
  - destruct (Text.space1 a); [intros H; inversion H; subst; simpl; lia|].
    destruct (Text.space2 a b); [intros H; inversion H; subst; simpl; lia|].
    destruct (Text.space3 a b c); intros H; inversion H; subst; simpl; lia.
Qed.

(** The white space at the head of a string is at the head of every
    string that it begins. *)
Lemma head_space_app (s r q : string) :
  Text.head_space s = Some r ->
  Text.head_space (s ++ q) = Some (r ++ q)%string.
Proof.
  destruct s as [|a [|b [|c t]]]; cbn [Text.head_space append];
    try discriminate.
  - destruct (Text.space1 a); intros H; inversion H; subst. reflexivity.
  - destruct (Text.space1 a); [intros H; inversion H; subst; reflexivity|].
    destruct (Text.space2 a b); intros H; inversion H; subst.
    now destruct q.
  - destruct (Text.space1 a); [intros H; inversion H; subst; reflexivity|].
    destruct (Text.space2 a b); [intros H; inversion H; subst; reflexivity|].
    destruct (Text.space3 a b c); intros H; inversion H; subst. reflexivity.
Qed.

Lemma head_space_plain (a : ascii) (r : string) :
  Text.opens_space a = false -> Text.head_space (String a r) = None.
Proof.
  unfold Text.opens_space. cbv zeta. intros H.
  apply orb_false_iff in H. destruct H as [H E5].
  apply orb_false_iff in H. destruct H as [H E4].
  apply orb_false_iff in H. destruct H as [H E3].
  apply orb_false_iff in H. destruct H as [H E2].
  apply orb_false_iff in H. destruct H as [H E1].
  cbn [Text.head_space]. rewrite H.
  destruct r as [|b [|c r]]; try reflexivity.
  - unfold Text.space2. now rewrite E1.
  - unfold Text.space2, Text.space3. cbv zeta.
    now rewrite E1, E2, E3, E4, E5.
Qed.

Lemma trimStart_length (s : string) :
  String.length (Text.trimStart s) <= String.length s.
Proof.
  remember (String.length s) as n eqn:Hn.
  assert (Hle : String.length s <= n) by lia. clear Hn.
  revert s Hle. induction n as [|n IH]; intros s Hle.
  - destruct s; simpl in *; lia.
  - rewrite trimStart_step. destruct (Text.head_space s) as [r|] eqn:Hh.
    + apply head_space_length in Hh.
      assert (String.length (Text.trimStart r) <= n) by (apply IH; lia). lia.
    + lia.
Qed.

(** What [trimStart] returns has no white space at its head. *)
Lemma trimStart_head (s : string) :
  Text.head_space (Text.trimStart s) = None.
Proof.
  remember (String.length s) as n eqn:Hn.
  assert (Hle : String.length s <= n) by lia. clear Hn.
  revert s Hle. induction n as [|n IH]; intros s Hle.
  - destruct s; [reflexivity | simpl in Hle; lia].
  - rewrite trimStart_step. destruct (Text.head_space s) as [r|] eqn:Hh.
    + apply head_space_length in Hh. apply IH. lia.
    + exact Hh.
Qed.

Lemma trimStart_fixed (s : string) :
  Text.head_space s = None -> Text.trimStart s = s.
Proof. intros H. now rewrite trimStart_step, H. Qed.

Lemma trimStart_plain (a : ascii) (r : string) :
  Text.opens_space a = false -> Text.trimStart (String a r) = String a r.
Proof. intros H. now apply trimStart_fixed, head_space_plain. Qed.

(** White space put before a string is removed with it. *)
Lemma trimStart_app_spaces (p q : string) :
  Text.trimStart p = "" -> Text.trimStart (p ++ q) = Text.trimStart q.
Proof.
  remember (String.length p) as n eqn:Hn.
  assert (Hle : String.length p <= n) by lia. clear Hn.
  revert p Hle. induction n as [|n IH]; intros p Hle Hp.
  - destruct p; [reflexivity | simpl in Hle; lia].
  - destruct p as [|a t]; [reflexivity|].
    rewrite trimStart_step in Hp.
    destruct (Text.head_space (String a t)) as [r|] eqn:Hh; [|discriminate].
    rewrite trimStart_step, (head_space_app _ r q Hh).
    apply head_space_length in Hh. apply IH; [lia | exact Hp].
Qed.

(** What [trimEnd] removes is white space. *)
Lemma trimEnd_split (s : string) :
  exists rest,
    s = (Text.trimEnd s ++ rest)%string /\ Text.trimStart rest = "".
Proof.
  induction s as [|c r [rest [Hr Hs]]].
  - now exists "".
  - cbn [Text.trimEnd].
    destruct (Text.is_empty (Text.trimStart (String c r))) eqn:He.
    + apply is_empty_true in He. now exists (String c r).
    + exists rest. split; [|exact Hs]. simpl. now rewrite <- Hr.
Qed.

Lemma trimEnd_idempotent (s : string) :
  Text.trimEnd (Text.trimEnd s) = Text.trimEnd s.
Proof.
  induction s as [|c r IH]; [reflexivity|].
  cbn [Text.trimEnd].
  destruct (Text.is_empty (Text.trimStart (String c r))) eqn:He;
    [reflexivity|].
  cbn [Text.trimEnd]. rewrite IH.
  destruct (Text.is_empty (Text.trimStart (String c (Text.trimEnd r))))
    eqn:He'; [|reflexivity].
  apply is_empty_true in He'.
  destruct (trimEnd_split r) as [rest [Hr Hs]].
  assert (H : Text.trimStart (String c r) = "").
  { rewrite Hr at 1.
    change (String c (Text.trimEnd r ++ rest))
      with (String c (Text.trimEnd r) ++ rest)%string.
    now rewrite (trimStart_app_spaces _ rest He'). }
  rewrite H in He. discriminate.
Qed.

Lemma trimEnd_plain (s : string) :
  Text.all (fun c => negb (Text.opens_space c)) s = true ->
  Text.trimEnd s = s.
Proof.
  induction s as [|c r IH]; [reflexivity|].
  cbn [Text.all Text.trimEnd]. intros H.
  apply andb_true_iff in H. destruct H as [Hc Hr].
  apply negb_true_iff in Hc.
  rewrite (trimStart_plain c r Hc). cbn [Text.is_empty]. now rewrite (IH Hr).
Qed.

(** A string none of whose bytes opens a white-space character has
    nothing to trim. *)
Lemma trim_plain (s : string) :
  Text.all (fun c => negb (Text.opens_space c)) s = true -> Text.trim s = s.
Proof.
  intros H. unfold Text.trim.
  assert (Hs : Text.trimStart s = s).
  { destruct s as [|c r]; [reflexivity|].
    cbn [Text.all] in H. apply andb_true_iff in H. destruct H as [Hc _].
    apply negb_true_iff in Hc. now apply trimStart_plain. }
  rewrite Hs. now apply trimEnd_plain.
Qed.

(** A string that passes the ISBN validator has no white space to trim. *)
Lemma trim_valid_isbn (s : string) :
  BookSchema.isbn_validator s = true -> Text.trim s = s.
Proof.
  unfold BookSchema.isbn_validator. intros H.
  apply andb_true_iff in H. destruct H as [H _].
  now apply trim_plain, remove_hyphens_digits.
Qed.

(** Trimming twice is trimming once. *)
Lemma trim_idempotent (s : string) :
  Text.trim (Text.trim s) = Text.trim s.
Proof.
  unfold Text.trim.
  assert (H : Text.trimStart (Text.trimEnd (Text.trimStart s)) =
              Text.trimEnd (Text.trimStart s)).
  { apply trimStart_fixed.
    destruct (trimEnd_split (Text.trimStart s)) as [rest [Hr _]].
    destruct (Text.head_space (Text.trimEnd (Text.trimStart s)))
      as [t|] eqn:Hh; [|reflexivity].
    pose proof (head_space_app _ t rest Hh) as Happ.
    rewrite <- Hr, trimStart_head in Happ. discriminate. }
  rewrite H. apply trimEnd_idempotent.
Qed.

Lemma mem_In (s : string) (l : list string) :
  BookSchema.mem s l = true <-> In s l.
Proof.
  unfold BookSchema.mem. rewrite existsb_exists. split.
  - intros [x [Hx He]]. apply String.eqb_eq in He. now subst.
  - intros H. exists s. split; [easy|]. apply String.eqb_refl.
Qed.

Lemma startsWith_spec (p s : string) :
  Text.startsWith p s = true <-> exists post, s = (p ++ post)%string.
Proof.
  revert s. induction p as [|a p IH]; intros s; simpl.
  - split; [intros _; now exists s | reflexivity].
  - destruct s as [|b s].
    + split; [discriminate | intros [post H]; discriminate].
    + rewrite andb_true_iff, IH. split.
      * intros [Hab [post ->]]. apply Ascii.eqb_eq in Hab. subst.
        now exists post.
      * intros [post H]. inversion H; subst. split.
        -- apply Ascii.eqb_refl.
        -- now exists post.
Qed.

Lemma includes_unfold (p s : string) :
  Text.includes p s =
  Text.startsWith p s ||
  match s with
  | EmptyString => false
  | String _ r => Text.includes p r
  end.
Proof. destruct s; reflexivity. Qed.

Lemma includes_spec (p s : string) :
  Text.includes p s = true <->
  exists pre post, s = (pre ++ p ++ post)%string.
Proof.
  split.
  - induction s as [|c r IH]; rewrite includes_unfold, orb_true_iff.
    + intros [H | H]; [|discriminate].
      apply startsWith_spec in H. destruct H as [post H]. now exists "", post.
    + intros [H | H].
      * apply startsWith_spec in H. destruct H as [post H].
        now exists "", post.
      * destruct (IH H) as [pre [post ->]]. now exists (String c pre), post.
  - intros [pre [post ->]]. induction pre as [|c pre IH].
    + rewrite includes_unfold. apply orb_true_iff. left.
      apply startsWith_spec. now exists post.
    + simpl. rewrite IH. apply orb_true_r.
Qed.

(** ** Text by its code points *)

Lemma append_assoc (a b c : string) :
  ((a ++ b) ++ c = a ++ (b ++ c))%string.
Proof. induction a as [|x a IH]; simpl; [reflexivity | now rewrite IH]. Qed.

Lemma append_nil_r (s : string) : (s ++ "")%string = s.
Proof. induction s as [|c s IH]; simpl; [reflexivity | now rewrite IH]. Qed.

Lemma code_byte (n : N) : (n < 256)%N -> Text.code (byte n) = N.to_nat n.
Proof.
  intros H. unfold Text.code, byte, nat_of_ascii.
  now rewrite N_ascii_embedding.
Qed.







(** Linear arithmetic with divisions by constants. *)
Ltac dlia := zify; Z.to_euclidean_division_equations; lia.



(** *** White space *)

Lemma white_space_encoded :
  exists l,
    map encode white_space_points = l /\
    Forall (fun w => forall s, Text.trimStart (w ++ s) = Text.trimStart s) l.
Proof.
  eexists. split; [vm_compute; reflexivity|].
  repeat (apply Forall_cons; [intros s; reflexivity|]). apply Forall_nil.
Qed.

Lemma trimStart_white_space (cp : N) (s : string) :
  In cp white_space_points ->
  Text.trimStart (encode cp ++ s) = Text.trimStart s.
Proof.
  intros H. destruct white_space_encoded as [l [Hl Hall]].
  rewrite Forall_forall in Hall. apply Hall.
  rewrite <- Hl. now apply in_map.
Qed.

Lemma trimStart_utf8_white_space (cps : list N) (s : string) :
  Forall (fun cp => In cp white_space_points) cps ->
  Text.trimStart (utf8 cps ++ s) = Text.trimStart s.
Proof.
  induction 1 as [|cp r Hcp Hr IH]; [reflexivity|].
  cbn [utf8]. now rewrite append_assoc, trimStart_white_space.
Qed.

Lemma trim_utf8_white_space (cps : list N) :
  Forall (fun cp => In cp white_space_points) cps ->
  Text.trim (utf8 cps) = "".
Proof.
  intros H. unfold Text.trim.
  rewrite <- (append_nil_r (utf8 cps)).
  now rewrite (trimStart_utf8_white_space cps "" H).
Qed.

(** *** Escapes *)

Lemma hex_round (c : ascii) :
  Text.hex_digit (hex (Text.code c / 16)) = Some (Text.code c / 16) /\
  Text.hex_digit (hex (Text.code c mod 16)) = Some (Text.code c mod 16) /\
  ascii_of_nat (16 * (Text.code c / 16) + Text.code c mod 16) = c.
Proof. each_byte c; repeat split. Qed.

Lemma unescape_escape_all (s : string) :
  Text.unescape (escape_all s) = Some (escapes s).
Proof.
  induction s as [|c s IH]; [reflexivity|].
  cbn [escape_all Text.unescape escapes].
  change (Ascii.eqb "%" "%") with true. cbv iota.
  destruct (hex_round c) as [H1 [H2 H3]].
  now rewrite H1, H2, H3, IH.
Qed.

Lemma escapes_app (s t : string) :
  escapes (s ++ t) = escapes s ++ escapes t.
Proof.
  induction s as [|c s IH]; simpl; [reflexivity | now rewrite IH].
Qed.

Lemma octets_1 b l :
  Text.code b < 128 ->
  Text.octets (Text.Escape b :: l) = option_map (String b) (Text.octets l).
Proof.
  intros H. cbn [Text.octets]. cbv zeta.
  destruct (Nat.ltb_spec (Text.code b) 128); [reflexivity | lia].
Qed.

Lemma continuation_true c :
  128 <= Text.code c <= 191 -> Text.continuation c = true.
Proof.
  intros H. unfold Text.continuation. apply andb_true_iff.
  split; apply Nat.leb_le; lia.
Qed.

Lemma octets_2 b b2 l :
  194 <= Text.code b <= 223 -> 128 <= Text.code b2 <= 191 ->
  Text.octets (Text.Escape b :: Text.Escape b2 :: l) =
    option_map (fun s => String b (String b2 s)) (Text.octets l).
Proof.
  intros H H2. cbn [Text.octets]. cbv zeta.
  destruct (Nat.ltb_spec (Text.code b) 128); [lia|].
  destruct (Nat.leb_spec 194 (Text.code b)); [|lia].
  destruct (Nat.leb_spec (Text.code b) 223); [|lia].
  cbn [andb]. now rewrite continuation_true.
Qed.

Lemma octets_3 b b2 b3 l :
  224 <= Text.code b <= 239 ->
  128 <= Text.code b2 <= 191 -> 128 <= Text.code b3 <= 191 ->
  (Text.code b = 224 -> 160 <= Text.code b2) ->
  (Text.code b = 237 -> Text.code b2 <= 159) ->
  Text.octets (Text.Escape b :: Text.Escape b2 :: Text.Escape b3 :: l) =
    option_map (fun s => String b (String b2 (String b3 s))) (Text.octets l).
Proof.
  intros H H2 H3 Ha Hb. cbn [Text.octets]. cbv zeta.
  destruct (Nat.ltb_spec (Text.code b) 128); [lia|].
  destruct (Nat.leb_spec 194 (Text.code b)); [|lia].
  destruct (Nat.leb_spec (Text.code b) 223); [lia|].
  destruct (Nat.leb_spec 224 (Text.code b)); [|lia].
  destruct (Nat.leb_spec (Text.code b) 239); [|lia].
  cbn [andb].
  assert (Hs : Text.second_of_three (Text.code b) b2 = true).
  { unfold Text.second_of_three.
    destruct (Nat.eqb_spec (Text.code b) 224).
    - apply andb_true_iff. split; apply Nat.leb_le; lia.
    - destruct (Nat.eqb_spec (Text.code b) 237).
      + apply andb_true_iff. split; apply Nat.leb_le; lia.
      + now apply continuation_true. }
  now rewrite Hs, continuation_true.
Qed.

Lemma octets_4 b b2 b3 b4 l :
  240 <= Text.code b <= 244 ->
  128 <= Text.code b2 <= 191 -> 128 <= Text.code b3 <= 191 ->
  128 <= Text.code b4 <= 191 ->
  (Text.code b = 240 -> 144 <= Text.code b2) ->
  (Text.code b = 244 -> Text.code b2 <= 143) ->
  Text.octets
    (Text.Escape b :: Text.Escape b2 :: Text.Escape b3 :: Text.Escape b4 :: l) =
    option_map (fun s => String b (String b2 (String b3 (String b4 s))))
      (Text.octets l).
Proof.
  intros H H2 H3 H4 Ha Hb. cbn [Text.octets]. cbv zeta.
  destruct (Nat.ltb_spec (Text.code b) 128); [lia|].
  destruct (Nat.leb_spec 194 (Text.code b)); [|lia].
  destruct (Nat.leb_spec (Text.code b) 223); [lia|].
  destruct (Nat.leb_spec 224 (Text.code b)); [|lia].
  destruct (Nat.leb_spec (Text.code b) 239); [lia|].
  destruct (Nat.leb_spec 240 (Text.code b)); [|lia].
  destruct (Nat.leb_spec (Text.code b) 244); [|lia].
  cbn [andb].
  assert (Hs : Text.second_of_four (Text.code b) b2 = true).
  { unfold Text.second_of_four.
    destruct (Nat.eqb_spec (Text.code b) 240).
    - apply andb_true_iff. split; apply Nat.leb_le; lia.
    - destruct (Nat.eqb_spec (Text.code b) 244).
      + apply andb_true_iff. split; apply Nat.leb_le; lia.
      + now apply continuation_true. }
  now rewrite Hs, !continuation_true.
Qed.

(** The escapes of the encoding of a scalar value are read back as the
    encoding. *)
Lemma octets_encode (cp : N) (l : list Text.Unit) :
  scalar cp ->
  Text.octets (escapes (encode cp) ++ l) =
    option_map (append (encode cp)) (Text.octets l).
Proof.
  intros Hs. unfold scalar in Hs. unfold encode.
  destruct (N.ltb_spec cp 128) as [H1|H1].
  { cbn [escapes app append]. rewrite octets_1; [reflexivity|].
    rewrite code_byte by lia. lia. }
  destruct (N.ltb_spec cp 2048) as [H2|H2].
  { cbn [escapes app append].
    rewrite octets_2; [reflexivity | |]; rewrite code_byte by dlia; dlia. }
  destruct (N.ltb_spec cp 65536) as [H3|H3].
  { cbn [escapes app append].
    rewrite octets_3; [reflexivity | | | | |];
      rewrite ?code_byte by dlia; dlia. }
  cbn [escapes app append].
  rewrite octets_4; [reflexivity | | | | | |];
    rewrite ?code_byte by dlia; dlia.
Qed.

Lemma octets_utf8 (cps : list N) :
  Forall scalar cps ->
  Text.octets (escapes (utf8 cps)) = Some (utf8 cps).
Proof.
  induction 1 as [|cp r Hcp Hr IH]; [reflexivity|].
  cbn [utf8]. rewrite escapes_app, (octets_encode cp _ Hcp), IH. reflexivity.
Qed.

Lemma decode_escape_all (cps : list N) :
  Forall scalar cps ->
  Text.decodeURIComponent (escape_all (utf8 cps)) = Some (utf8 cps).
Proof.
  intros H. unfold Text.decodeURIComponent.
  rewrite unescape_escape_all. now apply octets_utf8.
Qed.

(** The escapes of the encoding of a surrogate are refused. *)
Lemma decode_surrogate (cp : N) :
  (55296 <= cp <= 57343)%N ->
  Text.decodeURIComponent (escape_all (encode cp)) = None.
Proof.
  intros H. unfold Text.decodeURIComponent.
  rewrite unescape_escape_all. unfold encode.
  destruct (N.ltb_spec cp 128); [lia|].
  destruct (N.ltb_spec cp 2048); [lia|].
  destruct (N.ltb_spec cp 65536); [|lia].
  assert (Hl : Text.code (byte (224 + cp / 4096)) = 237)
    by (rewrite code_byte by dlia; dlia).
  assert (Hc : 160 <= Text.code (byte (128 + (cp / 64) mod 64)))
    by (rewrite code_byte by dlia; dlia).
  set (b1 := byte (224 + cp / 4096)) in *.
  set (b2 := byte (128 + (cp / 64) mod 64)) in *.
  set (b3 := byte (128 + cp mod 64)) in *.
  cbn [escapes Text.octets]. cbv zeta. rewrite Hl.
  unfold Text.second_of_three.
  cbn [Nat.ltb Nat.leb Nat.eqb andb].
  destruct (Nat.leb_spec (Text.code b2) 159); [lia|].
  now rewrite andb_false_r.
Qed.

Lemma decode_plain (s : string) :
  Text.all (fun c => negb (Ascii.eqb c "%")) s = true ->
  Text.decodeURIComponent s = Some s.
Proof.
  unfold Text.decodeURIComponent.
  induction s as [|c s IH]; [reflexivity|].
  cbn [Text.all Text.unescape]. intros H.
  apply andb_true_iff in H. destruct H as [Hc Hs].
  apply negb_true_iff in Hc. rewrite Hc.
  specialize (IH Hs). destruct (Text.unescape s) as [l|]; [|discriminate].
  cbn [option_map Text.octets]. now rewrite IH.
Qed.

(** *** Paths made of escapes *)

Lemma split_no_slash (t : string) :
  Text.all (fun c => negb (Ascii.eqb c "/")) t = true ->
  BookRoutes.split t = [t].
Proof.
  induction t as [|c t IH]; [reflexivity|].
  cbn [Text.all BookRoutes.split]. intros H.
  apply andb_true_iff in H. destruct H as [Hc Ht].
  apply negb_true_iff in Hc. now rewrite Hc, (IH Ht).
Qed.

Lemma hex_not_slash (c : ascii) :
  Ascii.eqb (hex (Text.code c / 16)) "/" = false /\
  Ascii.eqb (hex (Text.code c mod 16)) "/" = false.
Proof. each_byte c; split; reflexivity. Qed.

Lemma escape_all_no_slash (s : string) :
  Text.all (fun c => negb (Ascii.eqb c "/")) (escape_all s) = true.
Proof.
  induction s as [|c s IH]; [reflexivity|].
  cbn [escape_all Text.all]. destruct (hex_not_slash c) as [H1 H2].
  now rewrite H1, H2, IH.
Qed.

Lemma encode_not_empty (cp : N) : encode cp <> "".
Proof.
  unfold encode.
  destruct (cp <? 128)%N; [discriminate|].
  destruct (cp <? 2048)%N; [discriminate|].
  destruct (cp <? 65536)%N; discriminate.
Qed.

Lemma escaped_not_empty (cps : list N) :
  cps <> [] -> Text.is_empty (escape_all (utf8 cps)) = false.
Proof.
  destruct cps as [|cp r]; [intros H; now elim H|]. intros _.
  cbn [utf8]. pose proof (encode_not_empty cp) as H.
  destruct (encode cp); [now elim H | reflexivity].
Qed.

Lemma segments_escaped (e : string) :
  Text.all (fun c => negb (Ascii.eqb c "/")) e = true ->
  Text.is_empty e = false ->
  BookRoutes.segments ("/" ++ e) = Some [e] /\
  BookRoutes.segments ("/genre/" ++ e) = Some ["genre"; e].
Proof.
  intros Hs Hne. unfold BookRoutes.segments.
  cbn [append BookRoutes.split]. 
  change (Ascii.eqb "/" "/") with true. cbv iota.
  split.
  - rewrite (split_no_slash e Hs). cbn [BookRoutes.drop_last_empty].
    now rewrite Hne.
  - cbn -[BookRoutes.drop_last_empty]. rewrite (split_no_slash e Hs).
    cbn [BookRoutes.drop_last_empty]. now rewrite Hne.
Qed.

(** ** Sorting newest first *)

Lemma insert_newest_perm (b : IBook) (l : list IBook) :
  Permutation (BookModel.insert_newest b l) (b :: l).
Proof.
  induction l as [|x r IH]; simpl; [easy|].
  destruct (Z.leb (createdAt x) (createdAt b)); [easy|].
  rewrite IH. apply perm_swap.
Qed.

Lemma sort_newest_perm (l : list IBook) :
  Permutation (BookModel.sort_newest l) l.
Proof.
  induction l as [|b r IH]; simpl; [easy|].
  rewrite insert_newest_perm. now constructor.
Qed.

Lemma insert_newest_sorted (b : IBook) (l : list IBook) :
  newest_first l -> newest_first (BookModel.insert_newest b l).
Proof.
  unfold newest_first.
  induction l as [|x r IH]; simpl; intros Hs.
  - constructor; constructor.
  - destruct (Z.leb (createdAt x) (createdAt b)) eqn:Hle.
    + apply Z.leb_le in Hle. constructor; [easy|].
      inversion Hs as [|? ? Hr Hx]; subst.
      constructor; [easy|].
      eapply Forall_impl; [|exact Hx]. simpl. intros; lia.
    + apply Z.leb_gt in Hle.
      inversion Hs as [|? ? Hr Hx]; subst.
      constructor; [now apply IH|].
      eapply Permutation_Forall.
      * symmetry. apply insert_newest_perm.
      * constructor; [lia|easy].
Qed.

Lemma sort_newest_sorted (l : list IBook) :
  newest_first (BookModel.sort_newest l).
Proof.
  induction l as [|b r IH]; simpl.
  - constructor.
  - now apply insert_newest_sorted.
Qed.

Lemma sort_newest_In (l : list IBook) (b : IBook) :
  In b (BookModel.sort_newest l) <-> In b l.
Proof.
  split; apply Permutation_in;
    [apply sort_newest_perm | symmetry; apply sort_newest_perm].
Qed.

(** ** Validation against the schema *)


(** What each path of the schema accepts. *)
Lemma title_accepts (x : string) :
  BookModel.report BookSchema.title_path (Some x) = [] <->
  Constraints.title_in_range x.
Proof.
  unfold Constraints.title_in_range, BookModel.report, BookModel.doValidate.
  simpl. unfold BookSchema.nonempty.
  destruct (Text.is_empty x) eqn:He; simpl.
  - apply is_empty_true in He. subst x. simpl.
    split; [discriminate | lia].
  - destruct (Text.length x) as [|n] eqn:Hn; simpl;
      [split; [discriminate | lia]|].
    destruct (Nat.leb n 199) eqn:Hle.
    + apply Nat.leb_le in Hle. split; [lia | reflexivity].
    + apply Nat.leb_gt in Hle. split; [discriminate | lia].
Qed.

Lemma author_accepts (x : string) :
  BookModel.report BookSchema.author_path (Some x) = [] <->
  Constraints.author_in_range x.
Proof.
  unfold Constraints.author_in_range, BookModel.report, BookModel.doValidate.
  simpl. unfold BookSchema.nonempty.
  destruct (Text.is_empty x) eqn:He; simpl.
  - apply is_empty_true in He. subst x. simpl.
    split; [discriminate | lia].
  - destruct (Text.length x) as [|[|n]] eqn:Hn; simpl;
      (split; [try discriminate; lia | try reflexivity; lia]).
Qed.

Lemma isbn_validator_spec (s : string) :
  BookSchema.isbn_validator s = true <-> Constraints.isbn_well_formed s.
Proof.
  unfold BookSchema.isbn_validator, Constraints.isbn_well_formed.
  rewrite andb_true_iff, orb_true_iff, !Nat.eqb_eq. tauto.
Qed.

Lemma isbn_accepts (x : string) :
  BookModel.report BookSchema.isbn_path (Some x) = [] <->
  Constraints.isbn_well_formed x.
Proof.
  rewrite <- isbn_validator_spec.
  unfold BookModel.report, BookModel.doValidate.
  simpl. unfold BookSchema.nonempty.
  destruct (Text.is_empty x) eqn:He; simpl.
  - apply is_empty_true in He. subst x. split; discriminate.
  - destruct (BookSchema.isbn_validator x); simpl;
      split; try discriminate; reflexivity.
Qed.

Lemma publishedYear_accepts (year : Z) (y : Q) :
  BookModel.report (BookSchema.publishedYear_path year) (Some y) = [] <->
  Constraints.year_in_range year y.
Proof.
  unfold Constraints.year_in_range, BookModel.report, BookModel.doValidate.
  simpl. rewrite <- !Qle_bool_iff.
  destruct (Qle_bool (inject_Z 1000) y);
    destruct (Qle_bool y (inject_Z year)); simpl;
    (split; [try discriminate; auto | intros [? ?]; congruence]).
Qed.

Lemma genre_accepts (x : string) :
  BookModel.report BookSchema.genre_path (Some x) = [] <->
  Constraints.genre_known x.
Proof.
  unfold Constraints.genre_known. rewrite <- mem_In.
  unfold BookModel.report, BookModel.doValidate.
  cbn -[BookSchema.mem BookSchema.genres]. unfold BookSchema.nonempty.
  destruct (Text.is_empty x) eqn:He; cbn -[BookSchema.mem BookSchema.genres].
  - apply is_empty_true in He. subst x. split; discriminate.
  - destruct (BookSchema.mem x BookSchema.genres);
      split; try discriminate; reflexivity.
Qed.

Lemma price_accepts (p : Q) :
  BookModel.report BookSchema.price_path (Some p) = [] <->
  Constraints.price_not_negative p.
Proof.
  unfold Constraints.price_not_negative.
  change (0 <= p)%Q with (inject_Z 0 <= p)%Q. rewrite <- Qle_bool_iff.
  unfold BookModel.report, BookModel.doValidate. simpl.
  destruct (Qle_bool (inject_Z 0) p); split; try discriminate; reflexivity.
Qed.

(** A required path reports nothing exactly when the key is present and
    accepted. *)
Lemma report_required {A : Type} (p : SchemaType A) (P : A -> Prop)
    (f : A -> A) (v : option A) :
  required p <> None ->
  (forall x, BookModel.report p (Some x) = [] <-> P x) ->
  BookModel.report p (option_map f v) = [] <->
  exists x, v = Some x /\ P (f x).
Proof.
  intros Hreq Hacc. destruct v as [x|]; simpl.
  - rewrite Hacc. split.
    + intros H. now exists x.
    + intros [y [Hy H]]. now inversion Hy; subst.
  - split.
    + unfold BookModel.report, BookModel.doValidate.
      destruct (required p); [discriminate | now elim Hreq].
    + intros [y [Hy _]]. discriminate.
Qed.

(** On an update a path reports nothing exactly when the key is absent
    or accepted. *)
Lemma report_supplied {A : Type} (p : SchemaType A) (P : A -> Prop)
    (f : A -> A) (v : option A) :
  (forall x, BookModel.report p (Some x) = [] <-> P x) ->
  BookModel.report_if_set p (option_map f v) = [] <->
  forall x, v = Some x -> P (f x).
Proof.
  intros Hacc. destruct v as [x|]; simpl.
  - rewrite Hacc. split.
    + intros H y Hy. now inversion Hy; subst.
    + intros H. now apply H.
  - split; [intros _ y Hy; discriminate | reflexivity].
Qed.

Lemma option_map_id {A : Type} (v : option A) :
  option_map (fun x => x) v = v.
Proof. now destruct v. Qed.

Lemma report_title (v : option string) :
  BookModel.report BookSchema.title_path (option_map Text.trim v) = [] <->
  Constraints.title_ok v.
Proof. apply report_required; [discriminate | apply title_accepts]. Qed.

Lemma report_author (v : option string) :
  BookModel.report BookSchema.author_path (option_map Text.trim v) = [] <->
  Constraints.author_ok v.
Proof. apply report_required; [discriminate | apply author_accepts]. Qed.

Lemma report_isbn (v : option string) :
  BookModel.report BookSchema.isbn_path (option_map Text.trim v) = [] <->
  Constraints.isbn_ok v.
Proof. apply report_required; [discriminate | apply isbn_accepts]. Qed.

Lemma report_publishedYear (year : Z) (v : option Q) :
  BookModel.report (BookSchema.publishedYear_path year) v = [] <->
  Constraints.publishedYear_ok year v.
Proof.
  rewrite <- (option_map_id v) at 1.
  apply (report_required _ (Constraints.year_in_range year) (fun x => x));
    [discriminate | apply publishedYear_accepts].
Qed.

Lemma report_genre (v : option string) :
  BookModel.report BookSchema.genre_path (option_map Text.trim v) = [] <->
  Constraints.genre_ok v.
Proof. apply report_required; [discriminate | apply genre_accepts]. Qed.

Lemma report_price (v : option Q) :
  BookModel.report BookSchema.price_path v = [] <-> Constraints.price_ok v.
Proof.
  rewrite <- (option_map_id v) at 1.
  apply (report_required _ Constraints.price_not_negative (fun x => x));
    [discriminate | apply price_accepts].
Qed.

Lemma app_nil_iff {A : Type} (l l' : list A) :
  l ++ l' = [] <-> l = [] /\ l' = [].
Proof.
  split; [apply app_eq_nil | intros [-> ->]; reflexivity].
Qed.

(** A path is reported either as left out or as set. *)
Lemma report_nil {A : Type} (p : SchemaType A) (v : option A) :
  BookModel.report p v = [] <->
  BookModel.report_if_absent p v = [] /\ BookModel.report_if_set p v = [].
Proof. destruct v; simpl; tauto. Qed.


(** The validation in the order of the schema alone: the same errors as
    [validate], which puts the paths left out first. *)
Lemma validate_nil (year : Z) (d : BookData) :
  BookModel.validate year d = [] <->
  BookModel.report BookSchema.title_path (d_title d) = [] /\
  BookModel.report BookSchema.author_path (d_author d) = [] /\
  BookModel.report BookSchema.isbn_path (d_isbn d) = [] /\
  BookModel.report (BookSchema.publishedYear_path year) (d_publishedYear d)
    = [] /\
  BookModel.report BookSchema.genre_path (d_genre d) = [] /\
  BookModel.report BookSchema.price_path (d_price d) = [].
Proof.
  unfold BookModel.validate, BookModel.validate_update.
  rewrite !app_nil_iff, !report_nil. tauto.
Qed.



(** The validation of a candidate finds nothing exactly when the candidate
    satisfies the constraints. *)
Lemma validate_satisfied (year : Z) (d : BookData) :
  BookModel.validate year (BookModel.applySetters d) = [] <->
  Constraints.satisfied year d.
Proof.
  rewrite validate_nil.
  unfold Constraints.satisfied, BookModel.applySetters. simpl.
  rewrite report_title, report_author, report_isbn, report_publishedYear,
    report_genre, report_price.
  tauto.
Qed.


(** The update validators find nothing exactly when every supplied field
    is in range. *)
Lemma validate_update_supplied (year : Z) (d : BookData) :
  BookModel.validate_update year (BookModel.applySetters d) = [] <->
  Constraints.supplied_ok year d.
Proof.
  unfold BookModel.validate_update, Constraints.supplied_ok,
    BookModel.applySetters.
  simpl. rewrite !app_nil_iff.
  rewrite (report_supplied _ _ Text.trim _ title_accepts),
    (report_supplied _ _ Text.trim _ author_accepts),
    (report_supplied _ _ Text.trim _ isbn_accepts),
    (report_supplied _ _ Text.trim _ genre_accepts).
  rewrite <- (option_map_id (d_publishedYear d)) at 1.
  rewrite (report_supplied _ _ (fun x => x) _ (publishedYear_accepts year)).
  rewrite <- (option_map_id (d_price d)) at 1.
  rewrite (report_supplied _ _ (fun x => x) _ price_accepts).
  tauto.
Qed.

(** A stored book passes the validation of the schema exactly when it
    satisfies the constraints. *)
Lemma validate_holds (year : Z) (b : IBook) :
  BookModel.validate year (Constraints.data_of b) = [] <->
  Constraints.holds year b.
Proof.
  rewrite validate_nil. unfold Constraints.holds, Constraints.data_of.
  cbn [d_title d_author d_isbn d_publishedYear d_genre d_price].
  rewrite title_accepts, author_accepts, isbn_accepts, publishedYear_accepts,
    genre_accepts, price_accepts.
  tauto.
Qed.

(** What is written satisfies the constraints. *)
Lemma written_holds year d b :
  Constraints.satisfied year d -> Constraints.written d b ->
  Constraints.holds year b.
Proof.
  intros [[t [Dt Ct]] [[a [Da Ca]] [[i [Di Ci]] [[y [Dy Cy]]
    [[g [Dg Cg]] [p [Dp Cp]]]]]]] [Ht [Ha [Hi [Hy [Hg [Hp _]]]]]].
  rewrite Dt in Ht. rewrite Da in Ha. rewrite Di in Hi. rewrite Dy in Hy.
  rewrite Dg in Hg. rewrite Dp in Hp.
  cbn [option_map] in Ht, Ha, Hi, Hg.
  injection Ht as Ht. injection Ha as Ha. injection Hi as Hi.
  injection Hy as Hy. injection Hg as Hg. injection Hp as Hp.
  unfold Constraints.holds. rewrite <- Ht, <- Ha, <- Hi, <- Hy, <- Hg, <- Hp.
  tauto.
Qed.

Lemma in_range_orElse {A : Type} (P : A -> Prop) (f : A -> A)
    (v : option A) (old : A) :
  (forall x, v = Some x -> P (f x)) -> P old ->
  P (BookModel.orElse (option_map f v) old).
Proof. destruct v as [x|]; simpl; auto. Qed.

Lemma updated_holds year d now b b' :
  Constraints.supplied_ok year d ->
  Constraints.holds year b ->
  Constraints.updated d now b b' ->
  Constraints.holds year b'.
Proof.
  intros [Ut [Ua [Ui [Uy [Ug Up]]]]] [Vt [Va [Vi [Vy [Vg Vp]]]]]
    [_ [_ [_ [Ht [Ha [Hi [Hy [Hg [Hp _]]]]]]]]].
  unfold Constraints.holds. rewrite Ht, Ha, Hi, Hy, Hg, Hp.
  split; [|split; [|split; [|split; [|split]]]].
  - now apply (in_range_orElse Constraints.title_in_range).
  - now apply (in_range_orElse Constraints.author_in_range).
  - now apply (in_range_orElse Constraints.isbn_well_formed).
  - rewrite <- (option_map_id (d_publishedYear d)).
    now apply (in_range_orElse (Constraints.year_in_range year)).
  - now apply (in_range_orElse Constraints.genre_known).
  - rewrite <- (option_map_id (d_price d)).
    now apply (in_range_orElse Constraints.price_not_negative).
Qed.

(** ** Create *)

Lemma falsy_violates_title (v : option string) :
  BookController.falsy v = true -> ~ Constraints.title_ok v.
Proof.
  intros H [t [Ht [H1 _]]]. subst v. simpl in H.
  apply is_empty_true in H. subst t. simpl in H1. lia.
Qed.

Lemma falsy_violates_author (v : option string) :
  BookController.falsy v = true -> ~ Constraints.author_ok v.
Proof.
  intros H [t [Ht H1]]. subst v. simpl in H.
  apply is_empty_true in H. subst t.
  unfold Constraints.author_in_range in H1. simpl in H1. lia.
Qed.

Lemma falsy_violates_isbn (v : option string) :
  BookController.falsy v = true -> ~ Constraints.isbn_ok v.
Proof.
  intros H [t [Ht [_ H1]]]. subst v. simpl in H.
  apply is_empty_true in H. subst t. simpl in H1. destruct H1; discriminate.
Qed.

(** What [save] does, case by case. *)
Lemma save_invalid year st now fresh d e es :
  BookModel.validate year (BookModel.applySetters d) = e :: es ->
  BookModel.save year st now fresh d =
    (st, Throw (ValidationError (Some "Book") (e :: es))).
Proof. intros H. unfold BookModel.save. now rewrite H. Qed.

Lemma save_unreachable year st now fresh d m :
  Constraints.satisfied year d -> fault st = Some m ->
  BookModel.save year st now fresh d = (st, Throw (MongooseError m)).
Proof.
  intros Hs Hf. apply validate_satisfied in Hs.
  unfold BookModel.save. now rewrite Hs, Hf.
Qed.

Lemma save_reachable year st now fresh d :
  Constraints.satisfied year d -> fault st = None ->
  exists b,
    Constraints.written d b /\ _id b = fresh /\
    createdAt b = now /\ updatedAt b = now /\
    BookModel.save year st now fresh d =
      if existsb (BookModel.has_id fresh) (docs st) then
        (st, Throw (BookModel.duplicate_key "_id_"))
      else if existsb (BookModel.has_isbn (isbn b)) (docs st) then
        (st, Throw (BookModel.duplicate_key "isbn_1"))
      else (mkStore (docs st ++ [b]) (fault st), Ok b).
Proof.
  intros Hs Hf. pose proof (proj2 (validate_satisfied year d) Hs) as Hv.
  destruct Hs as [[t [Ht _]] [[a [Ha _]] [[i [Hi _]] [[y [Hy _]]
    [[g [Hg _]] [p [Hp _]]]]]]].
  exists (mkBook fresh (Text.trim t) (Text.trim a) (Text.trim i) y
            (Text.trim g) p (BookModel.orElse (d_inStock d) true) now now).
  unfold Constraints.written, BookModel.save. rewrite Hv, Hf.
  unfold BookModel.applySetters. simpl.
  rewrite Ht, Ha, Hi, Hy, Hg, Hp. simpl. repeat split.
Qed.

Lemma satisfied_passes_precheck year d :
  Constraints.satisfied year d ->
  BookController.falsy (d_title d) || BookController.falsy (d_author d)
  || BookController.falsy (d_isbn d) = false.
Proof.
  intros [Ht [Ha [Hi _]]].
  destruct (BookController.falsy (d_title d)) eqn:H1;
    [now apply falsy_violates_title in H1|].
  destruct (BookController.falsy (d_author d)) eqn:H2;
    [now apply falsy_violates_author in H2|].
  destruct (BookController.falsy (d_isbn d)) eqn:H3;
    [now apply falsy_violates_isbn in H3|].
  reflexivity.
Qed.








Lemma createBook_outcome year st now fresh d :
  CreateOutcome year st now fresh d
    (BookController.createBook year st now fresh d).
Proof.
  unfold BookController.createBook.
  destruct (BookController.falsy (d_title d)
            || BookController.falsy (d_author d)
            || BookController.falsy (d_isbn d)) eqn:Hpre.
  - now apply create_missing.
  - unfold BookService.createBook.
    destruct (BookModel.validate year (BookModel.applySetters d))
      as [|e es] eqn:Hv.
    + pose proof (proj1 (validate_satisfied year d) Hv) as Hs.
      destruct (fault st) as [m|] eqn:Hf.
      * rewrite (save_unreachable year st now fresh d m Hs Hf).
        now apply create_unreachable with (m := m).
      * destruct (save_reachable year st now fresh d Hs Hf)
          as [b [Hw [Hid [Hc [Hu Hsave]]]]].
        rewrite Hsave.
        destruct (existsb (BookModel.has_id fresh) (docs st)) eqn:Hdi.
        { apply create_duplicate with (b := b); try easy.
          now rewrite Hdi. }
        destruct (existsb (BookModel.has_isbn (isbn b)) (docs st)) eqn:Hdb.
        { apply create_duplicate with (b := b); try easy.
          now rewrite Hdi, Hdb. }
        now apply create_stored.
    + rewrite (save_invalid year st now fresh d e es Hv).
      now apply create_invalid with (e := e) (es := es).
Qed.

Lemma stored_isbn_valid year b :
  Constraints.holds year b -> BookSchema.isbn_validator (isbn b) = true.
Proof. intros [_ [_ [H _]]]. now apply isbn_validator_spec. Qed.


(** C2, as the handler behaves.  A create whose isbn is the isbn of a
    stored book is answered 400 and leaves the store unchanged, so no
    second record appears.  The reply is the duplicate-ISBN one exactly
    when the candidate satisfies the constraints and the store is
    reachable: validation comes before the insert, so a candidate that
    breaks a constraint gets the validation message although its isbn is
    stored. *)
Theorem create_with_stored_isbn_is_refused :
  forall year st now fresh d b st' r,
    store_ok year st ->
    In b (docs st) ->
    d_isbn d = Some (isbn b) ->
    BookController.createBook year st now fresh d = (st', r) ->
    status r = 400 /\ st' = st /\
    (Constraints.satisfied year d -> fault st = None ->
     message r = "A book with this ISBN already exists" /\
     error r = Some "A book with this ISBN already exists") /\
    (message r = "A book with this ISBN already exists" ->
     Constraints.satisfied year d /\ fault st = None).
Proof.
  intros year st now fresh d b st' r [_ Hok] Hin Hisbn Hrun.
  assert (Htrim : Text.trim (isbn b) = isbn b).
  { apply trim_valid_isbn. apply (stored_isbn_valid year).
    rewrite Forall_forall in Hok. now apply Hok. }
  pose proof (createBook_outcome year st now fresh d) as Hout.
  rewrite Hrun in Hout.
  inversion Hout as [Hpre | e es msg Hv Hmsg | m msg Hs Hf Hmsg
                    | b0 msg Hs Hf Hw Hdup Hmsg
                    | b0 Hs Hf Hw Hid Hc Hu Hdi Hdb]; subst; simpl.
  - split; [reflexivity|]. split; [reflexivity|]. split; [|discriminate].
    intros Hs _. apply satisfied_passes_precheck in Hs. congruence.
  - split; [reflexivity|]. split; [reflexivity|]. split; [|discriminate].
    intros Hs _. apply validate_satisfied in Hs. congruence.
  - split; [reflexivity|]. split; [reflexivity|]. split; [|discriminate].
    congruence.
  - split; [reflexivity|]. split; [reflexivity|].
    split; [intros _ _; split; reflexivity|].
    intros _. split; assumption.
  - (* a stored document would carry the isbn of [b] a second time *)
    exfalso.
    destruct Hw as [_ [_ [Hi _]]]. rewrite Hisbn in Hi. simpl in Hi.
    rewrite Htrim in Hi. inversion Hi as [Hi'].
    assert (Hex : existsb (BookModel.has_isbn (isbn b0)) (docs st) = true).
    { apply existsb_exists. exists b. split; [easy|].
      unfold BookModel.has_isbn. rewrite Hi'. apply String.eqb_refl. }
    congruence.
Qed.

Lemma store_ok_library : store_ok 2026 Instances.library.
Proof.
  split.
  - simpl. repeat constructor; simpl; intuition discriminate.
  - simpl. repeat (apply Forall_cons; [apply validate_holds; reflexivity|]).
    apply Forall_nil.
Qed.

Lemma create_with_stored_isbn_is_refused_witness :
  message (snd (BookController.createBook 2026 Instances.library 5000%Z 9%N
                  Instances.second_hobbit))
  = "A book with this ISBN already exists".
Proof.
  eapply (create_with_stored_isbn_is_refused 2026 Instances.library 5000%Z 9%N
            Instances.second_hobbit Instances.hobbit).
  - exact store_ok_library.
  - simpl. tauto.
  - reflexivity.
  - apply surjective_pairing.
  - apply validate_satisfied. reflexivity.
  - reflexivity.
Defined.

(** C2, counterexample.  A candidate with the isbn of a stored book and a
    negative price is not answered with the duplicate-ISBN message but with
    the validation error for the price. *)
Lemma stored_isbn_with_invalid_price_is_not_duplicate_key :
  In Instances.hobbit (docs Instances.library) /\
  d_isbn Instances.underpriced_hobbit = Some (isbn Instances.hobbit) /\
  message (snd (BookController.createBook 2026 Instances.library 5000%Z 9%N
                  Instances.underpriced_hobbit)) =
    "Failed to create book: Book validation failed: price: Price cannot be negative" /\
  message (snd (BookController.createBook 2026 Instances.library 5000%Z 9%N
                  Instances.underpriced_hobbit)) <>
    "A book with this ISBN already exists".
Proof.
  split; [simpl; tauto|]. split; [reflexivity|].
  split; [reflexivity | discriminate].
Qed.

(** ** Looking up, replacing and removing one document *)

Lemma findOne_Some p l b :
  BookModel.findOne p l = Some b -> In b l /\ p b = true.
Proof.
  induction l as [|x r IH]; simpl; [discriminate|].
  destruct (p x) eqn:Hp.
  - intros H. inversion H; subst. auto.
  - intros H. destruct (IH H). auto.
Qed.

Lemma findOne_None p l :
  BookModel.findOne p l = None <-> forall x, In x l -> p x = false.
Proof.
  induction l as [|x r IH]; simpl.
  - split; [intros _ x [] | reflexivity].
  - destruct (p x) eqn:Hp.
    + split; [discriminate|]. intros H. specialize (H x (or_introl eq_refl)).
      congruence.
    + rewrite IH. split.
      * intros H y [<- | Hy]; auto.
      * intros H y Hy. apply H. now right.
Qed.

Lemma has_id_true oid b : BookModel.has_id oid b = true <-> _id b = oid.
Proof. unfold BookModel.has_id. apply N.eqb_eq. Qed.

Lemma has_id_false oid b : BookModel.has_id oid b = false <-> _id b <> oid.
Proof. unfold BookModel.has_id. apply N.eqb_neq. Qed.

Lemma findOne_unique oid l b :
  NoDup (map _id l) -> In b l -> _id b = oid ->
  BookModel.findOne (BookModel.has_id oid) l = Some b.
Proof.
  induction l as [|x r IH]; simpl; intros Hnd Hin Hid; [easy|].
  inversion Hnd as [|? ? Hx Hr]; subst.
  destruct (BookModel.has_id (_id b) x) eqn:Hp.
  - destruct Hin as [-> | Hin]; [reflexivity|].
    apply has_id_true in Hp. elim Hx. rewrite Hp. now apply in_map.
  - destruct Hin as [-> | Hin].
    + apply has_id_false in Hp. now elim Hp.
    + now apply IH.
Qed.

Lemma replaceOne_frame oid b b' l :
  NoDup (map _id l) ->
  BookModel.findOne (BookModel.has_id oid) l = Some b ->
  Forall2 (fun x x' => (x = b /\ x' = b') \/ (_id x <> oid /\ x' = x))
    l (BookModel.replaceOne (BookModel.has_id oid) b' l).
Proof.
  induction l as [|x r IH]; simpl; intros Hnd Hf; [discriminate|].
  inversion Hnd as [|? ? Hx Hr]; subst.
  destruct (BookModel.has_id oid x) eqn:Hp.
  - inversion Hf; subst x. constructor; [now left|].
    apply has_id_true in Hp.
    clear - Hx Hp. induction r as [|y r IH]; constructor.
    + right. split; [|reflexivity]. intros Hy. apply Hx. left. congruence.
    + apply IH. intros Hin. apply Hx. now right.
  - constructor.
    + right. split; [now apply has_id_false | reflexivity].
    + now apply IH.
Qed.

Lemma replaceOne_ids oid b' l :
  _id b' = oid ->
  map _id (BookModel.replaceOne (BookModel.has_id oid) b' l) = map _id l.
Proof.
  intros Hid. induction l as [|x r IH]; simpl; [reflexivity|].
  destruct (BookModel.has_id oid x) eqn:Hp; simpl.
  - apply has_id_true in Hp. congruence.
  - now rewrite IH.
Qed.

Lemma deleteOne_In p l x :
  In x (BookModel.deleteOne p l) -> In x l.
Proof.
  induction l as [|y r IH]; simpl; [easy|].
  destruct (p y); simpl; [now right|]. intros [-> | H]; auto.
Qed.

Lemma deleteOne_ids_NoDup p l :
  NoDup (map _id l) -> NoDup (map _id (BookModel.deleteOne p l)).
Proof.
  induction l as [|y r IH]; simpl; intros Hnd; [constructor|].
  inversion Hnd as [|? ? Hy Hr]; subst.
  destruct (p y); simpl; [easy|].
  constructor; [|now apply IH].
  intros Hin. apply Hy. apply in_map_iff in Hin.
  destruct Hin as [x [Hx Hin]]. apply in_map_iff. exists x.
  split; [easy|]. now apply deleteOne_In in Hin.
Qed.

(** With unique identifiers, removing the document [oid] removes every
    document with that identifier and no other. *)
Lemma deleteOne_unique oid l x :
  NoDup (map _id l) ->
  In x (BookModel.deleteOne (BookModel.has_id oid) l) <->
  In x l /\ _id x <> oid.
Proof.
  induction l as [|y r IH]; simpl; intros Hnd; [tauto|].
  inversion Hnd as [|? ? Hy Hr]; subst.
  destruct (BookModel.has_id oid y) eqn:Hp.
  - apply has_id_true in Hp. split.
    + intros Hin. split; [now right|].
      intros Hx. apply Hy. rewrite Hp, <- Hx. now apply in_map.
    + intros [[-> | Hin] Hne]; [now elim Hne | easy].
  - apply has_id_false in Hp. simpl. rewrite (IH Hr). split.
    + intros [-> | [Hin Hne]]; auto.
    + intros [[-> | Hin] Hne]; auto.
Qed.

(** ** Update *)

Lemma set_fields_updated d now b :
  Constraints.updated d now b
    (BookModel.set_fields
       (mkPartial None None None (BookModel.applySetters d)) now b).
Proof. unfold Constraints.updated, BookModel.set_fields. simpl. tauto. Qed.

Lemma updateBook_outcome year cast st now id oid body :
  Text.is_empty id = false -> cast id = Some oid ->
  UpdateOutcome year st now oid (p_fields body)
    (BookController.updateBook year cast st now (Some id) body).
Proof.
  intros Hne Hc. unfold BookController.updateBook. rewrite Hne.
  unfold BookService.updateBook, BookModel.findByIdAndUpdate. rewrite Hc.
  simpl.
  destruct (BookModel.validate_update year
              (BookModel.applySetters (p_fields body))) as [|e es] eqn:Hv.
  - destruct (fault st) as [m|] eqn:Hf.
    + now apply update_unreachable.
    + destruct (BookModel.findOne (BookModel.has_id oid) (docs st))
        as [b|] eqn:Hfind.
      * unfold BookModel.check_id_key. simpl.
        pose proof (set_fields_updated (p_fields body) now b) as Hu.
        match goal with
        | |- context [existsb ?f (docs st)] =>
            destruct (existsb f (docs st)) eqn:Hd
        end.
        { now apply update_duplicate with (b := b)
            (b' := BookModel.set_fields
                     (mkPartial None None None
                        (BookModel.applySetters (p_fields body))) now b). }
        { rewrite <- Hf at 2. now apply update_stored with (b := b). }
      * now apply update_absent.
  - now apply update_invalid.
Qed.

(** C4. An update of an existing book that is accepted replaces the
    supplied fields, refreshes updatedAt and leaves every other field of
    the book, and every other book, as it was; an update that is not
    accepted changes nothing.  The keys _id, createdAt and updatedAt of the
    body are deleted before the update is applied: the outcome is that of
    the body without them, and createdAt keeps its value.  An update whose
    supplied fields are in range, and whose isbn no other book carries, is
    accepted; one that supplies a field out of range is answered 400. *)
Theorem update_changes_only_supplied_fields :
  forall year cast st now id oid body b st' r,
    Text.is_empty id = false -> cast id = Some oid ->
    fault st = None ->
    NoDup (map _id (docs st)) -> In b (docs st) -> _id b = oid ->
    BookController.updateBook year cast st now (Some id) body = (st', r) ->
    (status r = 200 ->
       exists b',
         data r = One b' /\
         Constraints.updated (p_fields body) now b b' /\
         Forall2 (fun x x' => (x = b /\ x' = b') \/ (_id x <> oid /\ x' = x))
           (docs st) (docs st')) /\
    (status r <> 200 -> st' = st) /\
    (~ Constraints.supplied_ok year (p_fields body) -> status r = 400) /\
    (Constraints.supplied_ok year (p_fields body) ->
     (forall x, In x (docs st) -> _id x <> oid ->
        isbn x <>
        BookModel.orElse (option_map Text.trim (d_isbn (p_fields body)))
          (isbn b)) ->
     status r = 200) /\
    BookController.updateBook year cast st now (Some id)
      (mkPartial None None None (p_fields body)) = (st', r).
Proof.
  intros year cast st now id oid body b st' r Hne Hc Hf Hnd Hin Hid Hrun.
  pose proof (findOne_unique oid (docs st) b Hnd Hin Hid) as Hfind.
  pose proof (updateBook_outcome year cast st now id oid body Hne Hc) as Hout.
  rewrite Hrun in Hout.
  assert (Hstrip :
    BookController.updateBook year cast st now (Some id)
      (mkPartial None None None (p_fields body)) = (st', r)).
  { rewrite <- Hrun. reflexivity. }
  inversion Hout as [e es Hv | m Hv Hf' | Hv Hf' Hnone
                    | b0 b' Hv Hf' Hsome Hupd Hdup
                    | b0 b' Hv Hf' Hsome Hupd Hdup]; subst st' r; simpl.
  - split; [discriminate|]. split; [reflexivity|].
    split; [reflexivity|]. split; [|exact Hstrip].
    intros Hs. apply validate_update_supplied in Hs. congruence.
  - congruence.
  - congruence.
  - split; [discriminate|]. split; [reflexivity|].
    split; [reflexivity|]. split; [|exact Hstrip].
    intros _ Hfree. exfalso.
    apply existsb_exists in Hdup. destruct Hdup as [x [Hx Hp]].
    apply andb_true_iff in Hp. destruct Hp as [Hp1 Hp2].
    apply negb_true_iff, has_id_false in Hp1.
    apply String.eqb_eq in Hp2.
    apply (Hfree x Hx Hp1). rewrite Hp2.
    assert (b0 = b) by congruence. subst b0.
    destruct Hupd as [_ [_ [_ [_ [_ [Hi _]]]]]]. exact Hi.
  - assert (b0 = b) by congruence. subst b0.
    split.
    + intros _. exists b'. split; [reflexivity|]. split; [exact Hupd|].
      now apply replaceOne_frame.
    + split; [intros Hno; now elim Hno|].
      split; [|split; [reflexivity | exact Hstrip]].
      intros Hno. elim Hno. now apply validate_update_supplied.
Qed.

Lemma update_changes_only_supplied_fields_witness :
  exists b',
    data (snd (BookController.updateBook 2026 Instances.hex24
                 Instances.library 9000%Z (Some Instances.id_of_hobbit)
                 Instances.price_change)) = One b' /\
    createdAt b' = 4000%Z /\ updatedAt b' = 9000%Z /\
    title b' = "The Hobbit" /\ inStock b' = false.
Proof.
  destruct (update_changes_only_supplied_fields 2026 Instances.hex24
              Instances.library 9000%Z Instances.id_of_hobbit 1%N
              Instances.price_change Instances.hobbit _ _
              eq_refl eq_refl eq_refl (proj1 store_ok_library)
              (or_intror (or_intror (or_introl eq_refl))) eq_refl
              (surjective_pairing _)) as [H _].
  destruct (H eq_refl) as [b' [Hd [Hu _]]].
  exists b'. split; [exact Hd|].
  destruct Hu as [_ [Hc [Hn [Ht [_ [_ [_ [_ [_ Hs]]]]]]]]].
  repeat split; assumption.
Defined.

(** ** Failures of the store *)

(** C3. When the store cannot be reached, a create of an acceptable
    candidate and an update with acceptable fields are both answered 400,
    the status of a validation error, while the same failure in the other
    handlers is answered 500. *)
Theorem unreachable_store_is_400_on_create_and_update :
  forall year cast regex_i st now fresh d id oid body m,
    fault st = Some m ->
    Constraints.satisfied year d ->
    Text.is_empty id = false -> cast id = Some oid ->
    Constraints.supplied_ok year (p_fields body) ->
    BookController.createBook year st now fresh d =
      (st, BookController.fail 400
             ("Failed to create book: " ++ m)%string
             ("Failed to create book: " ++ m)%string) /\
    BookController.updateBook year cast st now (Some id) body =
      (st, BookController.fail 400 "Failed to update book"
             ("Failed to update book: " ++ m)%string) /\
    status (BookController.getAllBooks regex_i st) = 500 /\
    status (BookController.getBookById cast st (Some id)) = 500 /\
    status (snd (BookController.deleteBook cast st (Some id))) = 500.
Proof.
  intros year cast regex_i st now fresh d id oid body m Hf Hs Hne Hc Hv.
  apply validate_update_supplied in Hv.
  split; [|split; [|split; [|split]]].
  - pose proof (createBook_outcome year st now fresh d) as Hout.
    inversion Hout as [Hpre | e es msg Hv' Hmsg | m' msg Hs' Hf' Hmsg
                      | b0 msg Hs' Hf' Hw Hdup Hmsg
                      | b0 Hs' Hf' Hw Hid Hcr Hu Hdi Hdb].
    + apply satisfied_passes_precheck in Hs. congruence.
    + apply validate_satisfied in Hs. congruence.
    + assert (m' = m) by congruence. now subst.
    + congruence.
    + congruence.
  - pose proof (updateBook_outcome year cast st now id oid body Hne Hc)
      as Hout.
    inversion Hout as [e es Hv' | m' Hv' Hf' | Hv' Hf' Hnone
                      | b0 b' Hv' Hf' Hsome Hupd Hdup
                      | b0 b' Hv' Hf' Hsome Hupd Hdup]; try congruence.
    assert (m' = m) by congruence. now subst.
  - unfold BookController.getAllBooks, BookService.getAllBooks,
      BookModel.find_sorted. now rewrite Hf.
  - unfold BookController.getBookById, BookService.getBookById,
      BookModel.findById. now rewrite Hne, Hc, Hf.
  - unfold BookController.deleteBook, BookService.deleteBook,
      BookModel.findByIdAndDelete. now rewrite Hne, Hc, Hf.
Qed.

Lemma unreachable_store_is_400_on_create_and_update_witness :
  status (snd (BookController.createBook 2026 Instances.offline 5000%Z 9%N
                 Instances.mockingbird)) = 400 /\
  status (snd (BookController.updateBook 2026 Instances.hex24
                 Instances.offline 5000%Z (Some Instances.id_of_hobbit)
                 Instances.price_change)) = 400.
Proof.
  destruct (unreachable_store_is_400_on_create_and_update 2026
              Instances.hex24 Instances.literal_dot_engine Instances.offline
              5000%Z 9%N Instances.mockingbird Instances.id_of_hobbit 1%N
              Instances.price_change _ eq_refl
              (proj1 (validate_satisfied 2026 Instances.mockingbird) eq_refl)
              eq_refl eq_refl
              (proj1 (validate_update_supplied 2026
                        (p_fields Instances.price_change)) eq_refl))
    as [H1 [H2 _]].
  rewrite H1, H2. split; reflexivity.
Defined.

(** The two writes have no 500 at all: whatever fails, a create is
    answered 201 or 400 and an update 200, 404 or 400. *)
Lemma create_and_update_never_answer_500 year cast st now fresh d id body :
  (status (snd (BookController.createBook year st now fresh d)) = 201 \/
   status (snd (BookController.createBook year st now fresh d)) = 400) /\
  (status (snd (BookController.updateBook year cast st now id body)) = 200 \/
   status (snd (BookController.updateBook year cast st now id body)) = 404 \/
   status (snd (BookController.updateBook year cast st now id body)) = 400).
Proof.
  split.
  - destruct (createBook_outcome year st now fresh d); simpl; auto.
  - destruct id as [id|]; [|simpl; auto].
    destruct (Text.is_empty id) eqn:Hne.
    { unfold BookController.updateBook. rewrite Hne. simpl. auto. }
    destruct (cast id) as [oid|] eqn:Hc.
    + destruct (updateBook_outcome year cast st now id oid body Hne Hc);
        simpl; auto.
    + unfold BookController.updateBook, BookService.updateBook,
        BookModel.findByIdAndUpdate.
      rewrite Hne, Hc. simpl. auto.
Qed.

(** ** Delete *)

(** C6, as the handler behaves.  With unique identifiers: for an
    identifier that the driver can cast and a reachable store, deleting the
    identifier of a stored book answers 200 with that book as it was, and
    removes it and nothing else; deleting an identifier that no book has
    answers 404 and changes nothing; so a second delete of the same
    identifier answers 404 and leaves the store as the first delete left
    it.  An identifier that the driver cannot cast is the identifier of no
    book, and its delete is answered 500, not 404; so is every delete while
    the store cannot be reached.  Both leave the store as it is. *)
Theorem delete_returns_the_book_then_404 :
  forall cast st id st1 r1,
    Text.is_empty id = false ->
    NoDup (map _id (docs st)) ->
    BookController.deleteBook cast st (Some id) = (st1, r1) ->
    (forall oid,
       cast id = Some oid -> fault st = None ->
       (forall b, In b (docs st) -> _id b = oid ->
          r1 = BookController.reply_one 200 "Book deleted successfully" b /\
          (forall x, In x (docs st1) <-> In x (docs st) /\ _id x <> oid) /\
          BookController.deleteBook cast st1 (Some id) =
            (st1, BookController.refuse 404 "Book not found")) /\
       ((forall b, In b (docs st) -> _id b <> oid) ->
          r1 = BookController.refuse 404 "Book not found" /\ st1 = st)) /\
    (cast id = None ->
       r1 = BookController.fail 500 "Failed to delete book"
              ("Failed to delete book: " ++
               BookModel.error_message (CastError id))%string /\
       st1 = st) /\
    (forall oid m,
       cast id = Some oid -> fault st = Some m ->
       r1 = BookController.fail 500 "Failed to delete book"
              ("Failed to delete book: " ++ m)%string /\
       st1 = st).
Proof.
  intros cast st id st1 r1 Hne Hnd.
  unfold BookController.deleteBook, BookService.deleteBook,
    BookModel.findByIdAndDelete.
  rewrite Hne.
  destruct (cast id) as [oid|] eqn:Hc.
  2:{ intros Hrun; inversion Hrun; subst st1 r1; clear Hrun.
      split; [intros oid' H; discriminate|].
      split; [intros _; split; reflexivity | intros oid' m H; discriminate]. }
  destruct (fault st) as [m|] eqn:Hf.
  { intros Hrun; inversion Hrun; subst st1 r1; clear Hrun.
    split; [intros oid' _ H; discriminate|].
    split; [discriminate|].
    intros oid' m' _ Hm. inversion Hm; subst m'. split; reflexivity. }
  destruct (BookModel.findOne (BookModel.has_id oid) (docs st))
    as [b0|] eqn:Hfind; intros Hrun; inversion Hrun; subst st1 r1; clear Hrun.
  - split; [|split; [discriminate | intros oid' m' _ H; discriminate]].
    intros oid' Ho _. inversion Ho; subst oid'. split.
    + intros b Hin Hid.
      rewrite (findOne_unique oid (docs st) b Hnd Hin Hid) in Hfind.
      inversion Hfind; subst b0. split; [reflexivity|]. split.
      * intros x. simpl. now apply deleteOne_unique.
      * simpl.
        assert (Hgone :
          BookModel.findOne (BookModel.has_id oid)
            (BookModel.deleteOne (BookModel.has_id oid) (docs st)) = None).
        { apply findOne_None. intros x Hx.
          apply deleteOne_unique in Hx; [|exact Hnd].
          now apply has_id_false. }
        now rewrite Hgone.
    + intros Hall. apply findOne_Some in Hfind. destruct Hfind as [Hin Hp].
      apply has_id_true in Hp. now elim (Hall b0 Hin).
  - split; [|split; [discriminate | intros oid' m' _ H; discriminate]].
    intros oid' Ho _. inversion Ho; subst oid'. split.
    + intros b Hin Hid.
      rewrite (findOne_unique oid (docs st) b Hnd Hin Hid) in Hfind.
      discriminate.
    + intros _. split; reflexivity.
Qed.

Lemma delete_returns_the_book_then_404_witness :
  status (snd (BookController.deleteBook Instances.hex24 Instances.library
                 (Some Instances.id_of_hobbit))) = 200 /\
  status (snd (BookController.deleteBook Instances.hex24
                 (fst (BookController.deleteBook Instances.hex24
                         Instances.library (Some Instances.id_of_hobbit)))
                 (Some Instances.id_of_hobbit))) = 404.
Proof.
  destruct (delete_returns_the_book_then_404 Instances.hex24
              Instances.library Instances.id_of_hobbit _ _
              eq_refl (proj1 store_ok_library)
              (surjective_pairing _)) as [H _].
  destruct (H 1%N eq_refl eq_refl) as [H' _].
  destruct (H' Instances.hobbit
              (or_intror (or_intror (or_introl eq_refl))) eq_refl)
    as [H1 [_ H2]].
  rewrite H2. rewrite H1. split; reflexivity.
Defined.

(** C6, counterexample.  The string below is refused by the cast, so it is
    the identifier of no stored book; its delete is answered 500 and not
    404. *)
Lemma delete_of_a_malformed_id_is_not_answered_404 :
  Instances.hex24 "not-an-object-id" = None /\
  status (snd (BookController.deleteBook Instances.hex24 Instances.library
                 (Some "not-an-object-id"))) = 500 /\
  status (snd (BookController.deleteBook Instances.hex24 Instances.library
                 (Some "not-an-object-id"))) <> 404.
Proof.
  split; [reflexivity|]. split; [reflexivity | discriminate].
Qed.

(** ** Lookup by identifier *)

(** C7, as the handler behaves.  An identifier that the driver cannot
    cast makes the lookup throw, and the handler answers 500 with the error
    outcome; only a well-formed identifier that no book has is answered
    404. *)
Theorem malformed_id_is_an_error_outcome :
  forall cast st id,
    Text.is_empty id = false ->
    (cast id = None ->
       BookController.getBookById cast st (Some id) =
         BookController.fail 500 "Failed to retrieve book"
           ("Failed to fetch book: " ++
            BookModel.error_message (CastError id))%string) /\
    (forall oid,
       cast id = Some oid -> fault st = None ->
       (forall b, In b (docs st) -> _id b <> oid) ->
       BookController.getBookById cast st (Some id) =
         BookController.refuse 404 "Book not found").
Proof.
  intros cast st id Hne.
  unfold BookController.getBookById, BookService.getBookById,
    BookModel.findById.
  rewrite Hne. split.
  - intros Hc. now rewrite Hc.
  - intros oid Hc Hf Hall. rewrite Hc, Hf.
    assert (Hnone :
      BookModel.findOne (BookModel.has_id oid) (docs st) = None).
    { apply findOne_None. intros x Hx. apply has_id_false. now apply Hall. }
    now rewrite Hnone.
Qed.

Lemma malformed_id_is_an_error_outcome_witness :
  status (BookController.getBookById Instances.hex24 Instances.library
            (Some "not-an-object-id")) = 500 /\
  status (BookController.getBookById Instances.hex24 Instances.library
            (Some Instances.id_of_nothing)) = 404.
Proof.
  destruct (malformed_id_is_an_error_outcome Instances.hex24
              Instances.library "not-an-object-id" eq_refl) as [H1 _].
  destruct (malformed_id_is_an_error_outcome Instances.hex24
              Instances.library Instances.id_of_nothing eq_refl) as [_ H2].
  rewrite (H1 eq_refl).
  rewrite (H2 255%N eq_refl eq_refl).
  - split; reflexivity.
  - intros b [<- | [<- | [<- | []]]]; discriminate.
Defined.

(** C7, counterexample.  A malformed identifier is not answered 404: the
    string below is refused by the cast and the lookup is answered 500. *)
Lemma malformed_id_is_not_answered_404 :
  Instances.hex24 "not-an-object-id" = None /\
  status (BookController.getBookById Instances.hex24 Instances.library
            (Some "not-an-object-id")) = 500 /\
  status (BookController.getBookById Instances.hex24 Instances.library
            (Some "not-an-object-id")) <> 404.
Proof.
  split; [reflexivity|]. split; [reflexivity | discriminate].
Qed.

(** ** Search *)

(** Containment without regard to case is decided by [includes] on the
    lower-cased strings. *)
Lemma contains_ci_includes (text s : string) :
  contains_ci text s <->
  Text.includes (Text.toLowerCase text) (Text.toLowerCase s) = true.
Proof. unfold contains_ci. now rewrite includes_spec. Qed.

Lemma searchBooks_reply regex_i st q test :
  Text.is_empty q = false -> fault st = None -> regex_i q = Some test ->
  BookController.searchBooks regex_i st (Some q) =
    BookController.reply_many "Search completed successfully"
      (BookModel.sort_newest
         (filter (fun b => test (title b) || test (author b)) (docs st))).
Proof.
  intros Hne Hf Hr.
  unfold BookController.searchBooks, BookService.searchBooks,
    BookModel.find_sorted, BookModel.condition.
  now rewrite Hne, Hf, Hr.
Qed.

(** X21. When the engine reads the text as the text itself, the search
    returns exactly the books whose title or author contains it, case
    ignored, newest first. *)
Lemma search_of_a_literal_pattern regex_i st q test :
  Text.is_empty q = false -> fault st = None -> regex_i q = Some test ->
  (forall s, test s = true <-> contains_ci q s) ->
  exists books,
    BookController.searchBooks regex_i st (Some q) =
      BookController.reply_many "Search completed successfully" books /\
    newest_first books /\
    forall b, In b books <->
              In b (docs st) /\
              (contains_ci q (title b) \/ contains_ci q (author b)).
Proof.
  intros Hne Hf Hr Hlit. eexists.
  split; [now apply (searchBooks_reply regex_i st q test)|].
  split; [apply sort_newest_sorted|].
  intros b. rewrite sort_newest_In, filter_In, orb_true_iff, !Hlit. tauto.
Qed.

(** C5, as the service behaves.  The text of a search is handed to the
    store as a regular expression.  With the text [.] every book whose
    title starts with an ordinary character is returned, among them books
    that contain no dot in title or author. *)
Theorem search_text_is_read_as_a_pattern :
  forall regex_i st b c rest,
    dot_is_wildcard regex_i -> fault st = None ->
    In b (docs st) ->
    title b = String c rest -> c <> Instances.newline ->
    ~ contains_ci "." (title b) -> ~ contains_ci "." (author b) ->
    exists books,
      BookController.searchBooks regex_i st (Some ".") =
        BookController.reply_many "Search completed successfully" books /\
      In b books /\
      ~ (contains_ci "." (title b) \/ contains_ci "." (author b)).
Proof.
  intros regex_i st b c rest [test [Hr Hdot]] Hf Hin Ht Hc Hnt Hna.
  eexists. split; [now apply (searchBooks_reply regex_i st "." test)|].
  split; [|tauto].
  apply sort_newest_In, filter_In. split; [exact Hin|].
  rewrite Ht, (Hdot c rest Hc). reflexivity.
Qed.

Lemma dot_is_wildcard_literal_dot_engine :
  dot_is_wildcard Instances.literal_dot_engine.
Proof.
  exists (Instances.search [Instances.AnyChar]). split; [reflexivity|].
  intros c r Hc. simpl.
  destruct (Ascii.eqb c Instances.newline) eqn:He.
  - apply Ascii.eqb_eq in He. now elim Hc.
  - reflexivity.
Qed.

Lemma search_text_is_read_as_a_pattern_witness :
  data (BookController.searchBooks Instances.literal_dot_engine
          Instances.library (Some ".")) =
    Many [Instances.hobbit; Instances.brief_history; Instances.clean_code] /\
  ~ (contains_ci "." (title Instances.clean_code) \/
     contains_ci "." (author Instances.clean_code)).
Proof.
  split; [reflexivity|].
  assert (Ht : ~ contains_ci "." (title Instances.clean_code)).
  { rewrite contains_ci_includes. discriminate. }
  assert (Ha : ~ contains_ci "." (author Instances.clean_code)).
  { rewrite contains_ci_includes. discriminate. }
  destruct (search_text_is_read_as_a_pattern Instances.literal_dot_engine
              Instances.library Instances.clean_code "C" "lean Code"
              dot_is_wildcard_literal_dot_engine eq_refl
              (or_introl eq_refl) eq_refl)
    as [books [_ [_ Hno]]]; [discriminate | exact Ht | exact Ha | exact Hno].
Defined.

(** X22. A search text that the engine rejects as a pattern is answered
    500 with the engine's error, not with an empty list. *)
Lemma search_rejected_pattern_is_500 regex_i st q :
  Text.is_empty q = false -> fault st = None -> regex_i q = None ->
  BookController.searchBooks regex_i st (Some q) =
    BookController.fail 500 "Failed to search books"
      "Failed to search books: Regular expression is invalid".
Proof.
  intros Hne Hf Hr.
  unfold BookController.searchBooks, BookService.searchBooks,
    BookModel.find_sorted, BookModel.condition.
  now rewrite Hne, Hf, Hr.
Qed.

(** ** Filter by genre *)






(** ** The envelope of a list *)

(** C10. In every successful reply of a handler that returns a list (all
    books, search, genre, in stock) the count is the length of the data. *)
Theorem list_reply_counts_its_data :
  forall regex_i st q g r,
    r = BookController.getAllBooks regex_i st \/
    r = BookController.searchBooks regex_i st q \/
    r = BookController.getBooksByGenre regex_i st g \/
    r = BookController.getInStockBooks regex_i st ->
    success r = true ->
    exists books,
      status r = 200 /\ data r = Many books /\
      count r = Some (List.length books).
Proof.
  intros regex_i st q g r H Hok.
  destruct H as [H | [H | [H | H]]]; subst r; revert Hok.
  - unfold BookController.getAllBooks.
    destruct (BookService.getAllBooks regex_i st) as [books|e]; simpl;
      [intros _; now exists books | discriminate].
  - unfold BookController.searchBooks.
    destruct q as [q|]; [|discriminate].
    destruct (Text.is_empty q); [discriminate|].
    destruct (BookService.searchBooks regex_i st q) as [books|e]; simpl;
      [intros _; now exists books | discriminate].
  - unfold BookController.getBooksByGenre.
    destruct g as [g|]; [|discriminate].
    destruct (Text.is_empty g); [discriminate|].
    destruct (BookService.getBooksByGenre regex_i st g) as [books|e]; simpl;
      [intros _; now exists books | discriminate].
  - unfold BookController.getInStockBooks.
    destruct (BookService.getInStockBooks regex_i st) as [books|e]; simpl;
      [intros _; now exists books | discriminate].
Qed.

Lemma list_reply_counts_its_data_witness :
  count (BookController.getInStockBooks Instances.literal_dot_engine
           Instances.library) = Some 2.
Proof.
  destruct (list_reply_counts_its_data Instances.literal_dot_engine
              Instances.library None None
              (BookController.getInStockBooks Instances.literal_dot_engine
                 Instances.library)
              (or_intror (or_intror (or_intror eq_refl))) eq_refl)
    as [books [_ [Hd Hc]]].
  rewrite Hc. simpl in Hd. inversion Hd. reflexivity.
Defined.

(** ** Routes *)

(** Evaluates the lower-casing of the literal characters of a route. *)
Ltac lower_literals :=
  repeat match goal with
  | |- context [Text.lower (Ascii ?a ?b ?c ?d ?e ?f ?g ?h)] =>
      let v := eval vm_compute in (Text.lower (Ascii a b c d e f g h)) in
      change (Text.lower (Ascii a b c d e f g h)) with v
  end.

(** Unfolds the router on the route table, for a path whose segments are
    known. *)
Ltac route_table Hseg :=
  unfold BookRoutes.dispatch, BookRoutes.id_route_first,
    BookRoutes.initializeRoutes;
  cbn -[String.eqb Text.decodeURIComponent BookRoutes.segments];
  unfold BookRoutes.regexp_exec; rewrite ?Hseg;
  cbn -[String.eqb Text.decodeURIComponent]; lower_literals;
  cbn [BookRoutes.decode_params].

(** The router on the collection path. *)
Lemma route_root m path :
  BookRoutes.segments path = Some [] ->
  BookRoutes.route BookRoutes.initializeRoutes m path false =
    match m with
    | POST => Handled createBook []
    | GET => Handled getAllBooks []
    | _ => Unmatched
    end.
Proof. intros Hseg. route_table Hseg. now destruct m. Qed.

(** The router on a path of one segment. *)
Lemma route_one m path s :
  BookRoutes.segments path = Some [s] -> Text.is_empty s = false ->
  BookRoutes.route BookRoutes.initializeRoutes m path false =
    if BookRoutes.method_eqb m GET
       && String.eqb "search" (Text.toLowerCase s)
    then Handled searchBooks []
    else
      match Text.decodeURIComponent s with
      | None => Failed
      | Some v =>
          match m with
          | GET => Handled getBookById [("id", v)]
          | PUT => Handled updateBook [("id", v)]
          | DELETE => Handled deleteBook [("id", v)]
          | POST => Unmatched
          end
      end.
Proof.
  intros Hseg Hne. route_table Hseg. rewrite Hne.
  cbn -[String.eqb Text.decodeURIComponent].
  destruct (String.eqb "search" (Text.toLowerCase s));
    destruct (String.eqb "stock" (Text.toLowerCase s));
    destruct (String.eqb "genre" (Text.toLowerCase s));
    destruct (Text.decodeURIComponent s); destruct m; reflexivity.
Qed.

(** The router on a path of two segments. *)
Lemma route_two m path s1 s2 :
  BookRoutes.segments path = Some [s1; s2] ->
  BookRoutes.route BookRoutes.initializeRoutes m path false =
    if BookRoutes.method_eqb m GET
       && String.eqb "stock" (Text.toLowerCase s1)
       && String.eqb "available" (Text.toLowerCase s2)
    then Handled getInStockBooks []
    else if String.eqb "genre" (Text.toLowerCase s1)
            && negb (Text.is_empty s2)
    then
      match Text.decodeURIComponent s2 with
      | None => Failed
      | Some v =>
          match m with
          | GET => Handled getBooksByGenre [("genre", v)]
          | _ => Unmatched
          end
      end
    else Unmatched.
Proof.
  intros Hseg. route_table Hseg.
  destruct (String.eqb "search" (Text.toLowerCase s1));
    destruct (String.eqb "stock" (Text.toLowerCase s1)) eqn:E1;
    destruct (String.eqb "available" (Text.toLowerCase s2));
    destruct (String.eqb "genre" (Text.toLowerCase s1)) eqn:E2;
    try (apply String.eqb_eq in E1; apply String.eqb_eq in E2; congruence);
    destruct (Text.is_empty s1); destruct (Text.is_empty s2);
    cbn -[String.eqb Text.decodeURIComponent];
    destruct (Text.decodeURIComponent s2); destruct m; reflexivity.
Qed.

(** No route has three segments or more. *)
Lemma route_long m path s1 s2 s3 rest :
  BookRoutes.segments path = Some (s1 :: s2 :: s3 :: rest) ->
  BookRoutes.route BookRoutes.initializeRoutes m path false = Unmatched.
Proof.
  intros Hseg. route_table Hseg.
  repeat match goal with
  | |- context [String.eqb ?a ?b] => destruct (String.eqb a b)
  | |- context [Text.is_empty ?a] => destruct (Text.is_empty a)
  end; reflexivity.
Qed.

(** A segment that is empty is the value of no parameter. *)
Lemma route_empty_segment m path :
  BookRoutes.segments path = Some [""] ->
  BookRoutes.route BookRoutes.initializeRoutes m path false = Unmatched.
Proof. intros Hseg. route_table Hseg. reflexivity. Qed.

Lemma dispatch_search path s :
  BookRoutes.segments path = Some [s] ->
  Text.toLowerCase s = "search" ->
  BookRoutes.dispatch BookRoutes.initializeRoutes GET path =
    Some (searchBooks, []).
Proof.
  intros Hseg Hs. unfold BookRoutes.dispatch.
  rewrite (route_one GET path s Hseg); [now rewrite Hs|].
  now destruct s.
Qed.

Lemma dispatch_stock_available path s1 s2 :
  BookRoutes.segments path = Some [s1; s2] ->
  Text.toLowerCase s1 = "stock" -> Text.toLowerCase s2 = "available" ->
  BookRoutes.dispatch BookRoutes.initializeRoutes GET path =
    Some (getInStockBooks, []).
Proof.
  intros Hseg H1 H2. unfold BookRoutes.dispatch.
  now rewrite (route_two GET path s1 s2 Hseg), H1, H2.
Qed.

(** C9. A GET whose path below the collection is the literal search, or
    stock/available, reaches the search handler, respectively the in-stock
    handler, and not the handler of /:id; this rests on the order of
    registration, since with /:id registered first the path /search would
    be taken as the identifier search. *)
Theorem literal_routes_are_matched_before_id :
  (forall path s,
     BookRoutes.segments path = Some [s] ->
     Text.toLowerCase s = "search" ->
     exists params,
       BookRoutes.dispatch BookRoutes.initializeRoutes GET path =
         Some (searchBooks, params)) /\
  (forall path s1 s2,
     BookRoutes.segments path = Some [s1; s2] ->
     Text.toLowerCase s1 = "stock" -> Text.toLowerCase s2 = "available" ->
     exists params,
       BookRoutes.dispatch BookRoutes.initializeRoutes GET path =
         Some (getInStockBooks, params)) /\
  BookRoutes.dispatch BookRoutes.initializeRoutes GET "/search" =
    Some (searchBooks, []) /\
  BookRoutes.dispatch BookRoutes.initializeRoutes GET "/stock/available" =
    Some (getInStockBooks, []) /\
  BookRoutes.dispatch BookRoutes.id_route_first GET "/search" =
    Some (getBookById, [("id", "search")]).
Proof.
  split; [|split; [|split; [|split]]].
  - intros path s Hseg Hs. exists []. now apply dispatch_search with (s := s).
  - intros path s1 s2 Hseg H1 H2. exists [].
    now apply dispatch_stock_available with (s1 := s1) (s2 := s2).
  - reflexivity.
  - reflexivity.
  - reflexivity.
Qed.

Lemma literal_routes_are_matched_before_id_witness :
  (exists params,
     BookRoutes.dispatch BookRoutes.initializeRoutes GET "/Search/" =
       Some (searchBooks, params)) /\
  (exists params,
     BookRoutes.dispatch BookRoutes.initializeRoutes GET "/stock/available" =
       Some (getInStockBooks, params)).
Proof.
  destruct literal_routes_are_matched_before_id as [H1 [H2 _]].
  split.
  - apply (H1 "/Search/" "Search"); reflexivity.
  - apply (H2 "/stock/available" "stock" "available"); reflexivity.
Defined.

(** ** The store stays well formed *)

Lemma store_ok_empty year : store_ok year (mkStore [] None).
Proof. split; constructor. Qed.

Lemma store_ok_create year st now fresh d :
  store_ok year st ->
  store_ok year (fst (BookController.createBook year st now fresh d)).
Proof.
  intros Hok.
  destruct (createBook_outcome year st now fresh d)
    as [Hpre | e es msg Hv Hmsg | m msg Hs Hf Hmsg
       | b msg Hs Hf Hw Hdup Hmsg | b Hs Hf Hw Hid Hc Hu Hdi Hdb];
    try exact Hok.
  destruct Hok as [Hnd Hall]. split; simpl.
  - rewrite map_app. simpl.
    apply NoDup_app; [exact Hnd | repeat constructor; easy |].
    intros a Hin [Ha | []]. subst a.
    apply in_map_iff in Hin. destruct Hin as [x [Hx Hin]].
    assert (Hex : existsb (BookModel.has_id fresh) (docs st) = true).
    { apply existsb_exists. exists x. split; [easy|].
      apply has_id_true. congruence. }
    congruence.
  - apply Forall_app. split; [exact Hall|].
    constructor; [|constructor]. now apply (written_holds year d).
Qed.

Lemma replaceOne_Forall (P : IBook -> Prop) p b' l :
  Forall P l -> P b' -> Forall P (BookModel.replaceOne p b' l).
Proof.
  intros Hl Hb. induction Hl as [|x r Hx Hr IH]; simpl; [constructor|].
  destruct (p x); constructor; auto.
Qed.

Lemma store_ok_update year cast st now id body :
  store_ok year st ->
  store_ok year (fst (BookController.updateBook year cast st now id body)).
Proof.
  intros Hok. destruct id as [id|]; [|exact Hok].
  destruct (Text.is_empty id) eqn:Hne;
    [unfold BookController.updateBook; now rewrite Hne|].
  destruct (cast id) as [oid|] eqn:Hc.
  - destruct (updateBook_outcome year cast st now id oid body Hne Hc)
      as [e es Hv | m Hv Hf | Hv Hf Hnone
         | b b' Hv Hf Hsome Hupd Hdup | b b' Hv Hf Hsome Hupd Hdup];
      try exact Hok.
    destruct Hok as [Hnd Hall]. split; simpl.
    + rewrite replaceOne_ids; [exact Hnd|].
      destruct Hupd as [Hid _]. rewrite Hid.
      apply findOne_Some in Hsome. now apply has_id_true.
    + apply replaceOne_Forall; [exact Hall|].
      apply (updated_holds year (p_fields body) now b b');
        [now apply validate_update_supplied | | exact Hupd].
      rewrite Forall_forall in Hall. apply Hall.
      now apply findOne_Some in Hsome.
  - unfold BookController.updateBook, BookService.updateBook,
      BookModel.findByIdAndUpdate.
    now rewrite Hne, Hc.
Qed.

Lemma store_ok_delete year cast st id :
  store_ok year st ->
  store_ok year (fst (BookController.deleteBook cast st id)).
Proof.
  intros Hok. unfold BookController.deleteBook, BookService.deleteBook,
    BookModel.findByIdAndDelete.
  destruct id as [id|]; [|exact Hok].
  destruct (Text.is_empty id); [exact Hok|].
  destruct (cast id) as [oid|]; [|exact Hok].
  destruct (fault st); [exact Hok|].
  destruct (BookModel.findOne (BookModel.has_id oid) (docs st));
    [|exact Hok].
  destruct Hok as [Hnd Hall]. split; simpl.
  - now apply deleteOne_ids_NoDup.
  - rewrite Forall_forall in *. intros x Hx. apply Hall.
    now apply deleteOne_In in Hx.
Qed.

(** ** The engine of literals and dots *)

Lemma parse_literal (p : string) :
  Text.all (fun c => negb (Instances.is_meta c)) p = true ->
  exists r,
    Instances.parse p = Some r /\
    forall s,
      Instances.match_here r s =
      Text.startsWith (Text.toLowerCase p) (Text.toLowerCase s).
Proof.
  induction p as [|c p IH]; simpl.
  - intros _. exists []. split; [reflexivity|]. now intros [|x s].
  - intros H. apply andb_true_iff in H. destruct H as [Hc Hp].
    apply negb_true_iff in Hc.
    destruct (IH Hp) as [r [Hr Hm]].
    destruct (Ascii.eqb c ".") eqn:Hdot.
    + apply Ascii.eqb_eq in Hdot. subst c. discriminate.
    + rewrite Hc, Hr. exists (Instances.Literal c :: r).
      split; [reflexivity|].
      intros [|x s]; simpl; [reflexivity|]. now rewrite Hm.
Qed.

Lemma search_includes (r : list Instances.Atom) (p : string) :
  (forall s,
     Instances.match_here r s = Text.startsWith p (Text.toLowerCase s)) ->
  forall s, Instances.search r s = Text.includes p (Text.toLowerCase s).
Proof.
  intros Hm s. induction s as [|x s IH].
  - simpl. now rewrite (Hm "").
  - change (Instances.search r (String x s))
      with (Instances.match_here r (String x s) || Instances.search r s).
    rewrite Hm, IH. simpl Text.toLowerCase.
    now rewrite
      (includes_unfold p (String (Text.lower x) (Text.toLowerCase s))).
Qed.

(** On a text without special characters the engine tests containment
    without regard to case. *)
Lemma literal_dot_engine_literal (p : string) :
  Text.all (fun c => negb (Instances.is_meta c)) p = true ->
  exists test,
    Instances.literal_dot_engine p = Some test /\
    forall s, test s = true <-> contains_ci p s.
Proof.
  intros H. destruct (parse_literal p H) as [r [Hr Hm]].
  exists (Instances.search r). unfold Instances.literal_dot_engine.
  rewrite Hr. split; [reflexivity|].
  intros s. rewrite (search_includes r (Text.toLowerCase p) Hm).
  symmetry. apply contains_ci_includes.
Qed.

(** The text Hobbit is contained in both spellings. *)
Lemma hobbit_matches_both :
  contains_ci "Hobbit" "The Hobbit" /\ contains_ci "Hobbit" "hobbiton".
Proof. split; apply contains_ci_includes; reflexivity. Qed.

(** * Further properties of the service, the handlers and the application *)

(** ** Listing *)

Lemma filter_all {A : Type} (l : list A) : filter (fun _ => true) l = l.
Proof. induction l as [|x r IH]; simpl; [reflexivity | now rewrite IH]. Qed.

Lemma getAllBooks_reply regex_i st :
  fault st = None ->
  BookController.getAllBooks regex_i st =
    BookController.reply_many "Books retrieved successfully"
      (BookModel.sort_newest (docs st)).
Proof.
  intros Hf.
  unfold BookController.getAllBooks, BookService.getAllBooks,
    BookModel.find_sorted, BookModel.condition.
  now rewrite Hf, filter_all.
Qed.

(** X1. With the store reachable, the list of all books holds every
    stored book exactly once, newest first, and its count is the size of
    the collection. *)
Theorem getAllBooks_lists_the_collection :
  forall regex_i st,
    fault st = None ->
    exists books,
      BookController.getAllBooks regex_i st =
        BookController.reply_many "Books retrieved successfully" books /\
      Permutation books (docs st) /\
      newest_first books /\
      count (BookController.getAllBooks regex_i st) =
        Some (List.length (docs st)).
Proof.
  intros regex_i st Hf. exists (BookModel.sort_newest (docs st)).
  rewrite (getAllBooks_reply regex_i st Hf).
  split; [reflexivity|]. split; [apply sort_newest_perm|].
  split; [apply sort_newest_sorted|].
  simpl. f_equal. apply Permutation_length, sort_newest_perm.
Qed.

Lemma getAllBooks_lists_the_collection_witness :
  count (BookController.getAllBooks Instances.literal_dot_engine
           Instances.library) = Some 3.
Proof.
  destruct (getAllBooks_lists_the_collection Instances.literal_dot_engine
              Instances.library eq_refl) as [books [_ [_ [_ H]]]].
  exact H.
Defined.

(** X2. With the store reachable, the in-stock list holds exactly the
    stored books whose inStock is true, each once, newest first. *)
Theorem getInStockBooks_lists_the_books_in_stock :
  forall regex_i st,
    fault st = None ->
    exists books,
      BookController.getInStockBooks regex_i st =
        BookController.reply_many "In-stock books retrieved successfully"
          books /\
      Permutation books (filter inStock (docs st)) /\
      newest_first books /\
      forall b, In b books <-> In b (docs st) /\ inStock b = true.
Proof.
  intros regex_i st Hf.
  exists (BookModel.sort_newest (filter inStock (docs st))).
  assert (Hext : filter (fun b => Bool.eqb (inStock b) true) (docs st) =
                 filter inStock (docs st)).
  { apply filter_ext. intros b. now destruct (inStock b). }
  split.
  - unfold BookController.getInStockBooks, BookService.getInStockBooks,
      BookModel.find_sorted, BookModel.condition.
    now rewrite Hf, Hext.
  - split; [apply sort_newest_perm|]. split; [apply sort_newest_sorted|].
    intros b. now rewrite sort_newest_In, filter_In.
Qed.

Lemma getInStockBooks_lists_the_books_in_stock_witness :
  exists books,
    data (BookController.getInStockBooks Instances.literal_dot_engine
            Instances.library) = Many books /\
    In Instances.hobbit books /\ ~ In Instances.brief_history books.
Proof.
  destruct (getInStockBooks_lists_the_books_in_stock
              Instances.literal_dot_engine Instances.library eq_refl)
    as [books [H [_ [_ Hin]]]].
  exists books. rewrite H. split; [reflexivity|]. split.
  - apply Hin. split; [simpl; tauto | reflexivity].
  - intros Hb. apply Hin in Hb. destruct Hb as [_ Hb]. discriminate.
Defined.

(** ** A write followed by a read *)

Lemma getBookById_reply cast st id oid :
  Text.is_empty id = false -> cast id = Some oid -> fault st = None ->
  BookController.getBookById cast st (Some id) =
    match BookModel.findOne (BookModel.has_id oid) (docs st) with
    | Some b => BookController.reply_one 200 "Book retrieved successfully" b
    | None => BookController.refuse 404 "Book not found"
    end.
Proof.
  intros Hne Hc Hf.
  unfold BookController.getBookById, BookService.getBookById,
    BookModel.findById.
  rewrite Hne, Hc, Hf.
  now destruct (BookModel.findOne (BookModel.has_id oid) (docs st)).
Qed.

Lemma findOne_snoc p l b :
  existsb p l = false -> p b = true ->
  BookModel.findOne p (l ++ [b]) = Some b.
Proof.
  induction l as [|x r IH]; simpl; intros He Hb.
  - now rewrite Hb.
  - apply orb_false_iff in He. destruct He as [Hx Hr]. rewrite Hx. now apply IH.
Qed.

Lemma findOne_snoc_other p l b :
  p b = false ->
  BookModel.findOne p (l ++ [b]) = BookModel.findOne p l.
Proof.
  intros Hb. induction l as [|x r IH]; simpl.
  - now rewrite Hb.
  - now destruct (p x).
Qed.

(** X3. A book that a create has stored is found by its identifier: the
    lookup answers 200 with the very book the create returned, and the
    lookup of every other identifier answers as it did before. *)
Theorem created_book_is_found_by_its_id :
  forall year cast st now fresh d st' r b id,
    BookController.createBook year st now fresh d = (st', r) ->
    status r = 201 -> data r = One b ->
    Text.is_empty id = false -> cast id = Some fresh ->
    BookController.getBookById cast st' (Some id) =
      BookController.reply_one 200 "Book retrieved successfully" b /\
    forall id' oid',
      Text.is_empty id' = false -> cast id' = Some oid' -> oid' <> fresh ->
      BookController.getBookById cast st' (Some id') =
      BookController.getBookById cast st (Some id').
Proof.
  intros year cast st now fresh d st' r b id Hrun Hst Hd Hne Hc.
  pose proof (createBook_outcome year st now fresh d) as Hout.
  rewrite Hrun in Hout.
  inversion Hout as [Hpre | e es msg Hv Hmsg | m msg Hs Hf Hmsg
                    | b0 msg Hs Hf Hw Hdup Hmsg
                    | b0 Hs Hf Hw Hid Hcr Hu Hdi Hdb]; subst st' r;
    simpl in Hst; try discriminate.
  simpl in Hd. inversion Hd; subst b0. split.
  - rewrite (getBookById_reply cast _ id fresh Hne Hc); [|exact Hf].
    simpl. rewrite findOne_snoc; [reflexivity | exact Hdi |].
    now apply has_id_true.
  - intros id' oid' Hne' Hc' Hneq.
    rewrite (getBookById_reply cast _ id' oid' Hne' Hc'); [|exact Hf].
    rewrite (getBookById_reply cast st id' oid' Hne' Hc' Hf).
    simpl. rewrite findOne_snoc_other; [reflexivity|].
    apply has_id_false. congruence.
Qed.

Lemma created_book_is_found_by_its_id_witness :
  status (BookController.getBookById Instances.hex24
            (fst (BookController.createBook 2026 Instances.library 5000%Z 9%N
                    Instances.mockingbird))
            (Some "000000000000000000000009")) = 200.
Proof.
  destruct (created_book_is_found_by_its_id 2026 Instances.hex24
              Instances.library 5000%Z 9%N Instances.mockingbird _ _
              (mkBook 9%N "To Kill a Mockingbird" "Harper Lee"
                 "9780061120084" (inject_Z 1960) "Fiction" (Qmake 1899 100)
                 true 5000%Z 5000%Z)
              "000000000000000000000009"
              (surjective_pairing _) eq_refl eq_refl eq_refl eq_refl)
    as [H _].
  rewrite H. reflexivity.
Defined.




Lemma findOne_deleteOne_other oid oid' l :
  oid' <> oid ->
  BookModel.findOne (BookModel.has_id oid')
    (BookModel.deleteOne (BookModel.has_id oid) l) =
  BookModel.findOne (BookModel.has_id oid') l.
Proof.
  intros Hneq. induction l as [|x r IH]; simpl; [reflexivity|].
  destruct (BookModel.has_id oid x) eqn:Hx; simpl.
  - apply has_id_true in Hx.
    assert (Hx' : BookModel.has_id oid' x = false)
      by (apply has_id_false; congruence).
    now rewrite Hx'.
  - now rewrite IH.
Qed.

(** X5. After a delete that answered 200, the lookup of the same
    identifier answers 404, and the lookup of every other identifier
    answers as it did before the delete. *)
Theorem deleted_book_is_no_longer_found :
  forall cast st id oid st1 r1,
    Text.is_empty id = false -> cast id = Some oid ->
    NoDup (map _id (docs st)) ->
    BookController.deleteBook cast st (Some id) = (st1, r1) ->
    status r1 = 200 ->
    BookController.getBookById cast st1 (Some id) =
      BookController.refuse 404 "Book not found" /\
    forall id' oid',
      Text.is_empty id' = false -> cast id' = Some oid' -> oid' <> oid ->
      BookController.getBookById cast st1 (Some id') =
      BookController.getBookById cast st (Some id').
Proof.
  intros cast st id oid st1 r1 Hne Hc Hnd.
  unfold BookController.deleteBook, BookService.deleteBook,
    BookModel.findByIdAndDelete.
  rewrite Hne, Hc.
  destruct (fault st) as [m|] eqn:Hf;
    [intros H; inversion H; subst; discriminate|].
  destruct (BookModel.findOne (BookModel.has_id oid) (docs st))
    as [b|] eqn:Hfind;
    intros H; inversion H; subst st1 r1; clear H;
    [intros _ | discriminate].
  split.
  - rewrite (getBookById_reply cast _ id oid Hne Hc); [|reflexivity]. simpl.
    assert (Hgone :
      BookModel.findOne (BookModel.has_id oid)
        (BookModel.deleteOne (BookModel.has_id oid) (docs st)) = None).
    { apply findOne_None. intros x Hx.
      apply deleteOne_unique in Hx; [|exact Hnd]. now apply has_id_false. }
    now rewrite Hgone.
  - intros id' oid' Hne' Hc' Hneq.
    rewrite (getBookById_reply cast _ id' oid' Hne' Hc'); [|reflexivity].
    rewrite (getBookById_reply cast st id' oid' Hne' Hc' Hf). simpl.
    now rewrite findOne_deleteOne_other.
Qed.

Lemma deleted_book_is_no_longer_found_witness :
  status (BookController.getBookById Instances.hex24
            (fst (BookController.deleteBook Instances.hex24 Instances.library
                    (Some Instances.id_of_hobbit)))
            (Some Instances.id_of_hobbit)) = 404.
Proof.
  destruct (deleted_book_is_no_longer_found Instances.hex24 Instances.library
              Instances.id_of_hobbit 1%N _ _ eq_refl eq_refl
              (proj1 store_ok_library) (surjective_pairing _) eq_refl)
    as [H _].
  rewrite H. reflexivity.
Defined.

Lemma findOne_replaceOne oid b b' l :
  BookModel.findOne (BookModel.has_id oid) l = Some b -> _id b' = oid ->
  BookModel.findOne (BookModel.has_id oid)
    (BookModel.replaceOne (BookModel.has_id oid) b' l) = Some b'.
Proof.
  intros Hf Hid. induction l as [|x r IH]; simpl in *; [discriminate|].
  destruct (BookModel.has_id oid x) eqn:Hx; simpl.
  - apply has_id_true in Hid. now rewrite Hid.
  - rewrite Hx. now apply IH.
Qed.

Lemma findOne_replaceOne_other oid oid' b' l :
  oid' <> oid -> _id b' = oid ->
  BookModel.findOne (BookModel.has_id oid')
    (BookModel.replaceOne (BookModel.has_id oid) b' l) =
  BookModel.findOne (BookModel.has_id oid') l.
Proof.
  intros Hneq Hid. induction l as [|x r IH]; simpl; [reflexivity|].
  destruct (BookModel.has_id oid x) eqn:Hx; simpl.
  - apply has_id_true in Hx.
    assert (H1 : BookModel.has_id oid' b' = false)
      by (apply has_id_false; congruence).
    assert (H2 : BookModel.has_id oid' x = false)
      by (apply has_id_false; congruence).
    now rewrite H1, H2.
  - now rewrite IH.
Qed.

(** X6. After an update that answered 200, the lookup of the same
    identifier answers 200 with the book the update returned, and the
    lookup of every other identifier answers as it did before. *)
Theorem updated_book_is_found_by_its_id :
  forall year cast st now id oid body st' r b',
    Text.is_empty id = false -> cast id = Some oid ->
    BookController.updateBook year cast st now (Some id) body = (st', r) ->
    status r = 200 -> data r = One b' ->
    BookController.getBookById cast st' (Some id) =
      BookController.reply_one 200 "Book retrieved successfully" b' /\
    forall id' oid',
      Text.is_empty id' = false -> cast id' = Some oid' -> oid' <> oid ->
      BookController.getBookById cast st' (Some id') =
      BookController.getBookById cast st (Some id').
Proof.
  intros year cast st now id oid body st' r b' Hne Hc Hrun Hst Hd.
  pose proof (updateBook_outcome year cast st now id oid body Hne Hc) as Hout.
  rewrite Hrun in Hout.
  inversion Hout as [e es Hv | m Hv Hf | Hv Hf Hnone
                    | b0 b1 Hv Hf Hsome Hupd Hdup
                    | b0 b1 Hv Hf Hsome Hupd Hdup]; subst st' r;
    simpl in Hst; try discriminate.
  simpl in Hd. inversion Hd; subst b1.
  assert (Hid : _id b' = oid).
  { destruct Hupd as [Hid _]. rewrite Hid.
    apply findOne_Some in Hsome. now apply has_id_true. }
  split.
  - rewrite (getBookById_reply cast _ id oid Hne Hc); [|exact Hf]. simpl.
    now rewrite (findOne_replaceOne oid b0 b' (docs st) Hsome Hid).
  - intros id' oid' Hne' Hc' Hneq.
    rewrite (getBookById_reply cast _ id' oid' Hne' Hc'); [|exact Hf].
    rewrite (getBookById_reply cast st id' oid' Hne' Hc' Hf). simpl.
    now rewrite findOne_replaceOne_other.
Qed.

Lemma updated_book_is_found_by_its_id_witness :
  exists b',
    data (BookController.getBookById Instances.hex24
            (fst (BookController.updateBook 2026 Instances.hex24
                    Instances.library 9000%Z (Some Instances.id_of_hobbit)
                    Instances.price_change))
            (Some Instances.id_of_hobbit)) = One b' /\
    inStock b' = false /\ updatedAt b' = 9000%Z.
Proof.
  eexists. 
  destruct (updated_book_is_found_by_its_id 2026 Instances.hex24
              Instances.library 9000%Z Instances.id_of_hobbit 1%N
              Instances.price_change _ _ _ eq_refl eq_refl
              (surjective_pairing _) eq_refl eq_refl) as [H _].
  rewrite H. simpl. repeat split.
Defined.

(** ** Writes that fail *)

(** X7. A write that does not succeed changes nothing: whenever the reply
    of a create, an update or a delete has success false, the store after
    the call is the store before it. *)
Theorem failed_write_changes_nothing :
  forall year cast st now fresh d id body,
    (success (snd (BookController.createBook year st now fresh d)) = false ->
     fst (BookController.createBook year st now fresh d) = st) /\
    (success (snd (BookController.updateBook year cast st now id body))
       = false ->
     fst (BookController.updateBook year cast st now id body) = st) /\
    (success (snd (BookController.deleteBook cast st id)) = false ->
     fst (BookController.deleteBook cast st id) = st).
Proof.
  intros year cast st now fresh d id body. split; [|split].
  - destruct (createBook_outcome year st now fresh d); simpl;
      try reflexivity; discriminate.
  - destruct id as [id|]; [|reflexivity].
    destruct (Text.is_empty id) eqn:Hne.
    { unfold BookController.updateBook. now rewrite Hne. }
    destruct (cast id) as [oid|] eqn:Hc.
    + destruct (updateBook_outcome year cast st now id oid body Hne Hc);
        simpl; try reflexivity; discriminate.
    + unfold BookController.updateBook, BookService.updateBook,
        BookModel.findByIdAndUpdate.
      now rewrite Hne, Hc.
  - unfold BookController.deleteBook, BookService.deleteBook,
      BookModel.findByIdAndDelete.
    destruct id as [id|]; [|reflexivity].
    destruct (Text.is_empty id); [reflexivity|].
    destruct (cast id) as [oid|]; [|reflexivity].
    destruct (fault st); [reflexivity|].
    destruct (BookModel.findOne (BookModel.has_id oid) (docs st));
      simpl; [discriminate | reflexivity].
Qed.

Lemma failed_write_changes_nothing_witness :
  fst (BookController.createBook 2026 Instances.library 5000%Z 9%N
         Instances.second_hobbit) = Instances.library.
Proof.
  destruct (failed_write_changes_nothing 2026 Instances.hex24
              Instances.library 5000%Z 9%N Instances.second_hobbit
              None Instances.price_change) as [H _].
  apply H. reflexivity.
Defined.

(** ** Invariants of the collection *)

Lemma deleteOne_NoDup_key {K : Type} (key : IBook -> K) p l :
  NoDup (map key l) -> NoDup (map key (BookModel.deleteOne p l)).
Proof.
  induction l as [|y r IH]; simpl; intros Hnd; [constructor|].
  inversion Hnd as [|? ? Hy Hr]; subst.
  destruct (p y); simpl; [easy|].
  constructor; [|now apply IH].
  intros Hin. apply Hy. apply in_map_iff in Hin.
  destruct Hin as [x [Hx Hin]]. apply in_map_iff. exists x.
  split; [easy|]. now apply deleteOne_In in Hin.
Qed.

Lemma replaceOne_In p b' l x :
  In x (BookModel.replaceOne p b' l) -> x = b' \/ In x l.
Proof.
  induction l as [|y r IH]; simpl; [tauto|].
  destruct (p y); simpl.
  - intros [<- | H]; auto.
  - intros [<- | H]; auto. destruct (IH H); auto.
Qed.

Lemma replaceOne_isbn_NoDup oid b' l :
  NoDup (map _id l) -> NoDup (map isbn l) ->
  existsb (fun x => negb (BookModel.has_id oid x) &&
                    BookModel.has_isbn (isbn b') x) l = false ->
  NoDup (map isbn (BookModel.replaceOne (BookModel.has_id oid) b' l)).
Proof.
  induction l as [|x r IH]; simpl; intros Hid Hisbn Hclash; [constructor|].
  inversion Hid as [|? ? Hxi Hri]; subst.
  inversion Hisbn as [|? ? Hxs Hrs]; subst.
  apply orb_false_iff in Hclash. destruct Hclash as [Hx Hr].
  destruct (BookModel.has_id oid x) eqn:Hp; simpl.
  - constructor; [|exact Hrs].
    intros Hin. apply in_map_iff in Hin. destruct Hin as [y [Hy Hin]].
    assert (Hyid : BookModel.has_id oid y = false).
    { apply has_id_false. intros Heq. apply has_id_true in Hp.
      apply Hxi. rewrite Hp, <- Heq. now apply in_map. }
    assert (Hex : existsb (fun z => negb (BookModel.has_id oid z) &&
                                    BookModel.has_isbn (isbn b') z) r = true).
    { apply existsb_exists. exists y. split; [exact Hin|].
      rewrite Hyid. simpl.
      unfold BookModel.has_isbn. rewrite Hy. apply String.eqb_refl. }
    congruence.
  - simpl in Hx. constructor; [|now apply IH].
    intros Hin. apply in_map_iff in Hin. destruct Hin as [y [Hy Hin]].
    apply replaceOne_In in Hin. destruct Hin as [-> | Hin].
    + unfold BookModel.has_isbn in Hx. apply String.eqb_neq in Hx. congruence.
    + apply Hxs. rewrite <- Hy. now apply in_map.
Qed.

(** X8. The three writes keep the collection well formed.  If identifiers
    are unique, isbn values are unique and every stored book satisfies the
    constraints of the schema, the same holds after a create, an update or a
    delete, whatever the request and whether or not it succeeds. *)
Theorem writes_keep_the_collection_well_formed :
  forall year cast st now fresh d id body,
    store_ok year st -> isbn_unique st ->
    (store_ok year (fst (BookController.createBook year st now fresh d)) /\
     isbn_unique (fst (BookController.createBook year st now fresh d))) /\
    (store_ok year
       (fst (BookController.updateBook year cast st now id body)) /\
     isbn_unique
       (fst (BookController.updateBook year cast st now id body))) /\
    (store_ok year (fst (BookController.deleteBook cast st id)) /\
     isbn_unique (fst (BookController.deleteBook cast st id))).
Proof.
  intros year cast st now fresh d id body Hok Hu.
  split; [|split]; (split; [|unfold isbn_unique in *]).
  - now apply store_ok_create.
  - destruct (createBook_outcome year st now fresh d)
      as [Hpre | e es msg Hv Hmsg | m msg Hs Hf Hmsg
         | b msg Hs Hf Hw Hdup Hmsg | b Hs Hf Hw Hid Hc Hup Hdi Hdb];
      try exact Hu.
    simpl. rewrite map_app. simpl.
    apply NoDup_app; [exact Hu | repeat constructor; easy |].
    intros a Hin [Ha | []]. subst a.
    apply in_map_iff in Hin. destruct Hin as [x [Hx Hin]].
    assert (Hex : existsb (BookModel.has_isbn (isbn b)) (docs st) = true).
    { apply existsb_exists. exists x. split; [easy|].
      unfold BookModel.has_isbn. rewrite Hx. apply String.eqb_refl. }
    congruence.
  - now apply store_ok_update.
  - destruct id as [id|]; [|exact Hu].
    destruct (Text.is_empty id) eqn:Hne;
      [unfold BookController.updateBook; now rewrite Hne|].
    destruct (cast id) as [oid|] eqn:Hc.
    + destruct (updateBook_outcome year cast st now id oid body Hne Hc)
        as [e es Hv | m Hv Hf | Hv Hf Hnone
           | b b' Hv Hf Hsome Hupd Hdup | b b' Hv Hf Hsome Hupd Hdup];
        try exact Hu.
      simpl. apply replaceOne_isbn_NoDup; [apply Hok | exact Hu | exact Hdup].
    + unfold BookController.updateBook, BookService.updateBook,
        BookModel.findByIdAndUpdate.
      now rewrite Hne, Hc.
  - now apply store_ok_delete.
  - unfold BookController.deleteBook, BookService.deleteBook,
      BookModel.findByIdAndDelete.
    destruct id as [id|]; [|exact Hu].
    destruct (Text.is_empty id); [exact Hu|].
    destruct (cast id) as [oid|]; [|exact Hu].
    destruct (fault st); [exact Hu|].
    destruct (BookModel.findOne (BookModel.has_id oid) (docs st));
      [|exact Hu].
    simpl. now apply deleteOne_NoDup_key.
Qed.

Lemma isbn_unique_library : isbn_unique Instances.library.
Proof.
  unfold isbn_unique. simpl.
  repeat constructor; simpl; intuition discriminate.
Qed.

Lemma writes_keep_the_collection_well_formed_witness :
  store_ok 2026
    (fst (BookController.createBook 2026 Instances.library 5000%Z 9%N
            Instances.mockingbird)) /\
  isbn_unique
    (fst (BookController.updateBook 2026 Instances.hex24 Instances.library
            9000%Z (Some Instances.id_of_hobbit) Instances.price_change)).
Proof.
  destruct (writes_keep_the_collection_well_formed 2026 Instances.hex24
              Instances.library 5000%Z 9%N Instances.mockingbird
              (Some Instances.id_of_hobbit) Instances.price_change
              store_ok_library isbn_unique_library) as [[H1 _] _].
  destruct (writes_keep_the_collection_well_formed 2026 Instances.hex24
              Instances.library 9000%Z 9%N Instances.mockingbird
              (Some Instances.id_of_hobbit) Instances.price_change
              store_ok_library isbn_unique_library) as [_ [[_ H2] _]].
  split; assumption.
Defined.

(** ** Trimmed text *)

Lemma trimmed_orElse (v : option string) (old : string) :
  Text.trim old = old ->
  Text.trim (BookModel.orElse (option_map Text.trim v) old) =
  BookModel.orElse (option_map Text.trim v) old.
Proof. destruct v as [x|]; simpl; [intros _; apply trim_idempotent | easy]. Qed.

(** X9. Stored text carries no surrounding white space.  If the title,
    author, isbn and genre of every stored book equal their trimmed form,
    the same holds after a create and after an update, whatever white space
    the request carries. *)
Theorem writes_store_trimmed_text :
  forall year cast st now fresh d id body,
    Forall text_trimmed (docs st) ->
    Forall text_trimmed
      (docs (fst (BookController.createBook year st now fresh d))) /\
    Forall text_trimmed
      (docs (fst (BookController.updateBook year cast st now id body))).
Proof.
  intros year cast st now fresh d id body Hall. split.
  - destruct (createBook_outcome year st now fresh d)
      as [Hpre | e es msg Hv Hmsg | m msg Hs Hf Hmsg
         | b msg Hs Hf Hw Hdup Hmsg | b Hs Hf Hw Hid Hc Hup Hdi Hdb];
      try exact Hall.
    simpl. apply Forall_app. split; [exact Hall|].
    constructor; [|constructor].
    destruct Hs as [[t [Dt _]] [[a [Da _]] [[i [Di _]] [_ [[g [Dg _]] _]]]]].
    destruct Hw as [Ht [Ha [Hi [_ [Hg _]]]]].
    rewrite Dt in Ht. rewrite Da in Ha. rewrite Di in Hi. rewrite Dg in Hg.
    cbn [option_map] in Ht, Ha, Hi, Hg.
    injection Ht as Ht. injection Ha as Ha. injection Hi as Hi.
    injection Hg as Hg. unfold text_trimmed.
    rewrite <- Ht, <- Ha, <- Hi, <- Hg.
    repeat split; apply trim_idempotent.
  - destruct id as [id|]; [|exact Hall].
    destruct (Text.is_empty id) eqn:Hne;
      [unfold BookController.updateBook; now rewrite Hne|].
    destruct (cast id) as [oid|] eqn:Hc.
    + destruct (updateBook_outcome year cast st now id oid body Hne Hc)
        as [e es Hv | m Hv Hf | Hv Hf Hnone
           | b b' Hv Hf Hsome Hupd Hdup | b b' Hv Hf Hsome Hupd Hdup];
        try exact Hall.
      simpl. apply replaceOne_Forall; [exact Hall|].
      assert (Hb : text_trimmed b).
      { rewrite Forall_forall in Hall. apply Hall.
        now apply findOne_Some in Hsome. }
      destruct Hb as [Bt [Ba [Bi Bg]]].
      destruct Hupd as [_ [_ [_ [Ht [Ha [Hi [_ [Hg _]]]]]]]].
      unfold text_trimmed. rewrite Ht, Ha, Hi, Hg.
      repeat split; now apply trimmed_orElse.
    + unfold BookController.updateBook, BookService.updateBook,
        BookModel.findByIdAndUpdate.
      now rewrite Hne, Hc.
Qed.

Lemma writes_store_trimmed_text_witness :
  Forall text_trimmed
    (docs (fst (BookController.createBook 2026 Instances.library 5000%Z 9%N
                  Instances.padded_mockingbird))) /\
  status (snd (BookController.createBook 2026 Instances.library 5000%Z 9%N
                 Instances.padded_mockingbird)) = 201.
Proof.
  split; [|reflexivity].
  apply (writes_store_trimmed_text 2026 Instances.hex24 Instances.library
           5000%Z 9%N Instances.padded_mockingbird None
           Instances.price_change).
  simpl. repeat (apply Forall_cons; [repeat split|]). apply Forall_nil.
Defined.

(** ** Validation comes before the store *)

(** X10. A request that fails validation is answered without the store:
    the reply to a create whose candidate breaks a constraint, and to an
    update (of a well-formed identifier) that supplies a field out of range,
    is a 400 that is the same for every store, reachable or not, and for
    every time and identifier; the store is left as it was. *)
Theorem invalid_write_is_refused_without_the_store :
  forall year cast d id oid body,
    Text.is_empty id = false -> cast id = Some oid ->
    (~ Constraints.satisfied year d ->
     exists r, status r = 400 /\
       forall st now fresh,
         BookController.createBook year st now fresh d = (st, r)) /\
    (~ Constraints.supplied_ok year (p_fields body) ->
     exists r, status r = 400 /\
       forall st now,
         BookController.updateBook year cast st now (Some id) body = (st, r)).
Proof.
  intros year cast d id oid body Hne Hc. split.
  - intros Hno. unfold BookController.createBook.
    destruct (BookController.falsy (d_title d)
              || BookController.falsy (d_author d)
              || BookController.falsy (d_isbn d)).
    + eexists. split; [|intros; reflexivity]. reflexivity.
    + unfold BookService.createBook, BookModel.save.
      destruct (BookModel.validate year (BookModel.applySetters d))
        as [|e es] eqn:Hv.
      * apply validate_satisfied in Hv. now elim Hno.
      * eexists. split; [|intros; reflexivity]. reflexivity.
  - intros Hno. unfold BookController.updateBook. rewrite Hne.
    unfold BookService.updateBook, BookModel.findByIdAndUpdate.
    rewrite Hc. simpl.
    destruct (BookModel.validate_update year
                (BookModel.applySetters (p_fields body))) as [|e es] eqn:Hv.
    + apply validate_update_supplied in Hv. now elim Hno.
    + eexists. split; [|intros; reflexivity]. reflexivity.
Qed.

Lemma invalid_write_is_refused_without_the_store_witness :
  snd (BookController.createBook 2026 Instances.library 5000%Z 9%N
         Instances.blank_title) =
  snd (BookController.createBook 2026 Instances.offline 1%Z 2%N
         Instances.blank_title) /\
  message (snd (BookController.createBook 2026 Instances.library 5000%Z 9%N
                  Instances.blank_title)) =
    "Failed to create book: Book validation failed: title: Book title is required".
Proof.
  split; [|reflexivity].
  destruct (invalid_write_is_refused_without_the_store 2026 Instances.hex24
              Instances.blank_title Instances.id_of_hobbit 1%N
              Instances.price_change eq_refl eq_refl) as [H _].
  destruct H as [r [_ Hr]].
  - intros Hs. apply validate_satisfied in Hs. discriminate.
  - now rewrite (Hr Instances.library 5000%Z 9%N),
      (Hr Instances.offline 1%Z 2%N).
Defined.

(** ** Identifiers that cannot be cast, and identifiers of no book *)

(** X11. The same malformed identifier is answered 400 by an update and
    500 by a delete; neither reaches the collection, so the reply does not
    depend on the store or on the body, and the store is unchanged. *)
Theorem malformed_id_on_update_and_delete :
  forall year cast st now id body,
    Text.is_empty id = false -> cast id = None ->
    BookController.updateBook year cast st now (Some id) body =
      (st, BookController.fail 400 "Failed to update book"
             ("Failed to update book: " ++
              BookModel.error_message (CastError id))%string) /\
    BookController.deleteBook cast st (Some id) =
      (st, BookController.fail 500 "Failed to delete book"
             ("Failed to delete book: " ++
              BookModel.error_message (CastError id))%string).
Proof.
  intros year cast st now id body Hne Hc. split.
  - unfold BookController.updateBook, BookService.updateBook,
      BookModel.findByIdAndUpdate.
    now rewrite Hne, Hc.
  - unfold BookController.deleteBook, BookService.deleteBook,
      BookModel.findByIdAndDelete.
    now rewrite Hne, Hc.
Qed.

Lemma malformed_id_on_update_and_delete_witness :
  status (snd (BookController.updateBook 2026 Instances.hex24
                 Instances.library 9000%Z (Some "search")
                 Instances.price_change)) = 400 /\
  status (snd (BookController.deleteBook Instances.hex24 Instances.library
                 (Some "search"))) = 500.
Proof.
  destruct (malformed_id_on_update_and_delete 2026 Instances.hex24
              Instances.library 9000%Z "search" Instances.price_change
              eq_refl eq_refl) as [H1 H2].
  rewrite H1, H2. split; reflexivity.
Defined.

(** X12. An update of a well-formed identifier that no book has is
    answered 404 with the store unchanged when its fields are in range; the
    fields are checked first, so with a field out of range the answer is 400
    although no such book exists. *)
Theorem update_of_an_absent_book :
  forall year cast st now id oid body,
    Text.is_empty id = false -> cast id = Some oid -> fault st = None ->
    (forall b, In b (docs st) -> _id b <> oid) ->
    (Constraints.supplied_ok year (p_fields body) ->
     BookController.updateBook year cast st now (Some id) body =
       (st, BookController.refuse 404 "Book not found")) /\
    (~ Constraints.supplied_ok year (p_fields body) ->
     fst (BookController.updateBook year cast st now (Some id) body) = st /\
     status (snd (BookController.updateBook year cast st now (Some id) body))
       = 400).
Proof.
  intros year cast st now id oid body Hne Hc Hf Hall.
  assert (Hnone : BookModel.findOne (BookModel.has_id oid) (docs st) = None).
  { apply findOne_None. intros x Hx. apply has_id_false. now apply Hall. }
  destruct (updateBook_outcome year cast st now id oid body Hne Hc)
    as [e es Hv | m Hv Hf' | Hv Hf' Hnone'
       | b b' Hv Hf' Hsome Hupd Hdup | b b' Hv Hf' Hsome Hupd Hdup];
    try congruence.
  - split.
    + intros Hs. apply validate_update_supplied in Hs. congruence.
    + intros _. split; reflexivity.
  - split; [reflexivity|].
    intros Hno. elim Hno. now apply validate_update_supplied.
Qed.

Lemma update_of_an_absent_book_witness :
  status (snd (BookController.updateBook 2026 Instances.hex24
                 Instances.library 9000%Z (Some Instances.id_of_nothing)
                 Instances.padded_genre)) = 404.
Proof.
  destruct (update_of_an_absent_book 2026 Instances.hex24 Instances.library
              9000%Z Instances.id_of_nothing 255%N Instances.padded_genre
              eq_refl eq_refl eq_refl) as [H _].
  - intros b [<- | [<- | [<- | []]]]; discriminate.
  - rewrite H; [reflexivity|].
    apply validate_update_supplied. reflexivity.
Defined.

Lemma same_isbn_same_book l x b :
  NoDup (map isbn l) -> In x l -> In b l -> isbn x = isbn b -> x = b.
Proof.
  induction l as [|y r IH]; simpl; intros Hu Hx Hb He; [easy|].
  inversion Hu as [|? ? Hy Hr]; subst.
  destruct Hx as [-> | Hx]; destruct Hb as [-> | Hb].
  - reflexivity.
  - elim Hy. rewrite He. now apply in_map.
  - elim Hy. rewrite <- He. now apply in_map.
  - now apply IH.
Qed.

(** X13. An update that gives a book the isbn of another book is refused:
    the answer is 400 with the duplicate-ISBN text as its error and the
    store is unchanged.  The clash is with other books only: when isbn
    values are unique, an update that supplies no isbn, or the book's own,
    and fields in range, is accepted. *)
Theorem update_isbn_clash :
  forall year cast st now id oid body b,
    Text.is_empty id = false -> cast id = Some oid -> fault st = None ->
    NoDup (map _id (docs st)) -> In b (docs st) -> _id b = oid ->
    Constraints.supplied_ok year (p_fields body) ->
    (forall c i,
       In c (docs st) -> _id c <> oid ->
       d_isbn (p_fields body) = Some i -> Text.trim i = isbn c ->
       BookController.updateBook year cast st now (Some id) body =
         (st, BookController.fail 400 "Failed to update book"
                "A book with this ISBN already exists")) /\
    (isbn_unique st ->
     BookModel.orElse (option_map Text.trim (d_isbn (p_fields body))) (isbn b)
       = isbn b ->
     status (snd (BookController.updateBook year cast st now (Some id) body))
       = 200).
Proof.
  intros year cast st now id oid body b Hne Hc Hf Hnd Hin Hid Hs.
  pose proof (findOne_unique oid (docs st) b Hnd Hin Hid) as Hfind.
  apply validate_update_supplied in Hs.
  split.
  - intros c i Hcin Hcid Hi Htrim.
    destruct (updateBook_outcome year cast st now id oid body Hne Hc)
      as [e es Hv | m Hv Hf' | Hv Hf' Hnone
         | b0 b' Hv Hf' Hsome Hupd Hdup | b0 b' Hv Hf' Hsome Hupd Hdup];
      try congruence; try reflexivity.
    exfalso.
    assert (Hb' : isbn b' = isbn c).
    { destruct Hupd as [_ [_ [_ [_ [_ [Hisbn _]]]]]].
      rewrite Hisbn, Hi. simpl. exact Htrim. }
    assert (Hex : existsb (fun x => negb (BookModel.has_id oid x) &&
                                    BookModel.has_isbn (isbn b') x)
                    (docs st) = true).
    { apply existsb_exists. exists c. split; [exact Hcin|].
      apply andb_true_iff. split.
      - apply negb_true_iff. now apply has_id_false.
      - unfold BookModel.has_isbn. rewrite Hb'. apply String.eqb_refl. }
    congruence.
  - intros Hu Hown.
    destruct (updateBook_outcome year cast st now id oid body Hne Hc)
      as [e es Hv | m Hv Hf' | Hv Hf' Hnone
         | b0 b' Hv Hf' Hsome Hupd Hdup | b0 b' Hv Hf' Hsome Hupd Hdup];
      try congruence; try reflexivity.
    exfalso. assert (b0 = b) by congruence. subst b0.
    apply existsb_exists in Hdup. destruct Hdup as [x [Hx Hp]].
    apply andb_true_iff in Hp. destruct Hp as [Hp1 Hp2].
    apply negb_true_iff, has_id_false in Hp1.
    apply String.eqb_eq in Hp2.
    destruct Hupd as [_ [_ [_ [_ [_ [Hisbn _]]]]]].
    rewrite Hisbn, Hown in Hp2.
    assert (x = b) by (now apply (same_isbn_same_book (docs st))).
    subst x. now elim Hp1.
Qed.

Lemma update_isbn_clash_witness :
  error (snd (BookController.updateBook 2026 Instances.hex24
                Instances.library 9000%Z (Some Instances.id_of_hobbit)
                Instances.take_isbn)) =
    Some "A book with this ISBN already exists".
Proof.
  destruct (update_isbn_clash 2026 Instances.hex24 Instances.library 9000%Z
              Instances.id_of_hobbit 1%N Instances.take_isbn
              Instances.hobbit eq_refl eq_refl eq_refl
              (proj1 store_ok_library)
              (or_intror (or_intror (or_introl eq_refl))) eq_refl)
    as [H _].
  - apply validate_update_supplied. reflexivity.
  - rewrite (H Instances.clean_code " 9780132350884 ");
      try reflexivity; [simpl; tauto | discriminate].
Defined.

(** ** The ISBN validator *)

Lemma digit_not_hyphen (c : ascii) :
  Text.is_hyphen c = true -> Text.is_digit c = false.
Proof.
  unfold Text.is_hyphen. intros H. apply Ascii.eqb_eq in H. now subst c.
Qed.

Lemma remove_hyphens_all (s : string) :
  Text.all Text.is_digit (Text.remove_hyphens s) =
  Text.all (fun c => Text.is_digit c || Text.is_hyphen c) s.
Proof.
  induction s as [|c r IH]; simpl; [reflexivity|].
  destruct (Text.is_hyphen c) eqn:Hh; simpl.
  - now rewrite orb_true_r, IH.
  - now rewrite orb_false_r, IH.
Qed.

Lemma remove_hyphens_length (s : string) :
  Text.all (fun c => Text.is_digit c || Text.is_hyphen c) s = true ->
  String.length (Text.remove_hyphens s) = count_chars Text.is_digit s.
Proof.
  induction s as [|c r IH]; simpl; [reflexivity|].
  intros H. apply andb_true_iff in H. destruct H as [Hc Hr].
  destruct (Text.is_hyphen c) eqn:Hh.
  - rewrite (digit_not_hyphen c Hh). simpl. now apply IH.
  - rewrite orb_false_r in Hc. rewrite Hc. simpl. now rewrite IH.
Qed.

(** X14. The ISBN validator accepts exactly the strings made of digits and
    hyphens that hold 10 or 13 digits: hyphens may stand anywhere and in any
    number, no check digit is verified, and any other character, the X of
    an ISBN-10 included, is refused. *)
Theorem isbn_validator_counts_digits :
  forall s,
    BookSchema.isbn_validator s = true <->
    Text.all (fun c => Text.is_digit c || Text.is_hyphen c) s = true /\
    (count_chars Text.is_digit s = 10 \/ count_chars Text.is_digit s = 13).
Proof.
  intros s. rewrite isbn_validator_spec.
  unfold Constraints.isbn_well_formed. rewrite remove_hyphens_all. split.
  - intros [Ha Hl]. split; [exact Ha|].
    now rewrite <- (remove_hyphens_length s Ha).
  - intros [Ha Hl]. split; [exact Ha|].
    now rewrite (remove_hyphens_length s Ha).
Qed.

(** ** Search, when the text is read as it stands *)

Lemma search_of_a_literal_pattern_witness :
  exists books,
    data (BookController.searchBooks Instances.literal_dot_engine
            Instances.library (Some "Hobbit")) = Many books /\
    In Instances.hobbit books /\ ~ In Instances.clean_code books.
Proof.
  destruct (literal_dot_engine_literal "Hobbit" eq_refl) as [test [Ht Hl]].
  destruct (search_of_a_literal_pattern Instances.literal_dot_engine
              Instances.library "Hobbit" test eq_refl eq_refl Ht Hl)
    as [books [H [_ Hin]]].
  exists books. rewrite H. split; [reflexivity|]. split.
  - apply Hin. split; [simpl; tauto|].
    left. apply contains_ci_includes. reflexivity.
  - intros Hb. apply Hin in Hb. destruct Hb as [_ [Hb | Hb]];
      apply contains_ci_includes in Hb; discriminate.
Defined.

Lemma search_rejected_pattern_is_500_witness :
  status (BookController.searchBooks Instances.literal_dot_engine
            Instances.library (Some "C++ (2nd")) = 500.
Proof.
  rewrite (search_rejected_pattern_is_500 Instances.literal_dot_engine
             Instances.library "C++ (2nd" eq_refl eq_refl eq_refl).
  reflexivity.
Defined.

(** ** The envelope *)

Lemma envelope_ok_refuse code msg :
  code <> 200 -> code <> 201 ->
  envelope_ok (BookController.refuse code msg).
Proof.
  intros H1 H2. unfold envelope_ok. simpl. repeat split; try discriminate.
  intros [H | H]; congruence.
Qed.

Lemma envelope_ok_fail code msg err :
  code <> 200 -> code <> 201 ->
  envelope_ok (BookController.fail code msg err).
Proof.
  intros H1 H2. unfold envelope_ok. simpl. repeat split; try discriminate.
  intros [H | H]; congruence.
Qed.

Lemma envelope_ok_one code msg b :
  code = 200 \/ code = 201 ->
  envelope_ok (BookController.reply_one code msg b).
Proof.
  intros H. unfold envelope_ok. simpl.
  repeat split; try discriminate; auto.
Qed.

Lemma envelope_ok_many msg l :
  envelope_ok (BookController.reply_many msg l).
Proof.
  unfold envelope_ok. simpl. repeat split; try discriminate; auto.
Qed.

(** X15. Every reply of every handler is coherent: success is true exactly
    when the status is 200 or 201; a successful reply carries data and no
    error text; a failed reply carries neither data nor count. *)
Theorem every_reply_is_coherent :
  forall year cast regex_i st now fresh d id body q g,
    envelope_ok (snd (BookController.createBook year st now fresh d)) /\
    envelope_ok (BookController.getAllBooks regex_i st) /\
    envelope_ok (BookController.getBookById cast st id) /\
    envelope_ok (snd (BookController.updateBook year cast st now id body)) /\
    envelope_ok (snd (BookController.deleteBook cast st id)) /\
    envelope_ok (BookController.searchBooks regex_i st q) /\
    envelope_ok (BookController.getBooksByGenre regex_i st g) /\
    envelope_ok (BookController.getInStockBooks regex_i st).
Proof.
  intros year cast regex_i st now fresh d id body q g.
  split; [|split; [|split; [|split; [|split; [|split; [|split]]]]]].
  - destruct (createBook_outcome year st now fresh d); simpl;
      first [ apply envelope_ok_refuse; discriminate
            | apply envelope_ok_fail; discriminate
            | apply envelope_ok_one; auto ].
  - unfold BookController.getAllBooks.
    destruct (BookService.getAllBooks regex_i st);
      [apply envelope_ok_many | apply envelope_ok_fail; discriminate].
  - unfold BookController.getBookById.
    destruct id as [id|]; [|apply envelope_ok_refuse; discriminate].
    destruct (Text.is_empty id); [apply envelope_ok_refuse; discriminate|].
    destruct (BookService.getBookById cast st id) as [[b|]|e];
      [ apply envelope_ok_one; auto
      | apply envelope_ok_refuse; discriminate
      | apply envelope_ok_fail; discriminate ].
  - unfold BookController.updateBook.
    destruct id as [id|]; [|apply envelope_ok_refuse; discriminate].
    destruct (Text.is_empty id); [apply envelope_ok_refuse; discriminate|].
    destruct (BookService.updateBook year cast st now id _) as [st' [[b|]|e]];
      simpl;
      [ apply envelope_ok_one; auto
      | apply envelope_ok_refuse; discriminate
      | apply envelope_ok_fail; discriminate ].
  - unfold BookController.deleteBook.
    destruct id as [id|]; [|apply envelope_ok_refuse; discriminate].
    destruct (Text.is_empty id); [apply envelope_ok_refuse; discriminate|].
    destruct (BookService.deleteBook cast st id) as [st' [[b|]|e]]; simpl;
      [ apply envelope_ok_one; auto
      | apply envelope_ok_refuse; discriminate
      | apply envelope_ok_fail; discriminate ].
  - unfold BookController.searchBooks.
    destruct q as [q|]; [|apply envelope_ok_refuse; discriminate].
    destruct (Text.is_empty q); [apply envelope_ok_refuse; discriminate|].
    destruct (BookService.searchBooks regex_i st q);
      [apply envelope_ok_many | apply envelope_ok_fail; discriminate].
  - unfold BookController.getBooksByGenre.
    destruct g as [g|]; [|apply envelope_ok_refuse; discriminate].
    destruct (Text.is_empty g); [apply envelope_ok_refuse; discriminate|].
    destruct (BookService.getBooksByGenre regex_i st g);
      [apply envelope_ok_many | apply envelope_ok_fail; discriminate].
  - unfold BookController.getInStockBooks.
    destruct (BookService.getInStockBooks regex_i st);
      [apply envelope_ok_many | apply envelope_ok_fail; discriminate].
Qed.

(** ** The route table, segment by segment *)

(** X16. What a GET below the collection reaches, by the segments of its
    path: no segment, the list of all books; one segment other than search,
    the lookup of the decoded segment as an identifier, the words genre and
    stock included; genre and one more segment, the genre filter with the
    decoded segment; in both cases the request ends with an error of the
    router when the segment cannot be decoded; any other two segments
    except stock/available, and any path of three or more segments, no
    route. *)
Theorem get_routes_by_segments :
  forall path segs,
    BookRoutes.segments path = Some segs ->
    (segs = [] ->
     BookRoutes.route BookRoutes.initializeRoutes GET path false =
       Handled getAllBooks []) /\
    (forall s,
       segs = [s] -> Text.is_empty s = false ->
       Text.toLowerCase s <> "search" ->
       (forall v,
          Text.decodeURIComponent s = Some v ->
          BookRoutes.route BookRoutes.initializeRoutes GET path false =
            Handled getBookById [("id", v)]) /\
       (Text.decodeURIComponent s = None ->
        BookRoutes.route BookRoutes.initializeRoutes GET path false =
          Failed)) /\
    (forall s1 s2,
       segs = [s1; s2] -> Text.toLowerCase s1 = "genre" ->
       Text.is_empty s2 = false ->
       (forall v,
          Text.decodeURIComponent s2 = Some v ->
          BookRoutes.route BookRoutes.initializeRoutes GET path false =
            Handled getBooksByGenre [("genre", v)]) /\
       (Text.decodeURIComponent s2 = None ->
        BookRoutes.route BookRoutes.initializeRoutes GET path false =
          Failed)) /\
    (forall s1 s2,
       segs = [s1; s2] -> Text.toLowerCase s1 <> "genre" ->
       ~ (Text.toLowerCase s1 = "stock" /\
          Text.toLowerCase s2 = "available") ->
       BookRoutes.route BookRoutes.initializeRoutes GET path false =
         Unmatched) /\
    (3 <= List.length segs ->
     BookRoutes.route BookRoutes.initializeRoutes GET path false =
       Unmatched).
Proof.
  intros path segs Hseg. split; [|split; [|split; [|split]]].
  - intros ->. now rewrite (route_root GET path Hseg).
  - intros s -> Hne Hs. rewrite (route_one GET path s Hseg Hne).
    destruct (String.eqb "search" (Text.toLowerCase s)) eqn:He.
    { apply String.eqb_eq in He. now elim Hs. }
    cbn -[String.eqb]. split; [intros v Hv | intros Hv]; now rewrite Hv.
  - intros s1 s2 -> H1 H2. rewrite (route_two GET path s1 s2 Hseg).
    rewrite H1, H2. simpl.
    split; [intros v Hv | intros Hv]; now rewrite Hv.
  - intros s1 s2 -> H1 H2. rewrite (route_two GET path s1 s2 Hseg).
    destruct (String.eqb "genre" (Text.toLowerCase s1)) eqn:Eg.
    { apply String.eqb_eq in Eg. now elim H1. }
    destruct (String.eqb "stock" (Text.toLowerCase s1)) eqn:E1;
      [|reflexivity].
    destruct (String.eqb "available" (Text.toLowerCase s2)) eqn:E2;
      [|reflexivity].
    apply String.eqb_eq in E1. apply String.eqb_eq in E2.
    elim H2. now split.
  - intros Hlen. destruct segs as [|s1 [|s2 [|s3 rest]]]; simpl in Hlen;
      try lia.
    now apply (route_long GET path s1 s2 s3 rest).
Qed.

Lemma get_routes_by_segments_witness :
  BookRoutes.route BookRoutes.initializeRoutes GET "/genre" false =
    Handled getBookById [("id", "genre")] /\
  BookRoutes.route BookRoutes.initializeRoutes GET "/%41bc" false =
    Handled getBookById [("id", "Abc")] /\
  BookRoutes.route BookRoutes.initializeRoutes GET "/genre/Sci%65nce/" false =
    Handled getBooksByGenre [("genre", "Science")] /\
  BookRoutes.route BookRoutes.initializeRoutes GET "/genre/%zz" false =
    Failed /\
  BookRoutes.route BookRoutes.initializeRoutes GET "/stock/all" false =
    Unmatched.
Proof.
  destruct (get_routes_by_segments "/genre" ["genre"] eq_refl)
    as [_ [H1 _]].
  destruct (get_routes_by_segments "/%41bc" ["%41bc"] eq_refl)
    as [_ [H2 _]].
  destruct (get_routes_by_segments "/genre/Sci%65nce/" ["genre"; "Sci%65nce"]
              eq_refl) as [_ [_ [H3 _]]].
  destruct (get_routes_by_segments "/genre/%zz" ["genre"; "%zz"] eq_refl)
    as [_ [_ [H4 _]]].
  destruct (get_routes_by_segments "/stock/all" ["stock"; "all"] eq_refl)
    as [_ [_ [_ [H5 _]]]].
  split; [|split; [|split; [|split]]].
  - apply (H1 "genre"); [reflexivity | reflexivity | discriminate |].
    reflexivity.
  - apply (H2 "%41bc"); [reflexivity | reflexivity | discriminate |].
    reflexivity.
  - apply (H3 "genre" "Sci%65nce"); reflexivity.
  - apply (H4 "genre" "%zz"); reflexivity.
  - apply (H5 "stock" "all"); [reflexivity | discriminate |].
    intros [_ H]. discriminate.
Defined.

(** X17. What the writing methods reach.  A POST is handled on the
    collection path only.  On a path of one non-empty segment that can be
    decoded, a PUT and a DELETE take the decoded segment as the identifier,
    whatever it spells, search included, and a POST has no route; when the
    segment cannot be decoded the three end with an error of the router.
    On a path of two segments they have no route, unless the path is genre
    and a segment that cannot be decoded, which is an error for them as
    well.  Longer paths have no route. *)
Theorem write_routes_by_segments :
  forall path segs,
    BookRoutes.segments path = Some segs ->
    (BookRoutes.route BookRoutes.initializeRoutes POST path false =
       Handled createBook [] <-> segs = []) /\
    (segs = [] ->
     BookRoutes.route BookRoutes.initializeRoutes PUT path false =
       Unmatched /\
     BookRoutes.route BookRoutes.initializeRoutes DELETE path false =
       Unmatched) /\
    (forall s,
       segs = [s] -> Text.is_empty s = false ->
       (forall v,
          Text.decodeURIComponent s = Some v ->
          BookRoutes.route BookRoutes.initializeRoutes POST path false =
            Unmatched /\
          BookRoutes.route BookRoutes.initializeRoutes PUT path false =
            Handled updateBook [("id", v)] /\
          BookRoutes.route BookRoutes.initializeRoutes DELETE path false =
            Handled deleteBook [("id", v)]) /\
       (Text.decodeURIComponent s = None ->
        forall m,
          m <> GET ->
          BookRoutes.route BookRoutes.initializeRoutes m path false =
            Failed)) /\
    (forall s1 s2 m,
       segs = [s1; s2] -> m <> GET ->
       (Text.toLowerCase s1 = "genre" -> Text.is_empty s2 = false ->
        Text.decodeURIComponent s2 = None ->
        BookRoutes.route BookRoutes.initializeRoutes m path false =
          Failed) /\
       (forall v,
          Text.decodeURIComponent s2 = Some v ->
          BookRoutes.route BookRoutes.initializeRoutes m path false =
            Unmatched)) /\
    (forall m,
       3 <= List.length segs ->
       BookRoutes.route BookRoutes.initializeRoutes m path false =
         Unmatched).
Proof.
  intros path segs Hseg. split; [|split; [|split; [|split]]].
  - split.
    + intros H. destruct segs as [|s [|s2 [|s3 rest]]]; [reflexivity|..].
      * destruct (Text.is_empty s) eqn:Hne.
        { apply is_empty_true in Hne. subst s.
          rewrite (route_empty_segment POST path Hseg) in H. discriminate. }
        rewrite (route_one POST path s Hseg Hne) in H. cbn -[String.eqb Text.decodeURIComponent] in H.
        destruct (Text.decodeURIComponent s); discriminate.
      * rewrite (route_two POST path s s2 Hseg) in H. cbn -[String.eqb Text.decodeURIComponent] in H.
        destruct (String.eqb "genre" (Text.toLowerCase s)
                  && negb (Text.is_empty s2)); [|discriminate].
        destruct (Text.decodeURIComponent s2); discriminate.
      * rewrite (route_long POST path s s2 s3 rest Hseg) in H. discriminate.
    + intros ->. now rewrite (route_root POST path Hseg).
  - intros ->. now rewrite !(route_root _ path Hseg).
  - intros s -> Hne. split.
    + intros v Hv. rewrite !(route_one _ path s Hseg Hne), Hv.
      cbn -[String.eqb]. repeat split.
    + intros Hv m Hm. rewrite (route_one m path s Hseg Hne), Hv.
      destruct m; cbn -[String.eqb]; try reflexivity. now elim Hm.
  - intros s1 s2 m -> Hm. rewrite (route_two m path s1 s2 Hseg).
    assert (Hg : BookRoutes.method_eqb m GET = false)
      by (destruct m; try reflexivity; now elim Hm).
    rewrite Hg. cbn -[String.eqb Text.decodeURIComponent]. split.
    + intros H1 H2 Hv. now rewrite H1, H2, Hv.
    + intros v Hv. rewrite Hv.
      destruct (String.eqb "genre" (Text.toLowerCase s1)
                && negb (Text.is_empty s2)); [|reflexivity].
      destruct m; try reflexivity. now elim Hm.
  - intros m Hlen. destruct segs as [|s1 [|s2 [|s3 rest]]]; simpl in Hlen;
      try lia.
    now apply (route_long m path s1 s2 s3 rest).
Qed.

Lemma write_routes_by_segments_witness :
  BookRoutes.route BookRoutes.initializeRoutes DELETE "/search" false =
    Handled deleteBook [("id", "search")] /\
  BookRoutes.route BookRoutes.initializeRoutes POST "/search" false =
    Unmatched /\
  BookRoutes.route BookRoutes.initializeRoutes POST "/%zz" false = Failed /\
  BookRoutes.route BookRoutes.initializeRoutes DELETE "/genre/%zz" false =
    Failed.
Proof.
  destruct (write_routes_by_segments "/search" ["search"] eq_refl)
    as [_ [_ [H1 _]]].
  destruct (write_routes_by_segments "/%zz" ["%zz"] eq_refl)
    as [_ [_ [H2 _]]].
  destruct (write_routes_by_segments "/genre/%zz" ["genre"; "%zz"] eq_refl)
    as [_ [_ [_ [H3 _]]]].
  destruct (H1 "search" eq_refl eq_refl) as [H1' _].
  destruct (H1' "search" eq_refl) as [Hp [_ Hd]].
  destruct (H2 "%zz" eq_refl eq_refl) as [_ H2'].
  destruct (H3 "genre" "%zz" DELETE eq_refl) as [H3' _]; [discriminate|].
  split; [exact Hd|]. split; [exact Hp|]. split.
  - apply H2'; [reflexivity | discriminate].
  - apply H3'; reflexivity.
Defined.

(** ** The application *)

Lemma split_cons (s : string) : exists x t, BookRoutes.split s = x :: t.
Proof.
  induction s as [|c r [x [t IH]]]; simpl.
  - now exists "", [].
  - destruct (Ascii.eqb c "/"); [now exists "", (BookRoutes.split r)|].
    rewrite IH. now exists (String c x), t.
Qed.

Lemma strip_prefix_self p rest :
  App.strip_prefix p (p ++ rest) = Some rest.
Proof.
  induction p as [|c p IH]; simpl; [now destruct rest|].
  now rewrite Ascii.eqb_refl.
Qed.

Lemma mounted_rest rest url :
  App.mounted "/api/books" ("/api/books" ++ rest) = Some url ->
  rest = "" \/ exists r, rest = String "/" r.
Proof.
  unfold App.mounted. rewrite strip_prefix_self.
  destruct rest as [|c r]; [now left|].
  destruct (Ascii.eqb c "/") eqn:Hc; [|discriminate].
  apply Ascii.eqb_eq in Hc. subst c. right. now exists r.
Qed.

(** A path under the mount is neither the health nor the welcome path. *)
Lemma under_mount_not_health rest :
  rest = "" \/ (exists r, rest = String "/" r) ->
  App.matches "/health" ("/api/books" ++ rest) = false /\
  App.matches "/api" ("/api/books" ++ rest) = false.
Proof.
  intros [-> | [r ->]]; [split; reflexivity|].
  unfold App.matches, BookRoutes.regexp_exec, BookRoutes.segments.
  cbn -[String.eqb BookRoutes.drop_last_empty BookRoutes.captures].
  destruct (split_cons r) as [x [t ->]].
  destruct t as [|y t']; cbn -[String.eqb]; lower_literals.
  - destruct (Text.is_empty x); split; reflexivity.
  - split; reflexivity.
Qed.

Lemma handle_under_mount year cast regex_i st now fresh req rest url :
  match req with Options _ => False | _ => True end ->
  App.path_of req = ("/api/books" ++ rest)%string ->
  App.mounted "/api/books" (App.path_of req) = Some url ->
  App.handle year cast regex_i st now fresh req =
  App.books year cast regex_i st now fresh req url.
Proof.
  intros Hreq Hpath Hm. unfold App.handle.
  rewrite Hpath in Hm.
  destruct (under_mount_not_health rest (mounted_rest rest url Hm))
    as [H1 H2].
  rewrite <- Hpath in H1, H2, Hm.
  destruct req; try (now elim Hreq);
    cbv zeta; rewrite ?H1, ?H2, Hm; simpl; reflexivity.
Qed.

(** X18. A GET under /api/books reaches the handler that the book router
    selects for the rest of its path, with the decoded segment of the path
    as the handler's parameter, and leaves the store as it is: the
    collection path lists all books; search (in any case) searches with the
    query q; any other single segment is decoded and looked up as an
    identifier; stock/available lists the books in stock; genre and a
    segment filters by the decoded segment. *)
Theorem app_get_reaches_the_book_handlers :
  forall year cast regex_i st now fresh rest url q segs,
    App.mounted "/api/books" ("/api/books" ++ rest) = Some url ->
    BookRoutes.segments url = Some segs ->
    (segs = [] ->
     App.handle year cast regex_i st now fresh
       (Get ("/api/books" ++ rest) q) =
       (st, Envelope (BookController.getAllBooks regex_i st))) /\
    (forall s,
       segs = [s] -> Text.toLowerCase s = "search" ->
       App.handle year cast regex_i st now fresh
         (Get ("/api/books" ++ rest) q) =
         (st, Envelope (BookController.searchBooks regex_i st q))) /\
    (forall s v,
       segs = [s] -> Text.is_empty s = false ->
       Text.toLowerCase s <> "search" ->
       Text.decodeURIComponent s = Some v ->
       App.handle year cast regex_i st now fresh
         (Get ("/api/books" ++ rest) q) =
         (st, Envelope (BookController.getBookById cast st (Some v)))) /\
    (forall s1 s2,
       segs = [s1; s2] ->
       Text.toLowerCase s1 = "stock" -> Text.toLowerCase s2 = "available" ->
       App.handle year cast regex_i st now fresh
         (Get ("/api/books" ++ rest) q) =
         (st, Envelope (BookController.getInStockBooks regex_i st))) /\
    (forall s1 s2 v,
       segs = [s1; s2] ->
       Text.toLowerCase s1 = "genre" -> Text.is_empty s2 = false ->
       Text.decodeURIComponent s2 = Some v ->
       App.handle year cast regex_i st now fresh
         (Get ("/api/books" ++ rest) q) =
         (st, Envelope (BookController.getBooksByGenre regex_i st
                          (Some v)))).
Proof.
  intros year cast regex_i st now fresh rest url q segs Hm Hseg.
  rewrite (handle_under_mount year cast regex_i st now fresh
             (Get ("/api/books" ++ rest) q) rest url I eq_refl Hm).
  unfold App.books.
  split; [|split; [|split; [|split]]].
  - intros ->. now rewrite (route_root GET url Hseg).
  - intros s -> Hs.
    assert (Hne : Text.is_empty s = false) by now destruct s.
    now rewrite (route_one GET url s Hseg Hne), Hs.
  - intros s v -> Hne Hs Hv. rewrite (route_one GET url s Hseg Hne), Hv.
    destruct (String.eqb "search" (Text.toLowerCase s)) eqn:He.
    { apply String.eqb_eq in He. now elim Hs. }
    reflexivity.
  - intros s1 s2 -> H1 H2.
    now rewrite (route_two GET url s1 s2 Hseg), H1, H2.
  - intros s1 s2 v -> H1 H2 Hv.
    rewrite (route_two GET url s1 s2 Hseg), H1, H2, Hv. reflexivity.
Qed.

Lemma app_get_reaches_the_book_handlers_witness :
  App.handle 2026 Instances.hex24 Instances.literal_dot_engine
    Instances.library 7000%Z 9%N
    (Get "/api/books/00000000000000000000000%31" None) =
  (Instances.library,
   Envelope (BookController.reply_one 200 "Book retrieved successfully"
               Instances.hobbit)).
Proof.
  destruct (app_get_reaches_the_book_handlers 2026 Instances.hex24
              Instances.literal_dot_engine Instances.library 7000%Z 9%N
              "/00000000000000000000000%31" "/00000000000000000000000%31"
              None ["00000000000000000000000%31"] eq_refl eq_refl)
    as [_ [_ [H _]]].
  change ("/api/books/00000000000000000000000%31")
    with ("/api/books" ++ "/00000000000000000000000%31")%string.
  rewrite (H "00000000000000000000000%31" "000000000000000000000001"
             eq_refl eq_refl);
    [reflexivity | discriminate | reflexivity].
Defined.

(** X19. Requests that no route takes are answered 404 with their full
    path and leave the store untouched.  Under /api/books, with every
    segment decodable: a POST to anything but the collection path, a PUT or
    DELETE to the collection path or to a path of two segments, and any
    method on a path of three or more segments; and a POST, PUT or DELETE
    outside /api/books.  In particular a POST to a book's own path creates
    nothing. *)
Theorem app_unrouted_request_is_404 :
  forall year cast regex_i st now fresh,
    (forall rest url segs,
       App.mounted "/api/books" ("/api/books" ++ rest) = Some url ->
       BookRoutes.segments url = Some segs ->
       (forall s v body,
          segs = [s] -> Text.decodeURIComponent s = Some v ->
          App.handle year cast regex_i st now fresh
            (Post ("/api/books" ++ rest) body) =
            (st, RouteNotFound ("/api/books" ++ rest))) /\
       (forall body,
          segs = [] ->
          App.handle year cast regex_i st now fresh
            (Put ("/api/books" ++ rest) body) =
            (st, RouteNotFound ("/api/books" ++ rest)) /\
          App.handle year cast regex_i st now fresh
            (Delete ("/api/books" ++ rest)) =
            (st, RouteNotFound ("/api/books" ++ rest))) /\
       (forall s1 s2 v body pbody,
          segs = [s1; s2] -> Text.decodeURIComponent s2 = Some v ->
          App.handle year cast regex_i st now fresh
            (Post ("/api/books" ++ rest) body) =
            (st, RouteNotFound ("/api/books" ++ rest)) /\
          App.handle year cast regex_i st now fresh
            (Put ("/api/books" ++ rest) pbody) =
            (st, RouteNotFound ("/api/books" ++ rest)) /\
          App.handle year cast regex_i st now fresh
            (Delete ("/api/books" ++ rest)) =
            (st, RouteNotFound ("/api/books" ++ rest))) /\
       (forall req,
          3 <= List.length segs ->
          match req with Options _ => False | _ => True end ->
          App.path_of req = ("/api/books" ++ rest)%string ->
          App.handle year cast regex_i st now fresh req =
            (st, RouteNotFound ("/api/books" ++ rest)))) /\
    (forall path body pbody,
       App.mounted "/api/books" path = None ->
       App.handle year cast regex_i st now fresh (Post path body) =
         (st, RouteNotFound path) /\
       App.handle year cast regex_i st now fresh (Put path pbody) =
         (st, RouteNotFound path) /\
       App.handle year cast regex_i st now fresh (Delete path) =
         (st, RouteNotFound path)).
Proof.
  intros year cast regex_i st now fresh. split.
  - intros rest url segs Hm Hseg.
    split; [|split; [|split]].
    + intros s v body -> Hv.
      rewrite (handle_under_mount year cast regex_i st now fresh
                 (Post ("/api/books" ++ rest) body) rest url I eq_refl Hm).
      unfold App.books.
      destruct (Text.is_empty s) eqn:Hne.
      * apply is_empty_true in Hne. subst s.
        now rewrite (route_empty_segment POST url Hseg).
      * now rewrite (route_one POST url s Hseg Hne), Hv.
    + intros body ->.
      rewrite (handle_under_mount year cast regex_i st now fresh
                 (Put ("/api/books" ++ rest) body) rest url I eq_refl Hm).
      rewrite (handle_under_mount year cast regex_i st now fresh
                 (Delete ("/api/books" ++ rest)) rest url I eq_refl Hm).
      unfold App.books. rewrite !(route_root _ url Hseg).
      split; reflexivity.
    + intros s1 s2 v body pbody -> Hv.
      rewrite (handle_under_mount year cast regex_i st now fresh
                 (Post ("/api/books" ++ rest) body) rest url I eq_refl Hm).
      rewrite (handle_under_mount year cast regex_i st now fresh
                 (Put ("/api/books" ++ rest) pbody) rest url I eq_refl Hm).
      rewrite (handle_under_mount year cast regex_i st now fresh
                 (Delete ("/api/books" ++ rest)) rest url I eq_refl Hm).
      unfold App.books. rewrite !(route_two _ url s1 s2 Hseg), Hv.
      cbn -[String.eqb].
      destruct (String.eqb "genre" (Text.toLowerCase s1)
                && negb (Text.is_empty s2)); repeat split.
    + intros req Hlen Hreq Hpath.
      assert (Hm' : App.mounted "/api/books" (App.path_of req) = Some url)
        by now rewrite Hpath.
      rewrite (handle_under_mount year cast regex_i st now fresh
                 req rest url Hreq Hpath Hm').
      destruct segs as [|s1 [|s2 [|s3 r]]]; simpl in Hlen; try lia.
      unfold App.books, App.not_found. rewrite Hpath.
      destruct req; try (now elim Hreq);
        now rewrite (route_long _ url s1 s2 s3 r Hseg).
  - intros path body pbody Hm. unfold App.handle. simpl.
    rewrite Hm. repeat split.
Qed.

Lemma app_unrouted_request_is_404_witness :
  App.handle 2026 Instances.hex24 Instances.literal_dot_engine
    Instances.library 7000%Z 9%N
    (Post "/api/books/000000000000000000000001" Instances.mockingbird) =
  (Instances.library,
   RouteNotFound "/api/books/000000000000000000000001").
Proof.
  destruct (app_unrouted_request_is_404 2026 Instances.hex24
              Instances.literal_dot_engine Instances.library 7000%Z 9%N)
    as [H _].
  destruct (H "/000000000000000000000001" "/000000000000000000000001"
              ["000000000000000000000001"] eq_refl eq_refl) as [Hp _].
  change ("/api/books/000000000000000000000001")
    with ("/api/books" ++ "/000000000000000000000001")%string.
  apply (Hp "000000000000000000000001" "000000000000000000000001");
    reflexivity.
Defined.

(** X23. A request under /api/books whose path has the form of a route
    with a parameter, and whose parameter cannot be decoded, never reaches
    a handler nor the handler of undefined routes: whatever its method it
    is answered 500 by the error handler, and the store is left as it is.
    So it is for a single segment (for a GET, one that does not spell
    search) and for genre followed by a segment. *)
Theorem app_undecodable_parameter_is_500 :
  forall year cast regex_i st now fresh rest url segs req,
    App.mounted "/api/books" ("/api/books" ++ rest) = Some url ->
    BookRoutes.segments url = Some segs ->
    match req with Options _ => False | _ => True end ->
    App.path_of req = ("/api/books" ++ rest)%string ->
    (forall s,
       segs = [s] -> Text.is_empty s = false ->
       Text.toLowerCase s <> "search" ->
       Text.decodeURIComponent s = None ->
       App.handle year cast regex_i st now fresh req = (st, InternalError)) /\
    (forall s1 s2,
       segs = [s1; s2] -> Text.toLowerCase s1 = "genre" ->
       Text.is_empty s2 = false ->
       Text.decodeURIComponent s2 = None ->
       App.handle year cast regex_i st now fresh req = (st, InternalError)).
Proof.
  intros year cast regex_i st now fresh rest url segs req Hm Hseg Hreq Hpath.
  assert (Hm' : App.mounted "/api/books" (App.path_of req) = Some url)
    by now rewrite Hpath.
  rewrite (handle_under_mount year cast regex_i st now fresh
             req rest url Hreq Hpath Hm').
  unfold App.books. split.
  - intros s -> Hne Hs Hv.
    assert (He : String.eqb "search" (Text.toLowerCase s) = false).
    { apply String.eqb_neq. congruence. }
    destruct req; try (now elim Hreq);
      now rewrite (route_one _ url s Hseg Hne), Hv, ?He, ?andb_false_r.
  - intros s1 s2 -> H1 H2 Hv.
    destruct req; try (now elim Hreq);
      rewrite (route_two _ url s1 s2 Hseg), H1, H2, Hv; reflexivity.
Qed.

Lemma app_undecodable_parameter_is_500_witness :
  App.handle 2026 Instances.hex24 Instances.literal_dot_engine
    Instances.library 7000%Z 9%N
    (Post "/api/books/%zz" Instances.mockingbird) =
    (Instances.library, InternalError) /\
  App.handle 2026 Instances.hex24 Instances.literal_dot_engine
    Instances.library 7000%Z 9%N (Delete "/api/books/genre/%zz") =
    (Instances.library, InternalError).
Proof.
  split.
  - destruct (app_undecodable_parameter_is_500 2026 Instances.hex24
                Instances.literal_dot_engine Instances.library 7000%Z 9%N
                "/%zz" "/%zz" ["%zz"]
                (Post "/api/books/%zz" Instances.mockingbird)
                eq_refl eq_refl I eq_refl) as [H _].
    apply (H "%zz"); [reflexivity | reflexivity | discriminate | reflexivity].
  - destruct (app_undecodable_parameter_is_500 2026 Instances.hex24
                Instances.literal_dot_engine Instances.library 7000%Z 9%N
                "/genre/%zz" "/genre/%zz" ["genre"; "%zz"]
                (Delete "/api/books/genre/%zz")
                eq_refl eq_refl I eq_refl) as [_ H].
    apply (H "genre" "%zz"); reflexivity.
Defined.

Lemma read_statuses cast regex_i st id q g :
  In (status (BookController.getAllBooks regex_i st)) [200; 500] /\
  In (status (BookController.getBookById cast st id)) [200; 400; 404; 500] /\
  In (status (snd (BookController.deleteBook cast st id)))
    [200; 400; 404; 500] /\
  In (status (BookController.searchBooks regex_i st q)) [200; 400; 500] /\
  In (status (BookController.getBooksByGenre regex_i st g)) [200; 400; 500] /\
  In (status (BookController.getInStockBooks regex_i st)) [200; 500].
Proof.
  split; [|split; [|split; [|split; [|split]]]].
  - unfold BookController.getAllBooks.
    destruct (BookService.getAllBooks regex_i st); simpl; auto.
  - unfold BookController.getBookById.
    destruct id as [id|]; [|simpl; auto].
    destruct (Text.is_empty id); [simpl; auto|].
    destruct (BookService.getBookById cast st id) as [[b|]|e]; simpl; auto.
  - unfold BookController.deleteBook.
    destruct id as [id|]; [|simpl; auto].
    destruct (Text.is_empty id); [simpl; auto|].
    destruct (BookService.deleteBook cast st id) as [st' [[b|]|e]];
      simpl; auto.
  - unfold BookController.searchBooks.
    destruct q as [q|]; [|simpl; auto].
    destruct (Text.is_empty q); [simpl; auto|].
    destruct (BookService.searchBooks regex_i st q); simpl; auto.
  - unfold BookController.getBooksByGenre.
    destruct g as [g|]; [|simpl; auto].
    destruct (Text.is_empty g); [simpl; auto|].
    destruct (BookService.getBooksByGenre regex_i st g); simpl; auto.
  - unfold BookController.getInStockBooks.
    destruct (BookService.getInStockBooks regex_i st); simpl; auto.
Qed.

Lemma statuses_incl (n : nat) (l : list nat) :
  In n l -> (forall x, In x l -> In x [200; 201; 400; 404; 500]) ->
  In n [200; 201; 400; 404; 500].
Proof. intros H Hl. now apply Hl. Qed.

(** X20. Whatever the request, the application answers with one of the
    statuses 200, 201, 400, 404 and 500; a request with the method OPTIONS
    is answered 200 on every path, before any route is tried, and leaves
    the store as it is. *)
Theorem app_statuses :
  forall year cast regex_i st now fresh req,
    In (App.reply_status
          (snd (App.handle year cast regex_i st now fresh req)))
       [200; 201; 400; 404; 500] /\
    forall path,
      App.handle year cast regex_i st now fresh (Options path) =
        (st, Preflight).
Proof.
  intros year cast regex_i st now fresh req. split; [|reflexivity].
  assert (Hbooks : forall url,
    In (App.reply_status
          (snd (App.books year cast regex_i st now fresh req url)))
       [200; 201; 400; 404; 500]).
  { intros url. unfold App.books. destruct req as [p q|p body|p body|p|p].
    - destruct (BookRoutes.route BookRoutes.initializeRoutes GET url false)
        as [h params| |]; [|simpl; auto|simpl; auto 10].
      destruct (read_statuses cast regex_i st (App.param "id" params) q
                  (App.param "genre" params))
        as [H1 [H2 [_ [H4 [H5 H6]]]]].
      destruct h; cbn [snd App.reply_status App.not_found];
        first [ apply (statuses_incl _ _ H1)
              | apply (statuses_incl _ _ H2)
              | apply (statuses_incl _ _ H4)
              | apply (statuses_incl _ _ H5)
              | apply (statuses_incl _ _ H6)
              | idtac ];
        simpl; intuition auto.
    - destruct (BookRoutes.route BookRoutes.initializeRoutes POST url false)
        as [h params| |]; [|simpl; auto|simpl; auto 10].
      destruct (create_and_update_never_answer_500 year cast st now fresh
                  body None (mkPartial None None None body)) as [H _].
      destruct h; cbn [snd App.reply_status App.not_found];
        try (cbn [In]; auto; fail).
      destruct (BookController.createBook year st now fresh body) as [s0 r].
      cbn [snd App.reply_status] in *. destruct H as [-> | ->]; simpl; auto.
    - destruct (BookRoutes.route BookRoutes.initializeRoutes PUT url false)
        as [h params| |]; [|simpl; auto|simpl; auto 10].
      destruct (create_and_update_never_answer_500 year cast st now fresh
                  (p_fields body) (App.param "id" params) body) as [_ H].
      destruct h; cbn [snd App.reply_status App.not_found];
        try (cbn [In]; auto; fail).
      destruct (BookController.updateBook year cast st now
                  (App.param "id" params) body) as [s0 r].
      cbn [snd App.reply_status] in *.
      destruct H as [-> | [-> | ->]]; simpl; auto.
    - destruct (BookRoutes.route BookRoutes.initializeRoutes DELETE url false)
        as [h params| |]; [|simpl; auto|simpl; auto 10].
      destruct (read_statuses cast regex_i st (App.param "id" params) None
                  None) as [_ [_ [H3 _]]].
      destruct h; cbn [snd App.reply_status App.not_found];
        try (cbn [In]; auto; fail).
      destruct (BookController.deleteBook cast st (App.param "id" params))
        as [s0 r].
      cbn [snd App.reply_status] in *.
      apply (statuses_incl _ _ H3). simpl. intuition auto.
    - simpl. auto. }
  unfold App.handle.
  destruct req as [p q|p body|p body|p|p]; cbv zeta;
    cbn [App.path_of andb].
  - destruct (App.matches "/health" p);
      [cbn [snd App.reply_status In]; auto|].
    destruct (App.matches "/api" p);
      [cbn [snd App.reply_status In]; auto|].
    destruct (App.mounted "/api/books" p) as [url|];
      [apply (Hbooks url) | cbn [App.not_found snd App.reply_status In]; auto].
  - destruct (App.mounted "/api/books" p) as [url|];
      [apply (Hbooks url) | cbn [App.not_found snd App.reply_status In]; auto].
  - destruct (App.mounted "/api/books" p) as [url|];
      [apply (Hbooks url) | cbn [App.not_found snd App.reply_status In]; auto].
  - destruct (App.mounted "/api/books" p) as [url|];
      [apply (Hbooks url) | cbn [App.not_found snd App.reply_status In]; auto].
  - cbn [snd App.reply_status In]. auto.
Qed.

(** ** Text of more than one byte *)




(** X25. A title made only of white space is no title: whichever of the
    white-space characters of ECMAScript it is made of, the no-break space
    and the byte-order mark among them, the setter of the path trims it to
    the empty string, so a create with such a title, and an update that
    supplies it, are answered 400 and leave the store as it is. *)
Theorem white_space_title_is_refused :
  forall year cast st now fresh d id oid body cps,
    Forall (fun cp => In cp white_space_points) cps ->
    (d_title d = Some (utf8 cps) ->
     fst (BookController.createBook year st now fresh d) = st /\
     status (snd (BookController.createBook year st now fresh d)) = 400) /\
    (Text.is_empty id = false -> cast id = Some oid ->
     d_title (p_fields body) = Some (utf8 cps) ->
     fst (BookController.updateBook year cast st now (Some id) body) = st /\
     status (snd (BookController.updateBook year cast st now (Some id) body))
       = 400).
Proof.
  intros year cast st now fresh d id oid body cps Hws.
  pose proof (trim_utf8_white_space cps Hws) as Htrim.
  split.
  - intros Ht.
    destruct (createBook_outcome year st now fresh d)
      as [Hpre | e es msg Hv Hmsg | m msg Hs Hf Hmsg
         | b msg Hs Hf Hw Hdup Hmsg | b Hs Hf Hw Hid Hc Hu Hdi Hdb];
      try (split; reflexivity).
    exfalso. destruct Hs as [[t [Dt [Hlen _]]] _].
    rewrite Ht in Dt. inversion Dt; subst t.
    rewrite Htrim in Hlen. simpl in Hlen. lia.
  - intros Hne Hc Ht.
    destruct (updateBook_outcome year cast st now id oid body Hne Hc)
      as [e es Hv | m Hv Hf | Hv Hf Hnone
         | b b' Hv Hf Hsome Hupd Hdup | b b' Hv Hf Hsome Hupd Hdup];
      try (split; reflexivity);
      exfalso; apply validate_update_supplied in Hv;
      destruct Hv as [Hv _]; specialize (Hv _ Ht);
      destruct Hv as [Hlen _]; rewrite Htrim in Hlen; simpl in Hlen; lia.
Qed.

Lemma white_space_title_is_refused_witness :
  status (snd (BookController.createBook 2026 Instances.library 5000%Z 9%N
                 (mkData (Some (utf8 [160; 8195; 65279]%N))
                    (Some "Harper Lee") (Some "9780061120084")
                    (Some (inject_Z 1960)) (Some "Fiction")
                    (Some (Qmake 1899 100)) None))) = 400.
Proof.
  destruct (white_space_title_is_refused 2026 Instances.hex24
              Instances.library 5000%Z 9%N
              (mkData (Some (utf8 [160; 8195; 65279]%N))
                 (Some "Harper Lee") (Some "9780061120084")
                 (Some (inject_Z 1960)) (Some "Fiction")
                 (Some (Qmake 1899 100)) None)
              Instances.id_of_hobbit 1%N Instances.price_change
              [160; 8195; 65279]%N) as [H _].
  - repeat (apply Forall_cons; [simpl; tauto|]). apply Forall_nil.
  - now destruct (H eq_refl).
Defined.

(** X26. The parameter of a route arrives decoded.  A segment without a
    percent sign arrives as it stands.  When every byte of a text is
    written as an escape in the path, the handler of the route receives the
    text itself: so for the genre of the genre filter and for the
    identifier of a lookup, an update and a delete.  The escapes of a
    surrogate are no text, and the request ends with an error of the
    router. *)
Theorem route_parameter_arrives_decoded :
  (forall s,
     Text.all (fun c => negb (Ascii.eqb c "%")) s = true ->
     Text.all (fun c => negb (Ascii.eqb c "/")) s = true ->
     Text.is_empty s = false ->
     (Text.toLowerCase s <> "search" ->
      BookRoutes.route BookRoutes.initializeRoutes GET ("/" ++ s) false =
        Handled getBookById [("id", s)]) /\
     BookRoutes.route BookRoutes.initializeRoutes GET ("/genre/" ++ s) false =
       Handled getBooksByGenre [("genre", s)]) /\
  (forall cps,
     cps <> [] -> Forall scalar cps ->
     BookRoutes.route BookRoutes.initializeRoutes GET
       ("/genre/" ++ escape_all (utf8 cps)) false =
       Handled getBooksByGenre [("genre", utf8 cps)] /\
     BookRoutes.route BookRoutes.initializeRoutes GET
       ("/" ++ escape_all (utf8 cps)) false =
       Handled getBookById [("id", utf8 cps)] /\
     BookRoutes.route BookRoutes.initializeRoutes PUT
       ("/" ++ escape_all (utf8 cps)) false =
       Handled updateBook [("id", utf8 cps)] /\
     BookRoutes.route BookRoutes.initializeRoutes DELETE
       ("/" ++ escape_all (utf8 cps)) false =
       Handled deleteBook [("id", utf8 cps)]) /\
  (forall cp,
     (55296 <= cp <= 57343)%N ->
     BookRoutes.route BookRoutes.initializeRoutes GET
       ("/" ++ escape_all (encode cp)) false = Failed).
Proof.
  assert (Hsearch : forall e,
    String.eqb "search" (Text.toLowerCase (escape_all e)) = false).
  { intros [|c e]; reflexivity. }
  split; [|split].
  - intros s Hp Hs Hne.
    destruct (segments_escaped s Hs Hne) as [S1 S2]. split.
    + intros Hn.
      assert (He : String.eqb "search" (Text.toLowerCase s) = false).
      { apply String.eqb_neq. congruence. }
      rewrite (route_one GET _ _ S1 Hne), He, (decode_plain s Hp).
      reflexivity.
    + rewrite (route_two GET _ _ _ S2), Hne, (decode_plain s Hp).
      reflexivity.
  - intros cps Hne Hs.
    pose proof (escaped_not_empty cps Hne) as He.
    destruct (segments_escaped (escape_all (utf8 cps))
                (escape_all_no_slash _) He) as [S1 S2].
    split; [|split; [|split]].
    + rewrite (route_two GET _ _ _ S2), He, (decode_escape_all cps Hs).
      reflexivity.
    + rewrite (route_one GET _ _ S1 He), Hsearch, (decode_escape_all cps Hs).
      reflexivity.
    + rewrite (route_one PUT _ _ S1 He), (decode_escape_all cps Hs).
      reflexivity.
    + rewrite (route_one DELETE _ _ S1 He), (decode_escape_all cps Hs).
      reflexivity.
  - intros cp Hcp.
    assert (He' : Text.is_empty (escape_all (encode cp)) = false).
    { pose proof (encode_not_empty cp) as H.
      destruct (encode cp); [now elim H | reflexivity]. }
    destruct (segments_escaped (escape_all (encode cp))
                (escape_all_no_slash _) He') as [S _].
    rewrite (route_one GET _ _ S He'), Hsearch, (decode_surrogate cp Hcp).
    reflexivity.
Qed.

Lemma route_parameter_arrives_decoded_witness :
  BookRoutes.route BookRoutes.initializeRoutes GET "/genre/Fantasy" false =
    Handled getBooksByGenre [("genre", "Fantasy")] /\
  BookRoutes.route BookRoutes.initializeRoutes GET
    "/genre/%46%61%6E%74%61%73%79" false =
    Handled getBooksByGenre [("genre", "Fantasy")] /\
  BookRoutes.route BookRoutes.initializeRoutes GET "/%ED%A0%80" false =
    Failed.
Proof.
  destruct route_parameter_arrives_decoded as [H0 [H1 H2]].
  destruct (H0 "Fantasy" eq_refl eq_refl eq_refl) as [_ H0'].
  destruct (H1 [70; 97; 110; 116; 97; 115; 121]%N) as [H1' _].
  - discriminate.
  - repeat (apply Forall_cons; [left; reflexivity|]). apply Forall_nil.
  - split; [exact H0'|]. split; [exact H1'|]. apply (H2 55296%N). lia.
Defined.
